(** * EPDS service: a shallow embedding of the submission handler

    The Go service under [cmd/epds-service] receives an EPDS questionnaire
    over HTTP, scores it, and writes the result to a remote FHIR store.
    This file embeds the handler [handleSubmitEPDS], the credential cache
    of [internal/auth] and the clients of [internal/fhir], and proves the
    properties the specification states about them.

    Conventions of the embedding:
    - a Go [string] is a [string] of bytes; a Go [int]/[int64] is a [Z]
      with the 64-bit wrap-around written out where arithmetic happens;
    - a Go [(T, error)] result is a [result T]; an [error] is its message;
    - the process environment (network, clock, JSON codec of the standard
      library) is a [GoRuntime]; the handler runs in a state monad over the
      environment, the credential cache and the log of remote calls, one
      request at a time;
    - a nil dereference ends the run with [Panicked]: the server recovers
      it and no response is written;
    - [log.Printf] output is not modelled. *)

From Stdlib Require Import ZArith String Ascii DecimalString Bool Lia.
From stdpp Require Import gmap strings list.

Open Scope Z_scope.

(** ** Strings and integers of the Go standard library *)

Module GoStd.

(** [int] on a 64-bit platform. *)
Definition int_min : Z := - 2 ^ 63.
Definition int_max : Z := 2 ^ 63 - 1.

Definition wrap_int (z : Z) : Z := (z + 2 ^ 63) mod 2 ^ 64 - 2 ^ 63.

Definition add_int (a b : Z) : Z := wrap_int (a + b).
Definition mul_int (a b : Z) : Z := wrap_int (a * b).

Definition in_int (z : Z) : bool := (int_min <=? z) && (z <=? int_max).

(** [%d] of [fmt]. *)
Definition itoa (z : Z) : string := NilZero.string_of_int (Z.to_int z).

Definition byte_of (c : ascii) : Z := Z.of_N (N_of_ascii c).

Definition digit_val (c : ascii) : option Z :=
  let n := byte_of c in
  if (48 <=? n) && (n <=? 57) then Some (n - 48) else None.

Fixpoint parse_digits (s : string) (acc : Z) : option Z :=
  match s with
  | EmptyString => Some acc
  | String c rest =>
      match digit_val c with
      | Some d => parse_digits rest (acc * 10 + d)
      | None => None
      end
  end.

(** [strconv.Atoi]: an optional sign, then one or more decimal digits, no
    blanks, the value within [int]; anything else is an error ([None]). *)
Definition Atoi (s : string) : option Z :=
  match s with
  | EmptyString => None
  | String c rest =>
      let signed := (byte_of c =? 45) || (byte_of c =? 43) in
      let digits := if signed then rest else s in
      match digits with
      | EmptyString => None
      | _ =>
          match parse_digits digits 0 with
          | Some n =>
              let v := if byte_of c =? 45 then - n else n in
              if in_int v then Some v else None
          | None => None
          end
      end
  end.

(** White space as [unicode.IsSpace] sees it on UTF-8 bytes: each entry is
    the encoding of one code point of the White_Space property. *)
Definition space_runes : list (list Z) :=
  [ [9]; [10]; [11]; [12]; [13]; [32];
    [194; 133]; [194; 160];
    [225; 154; 128];
    [226; 128; 128]; [226; 128; 129]; [226; 128; 130]; [226; 128; 131];
    [226; 128; 132]; [226; 128; 133]; [226; 128; 134]; [226; 128; 135];
    [226; 128; 136]; [226; 128; 137]; [226; 128; 138];
    [226; 128; 168]; [226; 128; 169]; [226; 128; 175];
    [226; 129; 159];
    [227; 128; 128] ].

Fixpoint strip_prefix (p l : list Z) : option (list Z) :=
  match p, l with
  | [], _ => Some l
  | a :: p', b :: l' => if a =? b then strip_prefix p' l' else None
  | _ :: _, [] => None
  end.

Fixpoint strip_any (ps : list (list Z)) (l : list Z) : option (list Z) :=
  match ps with
  | [] => None
  | p :: ps' =>
      match strip_prefix p l with
      | Some l' => Some l'
      | None => strip_any ps' l
      end
  end.

Fixpoint trim_left (fuel : nat) (runes : list (list Z)) (l : list Z) : list Z :=
  match fuel with
  | O => l
  | S fuel' =>
      match strip_any runes l with
      | Some l' => trim_left fuel' runes l'
      | None => l
      end
  end.

Definition bytes_of (s : string) : list Z := map byte_of (list_ascii_of_string s).

Definition string_of (l : list Z) : string :=
  string_of_list_ascii (map (fun z => ascii_of_N (Z.to_N z)) l).

(** [strings.TrimSpace]: leading, then trailing white space removed. *)
Definition TrimSpace (s : string) : string :=
  let l := bytes_of s in
  let l1 := trim_left (length l) space_runes l in
  let r := trim_left (length l1) (map (@rev Z) space_runes) (rev l1) in
  string_of (rev r).

End GoStd.

Export GoStd.

(** ** The inbound request and the response written to the client *)

(** [url.Values] *)
Abbreviation Values := (gmap string (list string)).

Record Request := {
  Method : string;
  (** what [r.ParseForm()] leaves in [r.Form]; [None] when it reports an error *)
  ParseForm : option Values
}.

(** [r.FormValue(key)] once the form is parsed: the first value, or empty. *)
Definition FormValue (form : Values) (key : string) : string :=
  match form !! key with
  | Some (v :: _) => v
  | _ => EmptyString
  end.

(** [ErrorResponse] in [main.go]. *)
Record ErrorResponse := {
  Status : string;
  Message : string
}.

Inductive ResponseBody :=
| JSONBody (e : ErrorResponse)   (* the struct passed to the JSON encoder *)
| RawBody (s : string).          (* bytes written as they are *)

Record Response := {
  resp_code : Z;
  resp_content_type : string;
  resp_body : ResponseBody
}.

Definition StatusOK : Z := 200.
Definition StatusCreated : Z := 201.
Definition StatusBadRequest : Z := 400.
Definition StatusMethodNotAllowed : Z := 405.
Definition StatusInternalServerError : Z := 500.

Definition sendJSONError (message : string) (code : Z) : Response :=
  {| resp_code := code;
     resp_content_type := "application/json";
     resp_body := JSONBody {| Status := "error"; Message := message |} |}.

(** [http.Error] *)
Definition http_Error (message : string) (code : Z) : Response :=
  {| resp_code := code;
     resp_content_type := "text/plain; charset=utf-8";
     resp_body := RawBody (message +:+ String "010"%char EmptyString) |}.

Definition dquote : string := String "034"%char EmptyString.

(** The success body of step 7, as [fmt.Fprintf] lays it out. *)
Definition success_body (observationId : string) (totalScore : Z) : string :=
  "{" +:+ dquote +:+ "status" +:+ dquote +:+ ": " +:+ dquote +:+ "success" +:+ dquote
  +:+ ", " +:+ dquote +:+ "observationId" +:+ dquote +:+ ": " +:+ dquote
  +:+ observationId +:+ dquote
  +:+ ", " +:+ dquote +:+ "calculatedScore" +:+ dquote +:+ ": " +:+ itoa totalScore +:+ "}".

Definition sendSuccess (observationId : string) (totalScore : Z) : Response :=
  {| resp_code := StatusOK;
     resp_content_type := "application/json";
     resp_body := RawBody (success_body observationId totalScore) |}.

(** ** Score engine (steps 2 and 3 of [handleSubmitEPDS]) *)

Definition qKey (i : Z) : string := "q" +:+ itoa i.

(** The validation loop, [for i := 1; i <= 10; i++], over the indices still
    to visit; it leaves through [sendJSONError] at the first bad answer. *)
Fixpoint parseScores_loop (form : Values) (idxs : list Z) (epdsScores : list Z)
  : Response + list Z :=
  match idxs with
  | [] => inr epdsScores
  | i :: idxs' =>
      let qValueStr := FormValue form (qKey i) in
      if String.eqb qValueStr EmptyString then
        inl (sendJSONError ("Invalid input: " +:+ qKey i +:+ " is required") StatusBadRequest)
      else
        match Atoi qValueStr with
        | None =>
            inl (sendJSONError ("Invalid input: " +:+ qKey i +:+ " must be an integer")
                   StatusBadRequest)
        | Some qValueInt =>
            if (qValueInt <? 0) || (qValueInt >? 3) then
              inl (sendJSONError
                     ("Invalid input: " +:+ qKey i +:+ " score must be between 0 and 3")
                     StatusBadRequest)
            else
              parseScores_loop form idxs' (<[Z.to_nat (i - 1) := qValueInt]> epdsScores)
        end
  end.

Definition parseScores (form : Values) : Response + list Z :=
  parseScores_loop form (seqZ 1 10) (replicate 10 0).

(** [for _, score := range epdsScores { totalScore += score }] *)
Definition totalScore (epdsScores : list Z) : Z :=
  fold_left add_int epdsScores 0.

(** [epdsScores[9]] *)
Definition q10Score (epdsScores : list Z) : Z := nth 9 epdsScores 0.

Definition isHighRisk (total q10 : Z) : bool := (13 <=? total) || (1 <=? q10).


(** ** Configuration and the resources sent to the record store *)

(** [config.Config] *)
Record Config := {
  OystehrFHIRBaseURL : string;
  OystehrAuthURL : string;
  OystehrProjectID : string;
  OystehrM2MClientID : string;
  OystehrM2MClientSecret : string;
  AlertProviderFHIRID : string;
  Port : string
}.

Record fhirCoding := {
  coding_System : string;
  coding_Code : string;
  coding_Display : string
}.

Record fhirCategory := {
  category_Coding : list fhirCoding;
  category_Text : string
}.

Record fhirCode := {
  code_Coding : list fhirCoding;
  code_Text : string
}.

Record fhirReference := { Reference : string }.

Record fhirObservation := {
  obs_ResourceType : string;
  obs_Status : string;
  obs_Category : list fhirCategory;
  obs_Code : fhirCode;
  obs_Subject : fhirReference;
  obs_EffectiveDateTime : string;
  obs_ValueInteger : Z
}.

Record fhirMeta := { Tag : list fhirCoding }.

(** [Encounter] and [Meta] are pointers with [omitempty]: [None] is [nil]. *)
Record fhirFlag := {
  flag_ResourceType : string;
  flag_Status : string;
  flag_Category : list fhirCategory;
  flag_Code : fhirCode;
  flag_Subject : fhirReference;
  flag_Encounter : option fhirReference;
  flag_Meta : option fhirMeta
}.

Record fhirPayload := { ContentString : string }.

Record fhirCommunication := {
  comm_ResourceType : string;
  comm_Status : string;
  comm_Category : list fhirCategory;
  comm_Subject : fhirReference;
  comm_Recipient : list fhirReference;
  comm_Payload : list fhirPayload;
  comm_Sent : string
}.

(** What a request carries, before [json.Marshal] turns it into bytes.
    Marshalling these structs (strings, integers, slices of such) cannot
    fail, so its error branch is not represented. *)
Inductive RequestBody :=
| NoBody
| AuthBody (reqBodyMap : list (string * string))
| ObservationBody (obs : fhirObservation)
| FlagBody (flag : fhirFlag)
| CommunicationBody (comm : fhirCommunication).

Record HttpRequest := {
  req_Method : string;
  req_URL : string;
  req_Header : list (string * string);
  req_Body : RequestBody
}.

(** An [error] is represented by its message. *)
Definition error := string.

Inductive result (A : Type) :=
| Ok (a : A)
| Err (e : error).
Arguments Ok {A} a.
Arguments Err {A} e.

(** A response as the clients read it: the status, the bytes [io.ReadAll]
    obtained from the body, and the error it reported, if any. *)
Record HttpResponse := {
  StatusCode : Z;
  Body : string;
  BodyErr : option error
}.

Record createdResource := { created_ID : string }.
Record fhirID := { ID : string }.
(** [bundle]: the raw [resource] of each entry. *)
Record bundle := { Entry : list string }.

Record AuthResponse := {
  AccessToken : string;
  TokenType : string;
  ExpiresIn : Z
}.

Record AuthErrorResponse := {
  auth_Error : string;
  ErrorDescription : string
}.

(** ** Configuration loading ([internal/config]) *)

(** The process environment [os.Getenv] reads: an unset variable reads as
    the empty string. *)
Abbreviation Environ := (gmap string string).

Definition Getenv (env : Environ) (key : string) : string :=
  match env !! key with
  | Some v => v
  | None => EmptyString
  end.

Definition missing_variable (name : string) : error :=
  "required environment variable " +:+ name +:+ " is not set".

(** [config.LoadConfig]: the six required variables are checked in the
    order of the source; [PORT] falls back to 8080. *)
Definition LoadConfig (env : Environ) : result Config :=
  let cfg := {| OystehrFHIRBaseURL := Getenv env "OYSTEHR_FHIR_BASE_URL";
                OystehrAuthURL := Getenv env "OYSTEHR_AUTH_URL";
                OystehrProjectID := Getenv env "OYSTEHR_PROJECT_ID";
                OystehrM2MClientID := Getenv env "OYSTEHR_M2M_CLIENT_ID";
                OystehrM2MClientSecret := Getenv env "OYSTEHR_M2M_CLIENT_SECRET";
                AlertProviderFHIRID := Getenv env "ALERT_PROVIDER_FHIR_ID";
                Port := Getenv env "PORT" |} in
  if String.eqb (OystehrFHIRBaseURL cfg) EmptyString then
    Err (missing_variable "OYSTEHR_FHIR_BASE_URL")
  else if String.eqb (OystehrAuthURL cfg) EmptyString then
    Err (missing_variable "OYSTEHR_AUTH_URL")
  else if String.eqb (OystehrProjectID cfg) EmptyString then
    Err (missing_variable "OYSTEHR_PROJECT_ID")
  else if String.eqb (OystehrM2MClientID cfg) EmptyString then
    Err (missing_variable "OYSTEHR_M2M_CLIENT_ID")
  else if String.eqb (OystehrM2MClientSecret cfg) EmptyString then
    Err (missing_variable "OYSTEHR_M2M_CLIENT_SECRET")
  else if String.eqb (AlertProviderFHIRID cfg) EmptyString then
    Err (missing_variable "ALERT_PROVIDER_FHIR_ID")
  else if String.eqb (Port cfg) EmptyString then
    Ok {| OystehrFHIRBaseURL := OystehrFHIRBaseURL cfg;
          OystehrAuthURL := OystehrAuthURL cfg;
          OystehrProjectID := OystehrProjectID cfg;
          OystehrM2MClientID := OystehrM2MClientID cfg;
          OystehrM2MClientSecret := OystehrM2MClientSecret cfg;
          AlertProviderFHIRID := AlertProviderFHIRID cfg;
          Port := "8080" |}
  else Ok cfg.

(** ** The environment of the process *)

(** Instants are nanosecond counts on the process clock; durations are
    [int64] nanoseconds. *)
Definition Time := Z.
Definition Second : Z := 1000000000.
Definition Minute : Z := 60 * Second.

Class GoRuntime := {
  World : Type;
  (** [time.Now()] *)
  time_Now : World -> Time * World;
  (** [t.Format(time.RFC3339)] *)
  Format_RFC3339 : Time -> string;
  (** the error of [http.NewRequest(method, url, body)], if any *)
  NewRequest_err : string -> string -> option error;
  (** [httpClient.Do(req)] followed by reading the body *)
  httpClient_Do : HttpRequest -> World -> result HttpResponse * World;
  (** [encoding/json] on the structs the clients decode into *)
  Unmarshal_createdResource : string -> result createdResource;
  Decode_bundle : string -> option error -> result bundle;
  Unmarshal_fhirID : string -> result fhirID;
  Unmarshal_AuthResponse : string -> result AuthResponse;
  Unmarshal_AuthErrorResponse : string -> result AuthErrorResponse
}.

(** [auth.Authenticator]; the HTTP client and the mutex are left to the
    runtime (calls are modelled one at a time). *)
Record Authenticator := {
  config : Config;
  token : string;
  expiry : Time;
  tokenBuffer : Z
}.

(** The zero [time.Time]. *)
Definition zeroTime : Time := 0.

Definition NewAuthenticator (cfg : Config) : Authenticator :=
  {| config := cfg;
     token := EmptyString;
     expiry := zeroTime;
     tokenBuffer := mul_int 5 Minute |}.

(** The remote operations, named by the function that issues the request. *)
Inductive RemoteCall :=
| TokenExchange
| PatientSearch
| EncounterByAppointment
| EncounterBySubject
| ObservationCreate
| FlagCreate
| CommunicationCreate.

#[export] Instance RemoteCall_eq_dec : EqDecision RemoteCall.
Proof. solve_decision. Defined.

(** A goroutine either returns or panics. *)
Inductive Outcome (A : Type) :=
| Returned (a : A)
| Panicked (msg : string).
Arguments Returned {A} a.
Arguments Panicked {A} msg.

(** The state a request runs against: the outside world, the credential
    cache shared by all requests, and the requests sent so far. *)
Record St `{GoRuntime} := {
  world : World;
  authenticator : Authenticator;
  calls : list (RemoteCall * HttpRequest)
}.

Definition M `{GoRuntime} (A : Type) : Type := St -> Outcome A * St.

Definition ret `{GoRuntime} {A} (a : A) : M A := fun st => (Returned a, st).

Definition bind `{GoRuntime} {A B} (m : M A) (k : A -> M B) : M B := fun st =>
  match m st with
  | (Returned a, st') => k a st'
  | (Panicked msg, st') => (Panicked msg, st')
  end.

Notation "'let*' x ':=' m 'in' k" := (bind m (fun x => k))
  (at level 10, x name, m at level 100, k at level 200).

Section Effects.

Context `{GoRuntime}.

Definition panic {A} (msg : string) : M A := fun st => (Panicked msg, st).

Definition Now : M Time := fun st =>
  let '(t, w) := time_Now (world st) in
  (Returned t, {| world := w; authenticator := authenticator st; calls := calls st |}).

Definition Do (call : RemoteCall) (req : HttpRequest) : M (result HttpResponse) := fun st =>
  let '(r, w) := httpClient_Do req (world st) in
  (Returned r,
   {| world := w; authenticator := authenticator st;
      calls := calls st ++ [(call, req)] |}).

Definition getAuthenticator : M Authenticator := fun st => (Returned (authenticator st), st).

Definition setAuthenticator (a : Authenticator) : M unit := fun st =>
  (Returned tt, {| world := world st; authenticator := a; calls := calls st |}).

End Effects.

Definition nil_dereference : string := "invalid memory address or nil pointer dereference".

(** [t.Add(d)] and [t.Before(u)] *)
Definition Time_Add (t : Time) (d : Z) : Time := t + d.
Definition Time_Before (t u : Time) : bool := t <? u.

(** ** Credential cache ([internal/auth]) *)

Section Auth.

Context `{GoRuntime}.

(** The test both [GetAuthToken] and [fetchNewToken] make:
    [a.token != "" && time.Now().Before(a.expiry.Add(-a.tokenBuffer))];
    the clock is read only when a token is cached. *)
Definition tokenValid : M bool :=
  let* a := getAuthenticator in
  if String.eqb (token a) EmptyString then ret false
  else
    let* now := Now in
    ret (Time_Before now (Time_Add (expiry a) (wrap_int (- tokenBuffer a)))).

Definition authRequest (cfg : Config) : HttpRequest :=
  {| req_Method := "POST";
     req_URL := OystehrAuthURL cfg;
     req_Header := [("Content-Type", "application/json"); ("Accept", "application/json")];
     req_Body := AuthBody [("client_id", OystehrM2MClientID cfg);
                           ("client_secret", OystehrM2MClientSecret cfg);
                           ("grant_type", "client_credentials");
                           ("audience", "https://api.zapehr.com")] |}.

Definition fetchNewToken : M (result string) :=
  let* valid := tokenValid in
  let* a := getAuthenticator in
  if valid then ret (Ok (token a))
  else
    match NewRequest_err "POST" (OystehrAuthURL (config a)) with
    | Some err => ret (Err ("failed to create auth request: " +:+ err))
    | None =>
        let* r := Do TokenExchange (authRequest (config a)) in
        match r with
        | Err err => ret (Err ("failed to execute auth request: " +:+ err))
        | Ok resp =>
            match BodyErr resp with
            | Some err => ret (Err ("failed to read auth response body: " +:+ err))
            | None =>
                if negb (StatusCode resp =? StatusOK) then
                  let fallback :=
                    Err ("oystehr auth API request failed with status code "
                         +:+ itoa (StatusCode resp) +:+ ": " +:+ Body resp) in
                  match Unmarshal_AuthErrorResponse (Body resp) with
                  | Ok errResp =>
                      if negb (String.eqb (auth_Error errResp) EmptyString) then
                        ret (Err ("oystehr auth API error (" +:+ itoa (StatusCode resp)
                                   +:+ "): " +:+ auth_Error errResp +:+ " - "
                                   +:+ ErrorDescription errResp))
                      else ret fallback
                  | Err _ => ret fallback
                  end
                else
                  match Unmarshal_AuthResponse (Body resp) with
                  | Err err => ret (Err ("failed to unmarshal auth response JSON: " +:+ err))
                  | Ok authResp =>
                      if String.eqb (AccessToken authResp) EmptyString then
                        ret (Err "received empty access token from Oystehr auth API")
                      else
                        let* now := Now in
                        let* _ := setAuthenticator
                          {| config := config a;
                             token := AccessToken authResp;
                             expiry := Time_Add now (mul_int (ExpiresIn authResp) Second);
                             tokenBuffer := tokenBuffer a |} in
                        ret (Ok (AccessToken authResp))
                  end
            end
        end
    end.

Definition GetAuthToken : M (result string) :=
  let* valid := tokenValid in
  if valid then
    let* a := getAuthenticator in
    ret (Ok (token a))
  else fetchNewToken.

End Auth.

(** ** Record-store clients ([internal/fhir]) *)

Section Fhir.

Context `{GoRuntime}.

Definition fhirHeaders (cfg : Config) (token : string) : list (string * string) :=
  [("Authorization", "Bearer " +:+ token);
   ("x-zapehr-project-id", OystehrProjectID cfg);
   ("Content-Type", "application/fhir+json");
   ("Accept", "application/fhir+json")].

Definition searchHeaders (cfg : Config) (token : string) : list (string * string) :=
  [("Authorization", "Bearer " +:+ token);
   ("x-zapehr-project-id", OystehrProjectID cfg);
   ("Accept", "application/fhir+json")].

(** The POST the three [Create...] functions build, and the GET of the
    searches. *)
Definition createRequest (cfg : Config) (token url : string) (body : RequestBody)
  : HttpRequest :=
  {| req_Method := "POST"; req_URL := url;
     req_Header := fhirHeaders cfg token;
     req_Body := body |}.

Definition searchRequest (cfg : Config) (token u : string) : HttpRequest :=
  {| req_Method := "GET"; req_URL := u;
     req_Header := searchHeaders cfg token;
     req_Body := NoBody |}.

(** The tail shared by the three [Create...] functions once the response
    is in: status check, decoding, and the check of the assigned id.
    [kind] is the resource name that appears in the messages. *)
Definition readCreated (kind : string) (resp : HttpResponse) : result string :=
  if negb (StatusCode resp =? StatusCreated) then
    let errBody :=
      match BodyErr resp with
      | Some readErr =>
          if String.eqb (Body resp) EmptyString
          then "(could not read body: " +:+ readErr +:+ ")"
          else Body resp
      | None => Body resp
      end in
    Err ("FHIR API error creating " +:+ kind +:+ " (status "
         +:+ itoa (StatusCode resp) +:+ "): " +:+ errBody)
  else
    match Unmarshal_createdResource (Body resp) with
    | Err err => Err ("failed to parse FHIR " +:+ kind +:+ " response body: " +:+ err)
    | Ok created =>
        if String.eqb (created_ID created) EmptyString
        then Err ("FHIR " +:+ kind +:+ " created but response missing ID")
        else Ok (created_ID created)
    end.

Definition observationPayload (patientID : string) (totalScore : Z) (now : Time)
  : fhirObservation :=
  {| obs_ResourceType := "Observation";
     obs_Status := "final";
     obs_Category :=
       [{| category_Coding :=
             [{| coding_System := "http://terminology.hl7.org/CodeSystem/observation-category";
                 coding_Code := "survey";
                 coding_Display := "Survey" |}];
           category_Text := EmptyString |}];
     obs_Code :=
       {| code_Coding := [{| coding_System := "http://loinc.org";
                             coding_Code := "99046-5";
                             coding_Display := "Total score [EPDS]" |}];
          code_Text := "EPDS Total Score" |};
     obs_Subject := {| Reference := "Patient/" +:+ patientID |};
     obs_EffectiveDateTime := Format_RFC3339 now;
     obs_ValueInteger := totalScore |}.

Definition CreateObservation (cfg : Config) (token patientID : string) (totalScore : Z)
  : M (result string) :=
  let* now := Now in
  let obs := observationPayload patientID totalScore now in
  let url := OystehrFHIRBaseURL cfg +:+ "/Observation" in
  match NewRequest_err "POST" url with
  | Some err => ret (Err ("failed to create FHIR Observation request: " +:+ err))
  | None =>
      let* r := Do ObservationCreate (createRequest cfg token url (ObservationBody obs)) in
      match r with
      | Err err => ret (Err ("failed to execute FHIR Observation request: " +:+ err))
      | Ok resp => ret (readCreated "Observation" resp)
      end
  end.

Definition flagPayload (patientID encounterID : string) (totalScore q10Score : Z)
  : fhirFlag :=
  {| flag_ResourceType := "Flag";
     flag_Status := "active";
     flag_Category :=
       [{| category_Coding := [{| coding_System := "http://example.org/codes";
                                  coding_Code := "epds-high-risk";
                                  coding_Display := "EPDS High Risk Alert" |}];
           category_Text := "High EPDS Score or Self-Harm Risk Reported" |}];
     flag_Code :=
       {| code_Coding := [];
          code_Text := "High EPDS Score (" +:+ itoa totalScore +:+ ") or Q10 Risk ("
                       +:+ itoa q10Score +:+ ") indicated." |};
     flag_Subject := {| Reference := "Patient/" +:+ patientID |};
     flag_Encounter :=
       if negb (String.eqb encounterID EmptyString)
       then Some {| Reference := "Encounter/" +:+ encounterID |}
       else None;
     flag_Meta := Some {| Tag := [{| coding_System := "urn:cornell:epds:tags";
                                     coding_Code := "epds-high-risk";
                                     coding_Display := "EPDS High Risk Indicator" |}] |} |}.

Definition CreateFlag (cfg : Config) (token patientID encounterID : string)
    (totalScore q10Score : Z) : M (result string) :=
  let flag := flagPayload patientID encounterID totalScore q10Score in
  let url := OystehrFHIRBaseURL cfg +:+ "/Flag" in
  match NewRequest_err "POST" url with
  | Some err => ret (Err ("failed to create FHIR Flag request: " +:+ err))
  | None =>
      let* r := Do FlagCreate (createRequest cfg token url (FlagBody flag)) in
      match r with
      | Err err => ret (Err ("failed to execute FHIR Flag request: " +:+ err))
      | Ok resp => ret (readCreated "Flag" resp)
      end
  end.

Definition communicationPayload (patientID providerID : string) (totalScore q10Score : Z)
    (now : Time) : fhirCommunication :=
  {| comm_ResourceType := "Communication";
     comm_Status := "completed";
     comm_Category :=
       [{| category_Coding :=
             [{| coding_System :=
                   "http://terminology.hl7.org/CodeSystem/communication-category";
                 coding_Code := "alert";
                 coding_Display := "Alert" |}];
           category_Text := EmptyString |}];
     comm_Subject := {| Reference := "Patient/" +:+ patientID |};
     comm_Recipient := [{| Reference := providerID |}];
     comm_Payload :=
       [{| ContentString :=
             "Alert: High EPDS score (" +:+ itoa totalScore +:+ ") recorded for Patient "
             +:+ patientID +:+ ". Q10 Score: " +:+ itoa q10Score
             +:+ ". Please review patient chart." |}];
     comm_Sent := Format_RFC3339 now |}.

Definition CreateCommunication (cfg : Config) (token patientID providerID : string)
    (totalScore q10Score : Z) : M (result string) :=
  let* now := Now in
  let comm := communicationPayload patientID providerID totalScore q10Score now in
  let url := OystehrFHIRBaseURL cfg +:+ "/Communication" in
  match NewRequest_err "POST" url with
  | Some err => ret (Err ("failed to create FHIR Communication request: " +:+ err))
  | None =>
      let* r := Do CommunicationCreate
                  (createRequest cfg token url (CommunicationBody comm)) in
      match r with
      | Err err => ret (Err ("failed to execute FHIR Communication request: " +:+ err))
      | Ok resp => ret (readCreated "Communication" resp)
      end
  end.

(** The tail shared by the search functions: the first entry of the
    bundle and its id. [what] and [missing] are the words of the messages. *)
Definition firstEntryID (what missing : string) (resp : HttpResponse) : result string :=
  match Decode_bundle (Body resp) (BodyErr resp) with
  | Err err => Err (what +:+ " bundle decode: " +:+ err)
  | Ok b =>
      match Entry b with
      | [] => Err missing
      | resource :: _ =>
          match Unmarshal_fhirID resource with
          | Err err => Err (what +:+ " id parse: " +:+ err)
          | Ok p =>
              if String.eqb (ID p) EmptyString
              then Err (what +:+ " id missing")
              else Ok (ID p)
          end
      end
  end.

(** [GET /Patient?identifier={system}|{value}]. The error of
    [http.NewRequest] is dropped ([req, _ :=]), so a URL it rejects leaves
    [req] nil and the next statement dereferences it. *)
Definition FindPatientIDByIdentifier (cfg : Config) (token system value : string)
  : M (result string) :=
  let u := OystehrFHIRBaseURL cfg +:+ "/Patient?identifier=" +:+ system +:+ "|" +:+ value in
  match NewRequest_err "GET" u with
  | Some _ => panic nil_dereference
  | None =>
      let* r := Do PatientSearch (searchRequest cfg token u) in
      match r with
      | Err err => ret (Err ("patient search failed: " +:+ err))
      | Ok resp =>
          if negb (StatusCode resp =? StatusOK)
          then ret (Err ("patient search status " +:+ itoa (StatusCode resp)))
          else ret (firstEntryID "patient"
                      ("patient not found for " +:+ system +:+ "|" +:+ value) resp)
      end
  end.

(** [GET /Encounter?subject=Patient/{id}&status=arrived,in-progress&_sort=-date&_count=1] *)
Definition FindActiveEncounterID (cfg : Config) (token patientID : string)
  : M (result string) :=
  let u := OystehrFHIRBaseURL cfg +:+ "/Encounter?subject=Patient/" +:+ patientID
           +:+ "&status=arrived,in-progress&_sort=-date&_count=1" in
  match NewRequest_err "GET" u with
  | Some _ => panic nil_dereference
  | None =>
      let* r := Do EncounterBySubject (searchRequest cfg token u) in
      match r with
      | Err err => ret (Err ("encounter search failed: " +:+ err))
      | Ok resp =>
          if negb (StatusCode resp =? StatusOK)
          then ret (Err ("encounter search status " +:+ itoa (StatusCode resp)))
          else ret (firstEntryID "encounter"
                      ("no active encounter found for patient " +:+ patientID) resp)
      end
  end.

(** Modelled from the spec: [FindEncounterByAppointment], which the handler
    calls, is not among the sources. The specification describes it as a
    lookup of the encounters linked to the appointment, most recent first,
    that returns the top one, fails when the result set is empty and when
    the top hit has no id, and fails on a non-success status; it is laid
    out here like its sibling [FindActiveEncounterID]. *)
Definition FindEncounterByAppointment (cfg : Config) (token appointmentID : string)
  : M (result string) :=
  let u := OystehrFHIRBaseURL cfg +:+ "/Encounter?appointment=Appointment/" +:+ appointmentID
           +:+ "&_sort=-date&_count=1" in
  match NewRequest_err "GET" u with
  | Some _ => panic nil_dereference
  | None =>
      let* r := Do EncounterByAppointment (searchRequest cfg token u) in
      match r with
      | Err err => ret (Err ("encounter search failed: " +:+ err))
      | Ok resp =>
          if negb (StatusCode resp =? StatusOK)
          then ret (Err ("encounter search status " +:+ itoa (StatusCode resp)))
          else ret (firstEntryID "encounter"
                      ("no encounter found for appointment " +:+ appointmentID) resp)
      end
  end.

End Fhir.

(** ** The request orchestrator ([cmd/epds-service/main.go]) *)

(** [ApiHandler]: its [Authenticator] pointer designates the
    [authenticator] slot of the state. *)
Record ApiHandler := { handler_Config : Config }.

Section Handler.

Context `{GoRuntime}.

(** Step 4, second half (lines 138-152): the subject id the records are
    written for, or the response that ends the request. *)
Definition resolvePatient (h : ApiHandler) (token patientID idSystem idValue : string)
  : M (Response + string) :=
  if String.eqb patientID EmptyString then
    if String.eqb idSystem EmptyString || String.eqb idValue EmptyString then
      ret (inl (sendJSONError
                  "provide patientId OR patientIdentifierSystem+patientIdentifierValue"
                  StatusBadRequest))
    else
      let* found := FindPatientIDByIdentifier (handler_Config h) token idSystem idValue in
      match found with
      | Err _ => ret (inl (sendJSONError "patient not found from identifier" StatusBadRequest))
      | Ok resolvedID => ret (inr resolvedID)
      end
  else ret (inr patientID).

(** Cascading encounter discovery (lines 168-188): the encounter id the
    flag is created with, empty when none was found. *)
Definition discoverEncounter (h : ApiHandler) (token patientID encID apptID : string)
  : M string :=
  if String.eqb encID EmptyString then
    let* encID :=
      (if negb (String.eqb apptID EmptyString) then
         let* found := FindEncounterByAppointment (handler_Config h) token apptID in
         match found with
         | Ok found => ret found
         | Err _ => ret encID
         end
       else ret encID) in
    if String.eqb encID EmptyString then
      let* found := FindActiveEncounterID (handler_Config h) token patientID in
      match found with
      | Ok found => ret found
      | Err _ => ret encID
      end
    else ret encID
  else ret encID.

(** Step 6, the body of [if isHighRisk]: both writes are attempted, their
    results only logged. *)
Definition escalate (h : ApiHandler) (token patientID encID apptID : string)
    (total q10 : Z) : M unit :=
  let* encID := discoverEncounter h token patientID encID apptID in
  let* _ := CreateFlag (handler_Config h) token patientID encID total q10 in
  let* _ := CreateCommunication (handler_Config h) token patientID
              (AlertProviderFHIRID (handler_Config h)) total q10 in
  ret tt.

Definition handleSubmitEPDS (h : ApiHandler) (r : Request) : M Response :=
  if negb (String.eqb (Method r) "POST") then
    ret (http_Error "Method Not Allowed" StatusMethodNotAllowed)
  else
    match ParseForm r with
    | None => ret (sendJSONError "Failed to parse request body" StatusBadRequest)
    | Some form =>
        let patientID := TrimSpace (FormValue form "patientId") in
        let idSystem := TrimSpace (FormValue form "patientIdentifierSystem") in
        let idValue := TrimSpace (FormValue form "patientIdentifierValue") in
        let encID := TrimSpace (FormValue form "encounterId") in
        let apptID := TrimSpace (FormValue form "appointmentId") in
        match parseScores form with
        | inl resp => ret resp
        | inr epdsScores =>
            let total := totalScore epdsScores in
            let q10 := q10Score epdsScores in
            let* tok := GetAuthToken in
            match tok with
            | Err _ =>
                ret (sendJSONError "Internal server error - authentication failed"
                       StatusInternalServerError)
            | Ok token =>
                let* subject := resolvePatient h token patientID idSystem idValue in
                match subject with
                | inl resp => ret resp
                | inr patientID =>
                    let* created :=
                      CreateObservation (handler_Config h) token patientID total in
                    match created with
                    | Err _ =>
                        ret (sendJSONError "Failed to create FHIR Observation"
                               StatusInternalServerError)
                    | Ok observationId =>
                        let* _ :=
                          (if isHighRisk total q10
                           then escalate h token patientID encID apptID total q10
                           else ret tt) in
                        ret (sendSuccess observationId total)
                    end
                end
            end
        end
    end.

End Handler.

(** * Vocabulary of the statements *)

(** The mathematical sum the total is compared with. *)
Definition Zsum (l : list Z) : Z := foldr Z.add 0 l.

Definition in_range (v : Z) : Prop := 0 <= v <= 3.

(** What the loop body finds wrong with answer [i], if anything. *)
Inductive AnswerFault := Missing | NotInteger | OutOfRange.

Definition answerFault (form : Values) (i : Z) : option AnswerFault :=
  let s := FormValue form (qKey i) in
  if String.eqb s EmptyString then Some Missing
  else match Atoi s with
       | None => Some NotInteger
       | Some v => if (v <? 0) || (v >? 3) then Some OutOfRange else None
       end.

Definition faultMessage (i : Z) (f : AnswerFault) : string :=
  "Invalid input: " +:+ qKey i +:+
  match f with
  | Missing => " is required"
  | NotInteger => " must be an integer"
  | OutOfRange => " score must be between 0 and 3"
  end.

(** A form with one value per field, and the fields of ten answers. *)
Definition form_of (fields : list (string * string)) : Values :=
  list_to_map (map (fun kv => (fst kv, [snd kv])) fields).

Definition example_answers (a : list Z) : list (string * string) :=
  imap (fun i v => (qKey (Z.of_nat i + 1), itoa v)) a.

(** A submission: a POST request whose form was parsed. *)
Definition submission (form : Values) : Request :=
  {| Method := "POST"; ParseForm := Some form |}.

(** Between [st] and [st'] only calls satisfying [P] were issued. *)
Definition sends `{GoRuntime} (P : RemoteCall -> Prop) (st st' : St) : Prop :=
  exists l, calls st' = calls st ++ l /\ Forall (fun c => P (fst c)) l.

(** Between [st] and [st'] nothing was sent, or the one request [req]. *)
Definition sends_at_most `{GoRuntime} (call : RemoteCall) (req : HttpRequest)
    (st st' : St) : Prop :=
  calls st' = calls st \/ calls st' = calls st ++ [(call, req)].

(** The grant an identity-service reply carries, when the exchange
    succeeded: transport and body read without error, status 200, a payload
    that decodes, a non-empty access token. *)
Definition grantedToken `{GoRuntime} (r : result HttpResponse) : option AuthResponse :=
  match r with
  | Err _ => None
  | Ok resp =>
      match BodyErr resp with
      | Some _ => None
      | None =>
          if StatusCode resp =? StatusOK then
            match Unmarshal_AuthResponse (Body resp) with
            | Ok authResp =>
                if String.eqb (AccessToken authResp) EmptyString then None else Some authResp
            | Err _ => None
            end
          else None
      end
  end.

(** The world in which a stale cache issues its exchange: both validity
    checks read the clock first when a token is cached, neither does when
    the slot is empty. *)
Definition world_at_fetch `{GoRuntime} (st : St) : World :=
  if String.eqb (token (authenticator st)) EmptyString then world st
  else snd (time_Now (snd (time_Now (world st)))).

(** Two consecutive readings of the clock never go backwards. *)
Definition clock_steady `{GoRuntime} : Prop :=
  forall w, fst (time_Now w) <= fst (time_Now (snd (time_Now w))).

(** The form carries the ten answers [answers], each an integer in [0,3]. *)
Definition valid_answers (form : Values) (answers : list Z) : Prop :=
  length answers = 10%nat /\
  forall (i : nat) v, answers !! i = Some v ->
    Atoi (FormValue form (qKey (Z.of_nat i + 1))) = Some v /\ 0 <= v <= 3.

(** How a failed submission is answered: the JSON error object, and a
    status that goes with the step that failed, whose outcome is recorded
    next to it. *)
Definition failure_classified `{GoRuntime} (h : ApiHandler) (form : Values) (st : St)
    (resp : Response) (st' : St) : Prop :=
  let cfg := handler_Config h in
  let patientID := TrimSpace (FormValue form "patientId") in
  let idSystem := TrimSpace (FormValue form "patientIdentifierSystem") in
  let idValue := TrimSpace (FormValue form "patientIdentifierValue") in
  (exists message, resp_body resp = JSONBody {| Status := "error"; Message := message |}) /\
  resp_content_type resp = "application/json" /\
  ( (* input validation: an answer, or the patient information *)
    (resp_code resp = StatusBadRequest /\
     ((exists j g, 1 <= j <= 10 /\ answerFault form j = Some g /\
                   resp = sendJSONError (faultMessage j g) StatusBadRequest) \/
      (patientID = EmptyString /\ (idSystem = EmptyString \/ idValue = EmptyString)))) \/
    (* identifier resolution: the search returned an error, whichever *)
    (resp_code resp = StatusBadRequest /\
     exists token st1 e,
       patientID = EmptyString /\
       GetAuthToken st = (Returned (Ok token), st1) /\
       FindPatientIDByIdentifier cfg token idSystem idValue st1 = (Returned (Err e), st')) \/
    (* credential acquisition *)
    (resp_code resp = StatusInternalServerError /\
     exists e, GetAuthToken st = (Returned (Err e), st')) \/
    (* creation of the primary record *)
    (resp_code resp = StatusInternalServerError /\
     exists answers token pid st2 e,
       parseScores form = inr answers /\
       CreateObservation cfg token pid (totalScore answers) st2 = (Returned (Err e), st')) ).

(** The variables [LoadConfig] requires, in the order it checks them. *)
Definition required_variables : list string :=
  [ "OYSTEHR_FHIR_BASE_URL"; "OYSTEHR_AUTH_URL"; "OYSTEHR_PROJECT_ID";
    "OYSTEHR_M2M_CLIENT_ID"; "OYSTEHR_M2M_CLIENT_SECRET"; "ALERT_PROVIDER_FHIR_ID" ].

(** The environment of [env.sh]. *)
Definition env_sh : Environ :=
  list_to_map
    [ ("OYSTEHR_FHIR_BASE_URL", "https://fhir-api.zapehr.com/r4");
      ("OYSTEHR_AUTH_URL", "https://auth.zapehr.com/oauth/token");
      ("OYSTEHR_PROJECT_ID", "596a23c5-e239-412b-bb05-55e47f41e1f8");
      ("OYSTEHR_M2M_CLIENT_ID", "QfHq018YKWQDhWlbL9mW9jsT7JakDP5n");
      ("OYSTEHR_M2M_CLIENT_SECRET", ".....");
      ("ALERT_PROVIDER_FHIR_ID", "Practitioner/f5d7cbdf-f829-4e0e-846b-63ce53ca8c6c") ].

(** The reply of the record store that makes a [Create...] call return
    [id]: status 201 and a body that decodes to a non-empty id. *)
Definition created_by `{GoRuntime} (reply : result HttpResponse) (id : string) : Prop :=
  exists resp created,
    reply = Ok resp /\ StatusCode resp = StatusCreated /\
    Unmarshal_createdResource (Body resp) = Ok created /\
    created_ID created = id /\ id <> EmptyString.

(** The reply that makes a search return [id]: status 200 and a bundle
    whose first entry decodes to the non-empty id; the entries after the
    first play no part. *)
Definition found_by `{GoRuntime} (reply : result HttpResponse) (id : string) : Prop :=
  exists resp b resource rest p,
    reply = Ok resp /\ StatusCode resp = StatusOK /\
    Decode_bundle (Body resp) (BodyErr resp) = Ok b /\
    Entry b = resource :: rest /\
    Unmarshal_fhirID resource = Ok p /\ ID p = id /\ id <> EmptyString.

Definition patientSearchURL (cfg : Config) (system value : string) : string :=
  OystehrFHIRBaseURL cfg +:+ "/Patient?identifier=" +:+ system +:+ "|" +:+ value.

Definition encounterSearchURL (cfg : Config) (patientID : string) : string :=
  OystehrFHIRBaseURL cfg +:+ "/Encounter?subject=Patient/" +:+ patientID
  +:+ "&status=arrived,in-progress&_sort=-date&_count=1".

Definition appointmentSearchURL (cfg : Config) (appointmentID : string) : string :=
  OystehrFHIRBaseURL cfg +:+ "/Encounter?appointment=Appointment/" +:+ appointmentID
  +:+ "&_sort=-date&_count=1".

(** The remote operations in the order the handler reaches them. *)
Definition call_order : list RemoteCall :=
  [TokenExchange; PatientSearch; ObservationCreate; EncounterByAppointment;
   EncounterBySubject; FlagCreate; CommunicationCreate].

(** Between [st] and [st'] the operations issued form a sublist of [ops]:
    each at most as often as it occurs there, in the same order. *)
Definition issues `{GoRuntime} (ops : list RemoteCall) (st st' : St) : Prop :=
  exists l, calls st' = calls st ++ l /\ sublist (map fst l) ops.

(** Between [st] and [st'] every request issued satisfies [P]. *)
Definition sends_requests `{GoRuntime} (P : RemoteCall -> HttpRequest -> Prop)
    (st st' : St) : Prop :=
  exists l, calls st' = calls st ++ l /\ Forall (fun c => P (fst c) (snd c)) l.

(** The subject a created resource refers to. *)
Definition subject_of (body : RequestBody) : option string :=
  match body with
  | ObservationBody obs => Some (Reference (obs_Subject obs))
  | FlagBody flag => Some (Reference (flag_Subject flag))
  | CommunicationBody comm => Some (Reference (comm_Subject comm))
  | _ => None
  end.

(** The requests a submission can issue, given the token [token] the
    credential step returned, the subject id [pid] the patient step settled
    on and the answers [answers] the validation accepted. *)
Definition expected_request `{GoRuntime} (h : ApiHandler) (form : Values) (st : St)
    (token pid : string) (answers : list Z) (call : RemoteCall) (req : HttpRequest) : Prop :=
  let cfg := handler_Config h in
  let base := OystehrFHIRBaseURL cfg in
  let patientID := TrimSpace (FormValue form "patientId") in
  let idSystem := TrimSpace (FormValue form "patientIdentifierSystem") in
  let idValue := TrimSpace (FormValue form "patientIdentifierValue") in
  let encID := TrimSpace (FormValue form "encounterId") in
  let apptID := TrimSpace (FormValue form "appointmentId") in
  let total := totalScore answers in
  let q10 := q10Score answers in
  let scored := parseScores form = inr answers in
  let authed := fst (GetAuthToken st) = Returned (Ok token) /\ token <> EmptyString in
  let settled := pid <> EmptyString /\ (patientID <> EmptyString -> pid = patientID) in
  let high := isHighRisk total q10 = true in
  match call with
  | TokenExchange => req = authRequest (config (authenticator st))
  | PatientSearch =>
      scored /\ authed /\
      patientID = EmptyString /\ idSystem <> EmptyString /\ idValue <> EmptyString /\
      req = searchRequest cfg token (patientSearchURL cfg idSystem idValue)
  | ObservationCreate =>
      scored /\ authed /\ settled /\
      exists now, req = createRequest cfg token (base +:+ "/Observation")
                          (ObservationBody (observationPayload pid total now))
  | EncounterByAppointment =>
      scored /\ authed /\ settled /\ high /\
      encID = EmptyString /\ apptID <> EmptyString /\
      req = searchRequest cfg token (appointmentSearchURL cfg apptID)
  | EncounterBySubject =>
      scored /\ authed /\ settled /\ high /\
      encID = EmptyString /\
      req = searchRequest cfg token (encounterSearchURL cfg pid)
  | FlagCreate =>
      scored /\ authed /\ settled /\ high /\
      exists enc, (encID <> EmptyString -> enc = encID) /\
                  req = createRequest cfg token (base +:+ "/Flag")
                          (FlagBody (flagPayload pid enc total q10))
  | CommunicationCreate =>
      scored /\ authed /\ settled /\ high /\
      exists now, req = createRequest cfg token (base +:+ "/Communication")
                          (CommunicationBody
                             (communicationPayload pid (AlertProviderFHIRID cfg) total q10 now))
  end.

(** ** A scripted environment

    A test double of the process environment, used to run the handler on
    concrete submissions: the network answers from a list of prepared
    replies, the clock ticks once per reading, [http.NewRequest] refuses a
    URL with an ASCII control byte, and the JSON codec understands the
    compact documents the replies below are written in. *)

Module Scripted.

Record network := {
  clock : Time;
  replies : list (result HttpResponse)
}.

Definition has_control_byte (s : string) : bool :=
  existsb (fun b => (b <? 32) || (b =? 127)) (bytes_of s).

(** [s] without the prefix [pre] and the suffix [post]. *)
Definition between (pre post s : string) : option string :=
  match strip_prefix (bytes_of pre) (bytes_of s) with
  | Some rest =>
      match strip_prefix (rev (bytes_of post)) (rev rest) with
      | Some mid => Some (string_of (rev mid))
      | None => None
      end
  | None => None
  end.

(** The part of [l] before the first [sep], and the part after it. *)
Fixpoint split_on (sep l : list Z) : option (list Z * list Z) :=
  match strip_prefix sep l with
  | Some rest => Some ([], rest)
  | None =>
      match l with
      | [] => None
      | b :: l' =>
          match split_on sep l' with
          | Some (before, after) => Some (b :: before, after)
          | None => None
          end
      end
  end.

Definition q (s : string) : string := dquote +:+ s +:+ dquote.

(** [{"id":"..."}], or an object without the field *)
Definition decode_id (body : string) : result string :=
  match between ("{" +:+ q "id" +:+ ":" +:+ dquote) (dquote +:+ "}") body with
  | Some id => Ok id
  | None =>
      if String.eqb body "{}" then Ok EmptyString
      else Err "invalid character looking for beginning of value"
  end.

(** [{"entry":[{"resource":...}]}], or an empty [entry] *)
Definition decode_bundle (body : string) (readErr : option error) : result bundle :=
  match readErr with
  | Some e => Err e
  | None =>
      match between ("{" +:+ q "entry" +:+ ":[{" +:+ q "resource" +:+ ":") "}]}" body with
      | Some resource => Ok {| Entry := [resource] |}
      | None =>
          if String.eqb body ("{" +:+ q "entry" +:+ ":[]}") then Ok {| Entry := [] |}
          else Err "invalid character looking for beginning of value"
      end
  end.

(** [{"access_token":"...","expires_in":N}] *)
Definition decode_grant (body : string) : result AuthResponse :=
  match between ("{" +:+ q "access_token" +:+ ":" +:+ dquote) "}" body with
  | Some rest =>
      match split_on (bytes_of (dquote +:+ "," +:+ q "expires_in" +:+ ":")) (bytes_of rest) with
      | Some (tok, n) =>
          match Atoi (string_of n) with
          | Some secs =>
              Ok {| AccessToken := string_of tok; TokenType := "Bearer"; ExpiresIn := secs |}
          | None => Err "cannot unmarshal into Go struct field expires_in"
          end
      | None => Err "unexpected end of JSON input"
      end
  | None => Err "invalid character looking for beginning of value"
  end.

(** [{"error":"..."}] *)
Definition decode_auth_error (body : string) : result AuthErrorResponse :=
  match between ("{" +:+ q "error" +:+ ":" +:+ dquote) (dquote +:+ "}") body with
  | Some e => Ok {| auth_Error := e; ErrorDescription := EmptyString |}
  | None => Err "invalid character looking for beginning of value"
  end.

#[export] Instance runtime : GoRuntime := {|
  World := network;
  time_Now := fun w => (clock w, {| clock := clock w + 1; replies := replies w |});
  Format_RFC3339 := itoa;
  NewRequest_err := fun _ url =>
    if has_control_byte url then Some "net/url: invalid control character in URL"
    else None;
  httpClient_Do := fun _ w =>
    match replies w with
    | [] => (Err "dial tcp: connection refused", w)
    | r :: rest => (r, {| clock := clock w; replies := rest |})
    end;
  Unmarshal_createdResource := fun body =>
    match decode_id body with
    | Ok id => Ok {| created_ID := id |}
    | Err e => Err e
    end;
  Decode_bundle := decode_bundle;
  Unmarshal_fhirID := fun body =>
    match decode_id body with
    | Ok id => Ok {| ID := id |}
    | Err e => Err e
    end;
  Unmarshal_AuthResponse := decode_grant;
  Unmarshal_AuthErrorResponse := decode_auth_error
|}.

(** The configuration of [env.sh]. *)
Definition cfg : Config :=
  {| OystehrFHIRBaseURL := "https://fhir-api.zapehr.com/r4";
     OystehrAuthURL := "https://auth.zapehr.com/oauth/token";
     OystehrProjectID := "596a23c5-e239-412b-bb05-55e47f41e1f8";
     OystehrM2MClientID := "QfHq018YKWQDhWlbL9mW9jsT7JakDP5n";
     OystehrM2MClientSecret := ".....";
     AlertProviderFHIRID := "Practitioner/f5d7cbdf-f829-4e0e-846b-63ce53ca8c6c";
     Port := "8080" |}.

Definition h : ApiHandler := {| handler_Config := cfg |}.

(** The service just started: nothing cached, nothing sent. *)
Definition fresh_start (rs : list (result HttpResponse)) : St :=
  {| world := {| clock := 1000; replies := rs |};
     authenticator := NewAuthenticator cfg;
     calls := [] |}.

(** The service holding the token [tok], good for another hour. *)
Definition with_token (tok : string) (rs : list (result HttpResponse)) : St :=
  {| world := {| clock := 1000; replies := rs |};
     authenticator := {| config := cfg; token := tok;
                         expiry := 1000 + 3600 * Second;
                         tokenBuffer := tokenBuffer (NewAuthenticator cfg) |};
     calls := [] |}.

Definition reply (status : Z) (body : string) : result HttpResponse :=
  Ok {| StatusCode := status; Body := body; BodyErr := None |}.

Definition grant_reply (tok : string) (secs : Z) : result HttpResponse :=
  reply 200 ("{" +:+ q "access_token" +:+ ":" +:+ q tok +:+ ","
             +:+ q "expires_in" +:+ ":" +:+ itoa secs +:+ "}").

Definition id_reply (status : Z) (id : string) : result HttpResponse :=
  reply status ("{" +:+ q "id" +:+ ":" +:+ q id +:+ "}").

Definition bundle_reply (id : string) : result HttpResponse :=
  reply 200 ("{" +:+ q "entry" +:+ ":[{" +:+ q "resource" +:+ ":{"
             +:+ q "id" +:+ ":" +:+ q id +:+ "}}]}").

Definition empty_bundle_reply : result HttpResponse :=
  reply 200 ("{" +:+ q "entry" +:+ ":[]}").

(** The submissions of [test_epds.sh]. *)
Definition high_answers : list Z := [3; 2; 1; 2; 1; 3; 1; 0; 0; 1].
Definition low_answers : list Z := [0; 0; 0; 1; 0; 1; 0; 0; 0; 0].

Definition form_with (fields : list (string * string)) (answers : list Z) : Values :=
  form_of (fields ++ example_answers answers).

(** What was sent, by operation. *)
Definition sent (st : St) : list RemoteCall := map fst (calls st).

(** The same environment, but with an [http.NewRequest] that accepts
    every URL. *)
Definition lenient : GoRuntime := {|
  World := network;
  time_Now := @time_Now runtime;
  Format_RFC3339 := @Format_RFC3339 runtime;
  NewRequest_err := fun _ _ => None;
  httpClient_Do := @httpClient_Do runtime;
  Unmarshal_createdResource := @Unmarshal_createdResource runtime;
  Decode_bundle := @Decode_bundle runtime;
  Unmarshal_fhirID := @Unmarshal_fhirID runtime;
  Unmarshal_AuthResponse := @Unmarshal_AuthResponse runtime;
  Unmarshal_AuthErrorResponse := @Unmarshal_AuthErrorResponse runtime
|}.

Definition lenient_start (rs : list (result HttpResponse)) : @St lenient :=
  @Build_St lenient {| clock := 1000; replies := rs |} (NewAuthenticator cfg) [].

(** An identifier with a control byte in the middle, which trimming keeps. *)
Definition with_control_byte (before after : string) : string :=
  before +:+ String "001"%char after.

End Scripted.

(** * Properties *)

(** ** Score engine *)

Section ScoreFacts.

Lemma wrap_int_small (z : Z) : int_min <= z <= int_max -> wrap_int z = z.
Proof.
  unfold wrap_int, int_min, int_max. intros Hz.
  rewrite Z.mod_small; lia.
Qed.

Lemma Zsum_bounds (l : list Z) :
  Forall in_range l -> 0 <= Zsum l <= 3 * Z.of_nat (length l).
Proof.
  induction 1 as [|v l Hv _ IH]; simpl; [lia|].
  unfold in_range in Hv. lia.
Qed.

Lemma fold_add_int (l : list Z) (acc : Z) :
  Forall in_range l ->
  0 <= acc -> acc + 3 * Z.of_nat (length l) <= int_max ->
  fold_left add_int l acc = acc + Zsum l.
Proof.
  intros Hl. revert acc.
  induction Hl as [|v l Hv Hl IH]; intros acc Hacc Hmax; simpl.
  - lia.
  - unfold in_range in Hv. simpl length in Hmax.
    unfold add_int at 2. rewrite wrap_int_small by (unfold int_min; lia).
    rewrite IH by lia. lia.
Qed.

Lemma totalScore_sum (l : list Z) :
  Forall in_range l -> length l = 10%nat -> totalScore l = Zsum l.
Proof.
  intros Hl Hlen. unfold totalScore.
  rewrite fold_add_int; [lia | assumption | lia |].
  rewrite Hlen. unfold int_max. lia.
Qed.

Lemma answerFault_None (form : Values) (i v : Z) :
  Atoi (FormValue form (qKey i)) = Some v -> 0 <= v <= 3 ->
  answerFault form i = None.
Proof.
  intros Ha Hv. unfold answerFault. rewrite Ha.
  destruct (String.eqb_spec (FormValue form (qKey i)) EmptyString) as [E|_].
  - rewrite E in Ha. discriminate.
  - replace ((v <? 0) || (v >? 3)) with false; [reflexivity|].
    symmetry. rewrite Z.gtb_ltb. apply orb_false_iff. split; apply Z.ltb_ge; lia.
Qed.

Lemma parseScores_loop_step (form : Values) (i : Z) (idxs acc : list Z) :
  parseScores_loop form (i :: idxs) acc =
  match answerFault form i with
  | Some f => inl (sendJSONError (faultMessage i f) StatusBadRequest)
  | None =>
      match Atoi (FormValue form (qKey i)) with
      | Some v => parseScores_loop form idxs (<[Z.to_nat (i - 1) := v]> acc)
      | None => inl (sendJSONError (faultMessage i NotInteger) StatusBadRequest)
      end
  end.
Proof.
  unfold answerFault, faultMessage; simpl.
  destruct (String.eqb _ EmptyString); [reflexivity|].
  destruct (Atoi _) as [v|]; [|reflexivity].
  destruct ((v <? 0) || (v >? 3)); reflexivity.
Qed.

(** The loop on a form whose answers are all acceptable fills the slice
    with them, one index at a time. *)
Lemma parseScores_loop_ok (form : Values) (answers : list Z) :
  (forall (i : nat) v, answers !! i = Some v ->
      Atoi (FormValue form (qKey (Z.of_nat i + 1))) = Some v /\ 0 <= v <= 3) ->
  forall (n : nat) (a : nat) (acc : list Z),
    (a + n)%nat = length answers ->
    length acc = length answers ->
    take a acc = take a answers ->
    parseScores_loop form (seqZ (Z.of_nat a + 1) (Z.of_nat n)) acc = inr answers.
Proof.
  intros Hans n. induction n as [|n IH]; intros a acc Hlen Hacc Hpre.
  - simpl. f_equal.
    rewrite <- (take_ge acc a) by lia. rewrite <- (take_ge answers a) by lia. exact Hpre.
  - replace (Z.of_nat (S n)) with (Z.succ (Z.of_nat n)) by lia.
    rewrite seqZ_cons by lia.
    rewrite parseScores_loop_step.
    destruct (lookup_lt_is_Some_2 answers a) as [v Hv]; [lia|].
    destruct (Hans a v Hv) as [Ha Hr].
    rewrite (answerFault_None form _ v Ha Hr), Ha.
    replace (Z.to_nat (Z.of_nat a + 1 - 1)) with a by lia.
    replace (Z.succ (Z.of_nat a + 1)) with (Z.of_nat (S a) + 1) by lia.
    replace (Z.pred (Z.succ (Z.of_nat n))) with (Z.of_nat n) by lia.
    apply IH.
    + lia.
    + rewrite length_insert. exact Hacc.
    + rewrite (take_S_r answers a v Hv).
      rewrite (take_S_r (<[a:=v]> acc) a v).
      * rewrite take_insert_ge by lia. rewrite Hpre. reflexivity.
      * apply list_lookup_insert_eq. lia.
Qed.

Lemma parseScores_ok (form : Values) (answers : list Z) :
  length answers = 10%nat ->
  (forall (i : nat) v, answers !! i = Some v ->
      Atoi (FormValue form (qKey (Z.of_nat i + 1))) = Some v /\ 0 <= v <= 3) ->
  parseScores form = inr answers.
Proof.
  intros Hlen Hans. unfold parseScores.
  apply (parseScores_loop_ok form answers Hans 10 0 (replicate 10 0)).
  - lia.
  - rewrite length_replicate. lia.
  - reflexivity.
Qed.



End ScoreFacts.

(** C1: for every submission whose ten answers are integers in [0,3], the
    handler's validation loop yields exactly those answers, the computed
    total is their sum and lies in [0,30], and the risk test is true exactly
    when the total is at least 13 or the tenth answer is at least 1; at the
    boundary, (13,0) and (12,1) are high and (12,0) is low. *)
Theorem score_total_and_risk (form : Values) (answers : list Z) :
  length answers = 10%nat ->
  (forall (i : nat) v, answers !! i = Some v ->
      Atoi (FormValue form (qKey (Z.of_nat i + 1))) = Some v /\ 0 <= v <= 3) ->
  parseScores form = inr answers /\
  totalScore answers = Zsum answers /\
  0 <= totalScore answers <= 30 /\
  answers !! 9%nat = Some (q10Score answers) /\
  (isHighRisk (totalScore answers) (q10Score answers) = true <->
     13 <= totalScore answers \/ 1 <= q10Score answers) /\
  isHighRisk 13 0 = true /\ isHighRisk 12 1 = true /\ isHighRisk 12 0 = false.
Proof.
  intros Hlen Hans.
  assert (Hall : Forall in_range answers).
  { apply Forall_lookup. intros i v Hv. apply (Hans i v Hv). }
  pose proof (totalScore_sum answers Hall Hlen) as Hsum.
  pose proof (Zsum_bounds answers Hall) as Hb. rewrite Hlen in Hb.
  split; [apply parseScores_ok; assumption|].
  split; [exact Hsum|].
  split; [lia|].
  split.
  { unfold q10Score. destruct (lookup_lt_is_Some_2 answers 9) as [v Hv]; [lia|].
    rewrite Hv. f_equal. symmetry. apply nth_lookup_Some with (d := 0) in Hv. exact Hv. }
  split.
  { unfold isHighRisk. rewrite orb_true_iff, !Z.leb_le. reflexivity. }
  repeat split; reflexivity.
Qed.

Lemma score_total_and_risk_witness :
  let answers := [3; 2; 1; 2; 1; 3; 1; 0; 0; 1] in
  parseScores (form_of (example_answers answers)) = inr answers /\
  totalScore answers = 14 /\
  isHighRisk (totalScore answers) (q10Score answers) = true.
Proof.
  intros answers.
  destruct (score_total_and_risk (form_of (example_answers answers)) answers)
    as (Hp & Ht & _ & _ & Hr & _).
  - reflexivity.
  - intros i v Hv.
    do 10 (destruct i as [|i];
         [inversion Hv; subst; vm_compute; split; [reflexivity|split; discriminate]|]).
    inversion Hv.
  - split; [exact Hp|]. split; [reflexivity|]. apply Hr. left. vm_compute. discriminate.
Defined.

(** ** Running the monad *)

Ltac run :=
  unfold bind, ret, panic, Now, Do, getAuthenticator, setAuthenticator in *; simpl in *.

Section Traces.

Context `{GoRuntime}.

Lemma run_eq {A} (m : M A) (st : St) (o : Outcome A) :
  fst (m st) = o -> m st = (o, snd (m st)).
Proof. intros <-. apply surjective_pairing. Qed.

Lemma sends_refl P st : sends P st st.
Proof. exists []. split; [symmetry; apply app_nil_r | constructor]. Qed.

Lemma sends_trans P st1 st2 st3 : sends P st1 st2 -> sends P st2 st3 -> sends P st1 st3.
Proof.
  intros (l1 & E1 & F1) (l2 & E2 & F2). exists (l1 ++ l2). split.
  - rewrite E2, E1, app_assoc. reflexivity.
  - apply Forall_app. split; assumption.
Qed.

Lemma sends_mono (P Q : RemoteCall -> Prop) st st' :
  (forall c, P c -> Q c) -> sends P st st' -> sends Q st st'.
Proof.
  intros HPQ (l & E & F). exists l. split; [exact E|].
  eapply Forall_impl; [exact F|]. intros c. apply HPQ.
Qed.

Lemma sends_at_most_sends call req st st' :
  sends_at_most call req st st' -> sends (eq call) st st'.
Proof.
  intros [E|E].
  - exists []. rewrite app_nil_r. split; [exact E | constructor].
  - exists [(call, req)]. split; [exact E|]. repeat constructor.
Qed.

Lemma tokenValid_run st :
  exists b st',
    tokenValid st = (Returned b, st') /\
    calls st' = calls st /\ authenticator st' = authenticator st /\
    (token (authenticator st) = EmptyString -> b = false /\ st' = st) /\
    (token (authenticator st) <> EmptyString ->
       time_Now (world st) = (fst (time_Now (world st)), world st') /\
       b = Time_Before (fst (time_Now (world st)))
             (Time_Add (expiry (authenticator st))
                (wrap_int (- tokenBuffer (authenticator st))))).
Proof.
  unfold tokenValid. run.
  destruct (String.eqb_spec (token (authenticator st)) EmptyString) as [E|E].
  - exists false, st. repeat split; try reflexivity; contradiction.
  - destruct (time_Now (world st)) as [t w] eqn:Ht. simpl.
    eexists _, _. split; [reflexivity|]. simpl.
    repeat split; try reflexivity; contradiction.
Qed.

(** Past the re-check, [fetchNewToken] performs one exchange and stores
    the grant, or reports the failure and leaves the cache as it was. *)
Lemma fetchNewToken_run st st1 :
  tokenValid st = (Returned false, st1) ->
  NewRequest_err "POST" (OystehrAuthURL (config (authenticator st1))) = None ->
  let a := authenticator st1 in
  let req := authRequest (config a) in
  let r := fst (httpClient_Do req (world st1)) in
  let w' := snd (httpClient_Do req (world st1)) in
  match grantedToken r with
  | Some authResp =>
      fetchNewToken st =
      (Returned (Ok (AccessToken authResp)),
       {| world := snd (time_Now w');
          authenticator :=
            {| config := config a;
               token := AccessToken authResp;
               expiry := Time_Add (fst (time_Now w')) (mul_int (ExpiresIn authResp) Second);
               tokenBuffer := tokenBuffer a |};
          calls := calls st1 ++ [(TokenExchange, req)] |})
  | None =>
      exists e,
      fetchNewToken st =
      (Returned (Err e),
       {| world := w'; authenticator := a; calls := calls st1 ++ [(TokenExchange, req)] |})
  end.
Proof.
  intros Hv Hurl a req r w'. subst a req r w'.
  unfold fetchNewToken, bind, getAuthenticator, Do, Now, setAuthenticator, ret.
  rewrite Hv, Hurl.
  destruct (httpClient_Do (authRequest (config (authenticator st1))) (world st1))
    as [r w'] eqn:Hdo.
  cbn [fst snd]. unfold grantedToken.
  destruct r as [resp|e]; [|eexists; reflexivity].
  destruct (BodyErr resp) as [e|]; [eexists; reflexivity|].
  destruct (StatusCode resp =? StatusOK) eqn:Hs; cbn [negb].
  - destruct (Unmarshal_AuthResponse (Body resp)) as [authResp|e]; [|eexists; reflexivity].
    destruct (String.eqb (AccessToken authResp) EmptyString); [eexists; reflexivity|].
    cbn. destruct (time_Now w') as [t w'']. reflexivity.
  - destruct (Unmarshal_AuthErrorResponse (Body resp)) as [errResp|e];
      [destruct (negb (String.eqb (auth_Error errResp) EmptyString))|];
      eexists; reflexivity.
Qed.

Lemma GetAuthToken_cached st st1 :
  tokenValid st = (Returned true, st1) ->
  GetAuthToken st = (Returned (Ok (token (authenticator st1))), st1).
Proof.
  intros Hv. unfold GetAuthToken, bind. rewrite Hv. reflexivity.
Qed.

Lemma GetAuthToken_stale st st1 :
  tokenValid st = (Returned false, st1) ->
  GetAuthToken st = fetchNewToken st1.
Proof.
  intros Hv. unfold GetAuthToken, bind. rewrite Hv. reflexivity.
Qed.

(** Whatever the environment does, [fetchNewToken] returns, sends at most
    the one exchange and keeps the configuration of the cache. *)
Lemma fetchNewToken_calls st :
  exists r st',
    fetchNewToken st = (Returned r, st') /\
    sends_at_most TokenExchange (authRequest (config (authenticator st))) st st' /\
    config (authenticator st') = config (authenticator st).
Proof.
  destruct (tokenValid_run st) as (b & st1 & Hv & Hc & Ha & _).
  unfold fetchNewToken, bind, getAuthenticator, Do, Now, setAuthenticator, ret.
  rewrite Hv. unfold sends_at_most. rewrite <- Hc, <- Ha.
  destruct b; [eauto 6|].
  destruct (NewRequest_err _ _); [eauto 6|].
  destruct (httpClient_Do _ _) as [[resp|e] w']; [|eauto 6].
  destruct (BodyErr resp); [eauto 6|].
  destruct (negb (StatusCode resp =? StatusOK)).
  - destruct (Unmarshal_AuthErrorResponse _) as [errResp|e];
      [destruct (negb (String.eqb (auth_Error errResp) EmptyString))|]; eauto 6.
  - destruct (Unmarshal_AuthResponse _) as [authResp|e]; [|eauto 6].
    destruct (String.eqb (AccessToken authResp) EmptyString); [eauto 6|].
    cbn. destruct (time_Now w'). eauto 6.
Qed.

Lemma GetAuthToken_calls st :
  exists r st',
    GetAuthToken st = (Returned r, st') /\
    sends_at_most TokenExchange (authRequest (config (authenticator st))) st st' /\
    config (authenticator st') = config (authenticator st).
Proof.
  destruct (tokenValid_run st) as (b & st1 & Hv & Hc & Ha & _).
  destruct b.
  - rewrite (GetAuthToken_cached _ _ Hv). eexists _, _. split; [reflexivity|].
    split; [left; exact Hc | rewrite Ha; reflexivity].
  - rewrite (GetAuthToken_stale _ _ Hv).
    destruct (fetchNewToken_calls st1) as (r & st' & Hf & Hs & Hcfg).
    exists r, st'. split; [exact Hf|].
    unfold sends_at_most in *. rewrite Hc, Ha in Hs. rewrite Ha in Hcfg. auto.
Qed.

End Traces.

(** ** The record-store clients send at most their own request *)

Section ClientTraces.

Context `{GoRuntime}.

Ltac unfold_client :=
  unfold bind, ret, panic, Now, Do, sends_at_most; cbn [calls world authenticator].

Lemma CreateObservation_run cfg token patientID total st :
  let url := OystehrFHIRBaseURL cfg +:+ "/Observation" in
  let req := createRequest cfg token url
               (ObservationBody
                  (observationPayload patientID total (fst (time_Now (world st))))) in
  exists r st',
    CreateObservation cfg token patientID total st = (Returned r, st') /\
    sends_at_most ObservationCreate req st st' /\
    (NewRequest_err "POST" url = None ->
       calls st' = calls st ++ [(ObservationCreate, req)]) /\
    (forall id, r = Ok id -> calls st' = calls st ++ [(ObservationCreate, req)]).
Proof.
  intros url req. subst url req. unfold CreateObservation. unfold_client.
  destruct (time_Now (world st)) as [t w]. cbn [fst calls world authenticator].
  destruct (NewRequest_err _ _) eqn:Hurl.
  - eexists _, _. split; [reflexivity|]. cbn. repeat split; auto; discriminate.
  - destruct (httpClient_Do _ _) as [[resp|e] w'];
      eexists _, _; (split; [reflexivity|]); cbn; auto.
Qed.

Lemma CreateFlag_run cfg token patientID encounterID total q10 st :
  let url := OystehrFHIRBaseURL cfg +:+ "/Flag" in
  let req := createRequest cfg token url
               (FlagBody (flagPayload patientID encounterID total q10)) in
  exists r st',
    CreateFlag cfg token patientID encounterID total q10 st = (Returned r, st') /\
    sends_at_most FlagCreate req st st' /\
    (NewRequest_err "POST" url = None -> calls st' = calls st ++ [(FlagCreate, req)]).
Proof.
  intros url req. subst url req. unfold CreateFlag. unfold_client.
  destruct (NewRequest_err _ _) eqn:Hurl.
  - eexists _, _. split; [reflexivity|]. cbn. repeat split; auto; discriminate.
  - destruct (httpClient_Do _ _) as [[resp|e] w'];
      eexists _, _; (split; [reflexivity|]); cbn; auto.
Qed.

Lemma CreateCommunication_run cfg token patientID providerID total q10 st :
  let url := OystehrFHIRBaseURL cfg +:+ "/Communication" in
  let req := createRequest cfg token url
               (CommunicationBody
                  (communicationPayload patientID providerID total q10
                     (fst (time_Now (world st))))) in
  exists r st',
    CreateCommunication cfg token patientID providerID total q10 st = (Returned r, st') /\
    sends_at_most CommunicationCreate req st st' /\
    (NewRequest_err "POST" url = None ->
       calls st' = calls st ++ [(CommunicationCreate, req)]).
Proof.
  intros url req. subst url req. unfold CreateCommunication. unfold_client.
  destruct (time_Now (world st)) as [t w]. cbn [fst calls world authenticator].
  destruct (NewRequest_err _ _) eqn:Hurl.
  - eexists _, _. split; [reflexivity|]. cbn. repeat split; auto; discriminate.
  - destruct (httpClient_Do _ _) as [[resp|e] w'];
      eexists _, _; (split; [reflexivity|]); cbn; auto.
Qed.

Lemma FindPatientIDByIdentifier_calls cfg token system value st out st' :
  FindPatientIDByIdentifier cfg token system value st = (out, st') ->
  sends (eq PatientSearch) st st'.
Proof.
  unfold FindPatientIDByIdentifier. unfold_client.
  destruct (NewRequest_err _ _).
  - intros [= <- <-]. apply sends_refl.
  - destruct (httpClient_Do _ _) as [[resp|e] w'];
      [destruct (negb _)|]; intros [= <- <-];
      eexists [_]; (split; [reflexivity|]); repeat constructor.
Qed.

Lemma FindActiveEncounterID_calls cfg token patientID st out st' :
  FindActiveEncounterID cfg token patientID st = (out, st') ->
  sends (eq EncounterBySubject) st st'.
Proof.
  unfold FindActiveEncounterID. unfold_client.
  destruct (NewRequest_err _ _).
  - intros [= <- <-]. apply sends_refl.
  - destruct (httpClient_Do _ _) as [[resp|e] w'];
      [destruct (negb _)|]; intros [= <- <-];
      eexists [_]; (split; [reflexivity|]); repeat constructor.
Qed.

Lemma FindEncounterByAppointment_calls cfg token appointmentID st out st' :
  FindEncounterByAppointment cfg token appointmentID st = (out, st') ->
  sends (eq EncounterByAppointment) st st'.
Proof.
  unfold FindEncounterByAppointment. unfold_client.
  destruct (NewRequest_err _ _).
  - intros [= <- <-]. apply sends_refl.
  - destruct (httpClient_Do _ _) as [[resp|e] w'];
      [destruct (negb _)|]; intros [= <- <-];
      eexists [_]; (split; [reflexivity|]); repeat constructor.
Qed.

End ClientTraces.

(** ** The steps of the orchestrator *)

Section HandlerSteps.

Context `{GoRuntime}.

Lemma resolvePatient_direct h token patientID idSystem idValue st :
  patientID <> EmptyString ->
  resolvePatient h token patientID idSystem idValue st = (Returned (inr patientID), st).
Proof.
  intros Hne. unfold resolvePatient.
  destruct (String.eqb_spec patientID EmptyString); [contradiction | reflexivity].
Qed.

Lemma resolvePatient_incomplete h token idSystem idValue st :
  idSystem = EmptyString \/ idValue = EmptyString ->
  resolvePatient h token EmptyString idSystem idValue st
  = (Returned (inl (sendJSONError
                      "provide patientId OR patientIdentifierSystem+patientIdentifierValue"
                      StatusBadRequest)), st).
Proof.
  intros Hinc. unfold resolvePatient. cbn [String.eqb].
  replace (String.eqb idSystem EmptyString || String.eqb idValue EmptyString) with true;
    [reflexivity|].
  symmetry. apply orb_true_iff. destruct Hinc as [->| ->]; [left | right]; reflexivity.
Qed.

(** With the pair complete and no direct id, the outcome is that of the
    identifier search: its id, or a 400 whatever made it fail. *)
Lemma resolvePatient_lookup h token idSystem idValue st :
  idSystem <> EmptyString -> idValue <> EmptyString ->
  resolvePatient h token EmptyString idSystem idValue st =
  match FindPatientIDByIdentifier (handler_Config h) token idSystem idValue st with
  | (Returned (Ok resolvedID), st') => (Returned (inr resolvedID), st')
  | (Returned (Err _), st') =>
      (Returned (inl (sendJSONError "patient not found from identifier" StatusBadRequest)),
       st')
  | (Panicked msg, st') => (Panicked msg, st')
  end.
Proof.
  intros Hs Hv. unfold resolvePatient. cbn [String.eqb].
  destruct (String.eqb_spec idSystem EmptyString); [contradiction|].
  destruct (String.eqb_spec idValue EmptyString); [contradiction|].
  cbn [orb]. unfold bind.
  destruct (FindPatientIDByIdentifier _ _ _ _ st) as [[[id|e]|msg] st']; reflexivity.
Qed.

Lemma resolvePatient_calls h token patientID idSystem idValue st out st' :
  resolvePatient h token patientID idSystem idValue st = (out, st') ->
  (patientID <> EmptyString /\ st' = st) \/
  (patientID = EmptyString /\ sends (eq PatientSearch) st st').
Proof.
  destruct (String.eqb_spec patientID EmptyString) as [->|Hne].
  - intros Hrun. right. split; [reflexivity|].
    destruct (String.eqb_spec idSystem EmptyString) as [->|Hs].
    { rewrite resolvePatient_incomplete in Hrun by (left; reflexivity).
      injection Hrun as <- <-. apply sends_refl. }
    destruct (String.eqb_spec idValue EmptyString) as [->|Hv].
    { rewrite resolvePatient_incomplete in Hrun by (right; reflexivity).
      injection Hrun as <- <-. apply sends_refl. }
    rewrite resolvePatient_lookup in Hrun by assumption.
    destruct (FindPatientIDByIdentifier _ _ _ _ st) as [o st1] eqn:Hf.
    apply FindPatientIDByIdentifier_calls in Hf.
    destruct o as [[id|e]|msg]; injection Hrun as <- <-; exact Hf.
  - rewrite resolvePatient_direct by exact Hne. intros [= <- <-]. left. auto.
Qed.

(** An explicit encounter id ends the discovery before it starts. *)
Lemma discoverEncounter_explicit h token patientID encID apptID st :
  encID <> EmptyString ->
  discoverEncounter h token patientID encID apptID st = (Returned encID, st).
Proof.
  intros Hne. unfold discoverEncounter.
  destruct (String.eqb_spec encID EmptyString); [contradiction | reflexivity].
Qed.

(** With neither an encounter id nor an appointment id, the discovery is
    the search by subject; its failure leaves the id empty. *)
Lemma discoverEncounter_subject_only h token patientID st :
  discoverEncounter h token patientID EmptyString EmptyString st =
  match FindActiveEncounterID (handler_Config h) token patientID st with
  | (Returned (Ok found), st') => (Returned found, st')
  | (Returned (Err _), st') => (Returned EmptyString, st')
  | (Panicked msg, st') => (Panicked msg, st')
  end.
Proof.
  unfold discoverEncounter. cbn [String.eqb negb]. unfold bind, ret. cbn [String.eqb].
  destruct (FindActiveEncounterID _ _ _ st) as [[[id|e]|msg] st']; reflexivity.
Qed.

Lemma discoverEncounter_calls (P : RemoteCall -> Prop) h token patientID encID apptID
    st out st' :
  (encID = EmptyString -> apptID <> EmptyString -> P EncounterByAppointment) ->
  (encID = EmptyString -> P EncounterBySubject) ->
  discoverEncounter h token patientID encID apptID st = (out, st') ->
  sends P st st'.
Proof.
  intros Happt Hsubj.
  destruct (String.eqb_spec encID EmptyString) as [->|Hne].
  2:{ rewrite discoverEncounter_explicit by exact Hne. intros [= <- <-]. apply sends_refl. }
  specialize (Hsubj eq_refl). specialize (Happt eq_refl).
  assert (Hsearch : forall st1 o st2,
             FindActiveEncounterID (handler_Config h) token patientID st1 = (o, st2) ->
             sends P st1 st2).
  { intros st1 o st2 Hf. apply FindActiveEncounterID_calls in Hf.
    eapply sends_mono; [|exact Hf]. intros c <-. exact Hsubj. }
  unfold discoverEncounter. cbn [String.eqb]. unfold bind, ret.
  destruct (String.eqb_spec apptID EmptyString) as [->|Ha]; cbn [negb String.eqb].
  - destruct (FindActiveEncounterID _ _ _ st) as [o st1] eqn:Hf.
    apply Hsearch in Hf. destruct o as [[id|e]|msg]; intros [= <- <-]; exact Hf.
  - destruct (FindEncounterByAppointment _ _ _ st) as [o st1] eqn:Hf.
    apply FindEncounterByAppointment_calls in Hf.
    assert (Hf' : sends P st st1).
    { eapply sends_mono; [|exact Hf]. intros c <-. exact (Happt Ha). }
    destruct o as [[found|e]|msg].
    + destruct (String.eqb found EmptyString).
      * destruct (FindActiveEncounterID _ _ _ st1) as [o st2] eqn:Hg.
        apply Hsearch in Hg.
        destruct o as [[id|e]|msg]; intros [= <- <-];
          exact (sends_trans _ _ _ _ Hf' Hg).
      * intros [= <- <-]. exact Hf'.
    + cbn [String.eqb].
      destruct (FindActiveEncounterID _ _ _ st1) as [o st2] eqn:Hg.
      apply Hsearch in Hg.
      destruct o as [[id|e']|msg]; intros [= <- <-];
        exact (sends_trans _ _ _ _ Hf' Hg).
    + intros [= <- <-]. exact Hf'.
Qed.

(** Once the encounter is settled, the flag and then the communication are
    attempted, whatever the first returns, and [escalate] returns. *)
Lemma escalate_run h token patientID encID apptID total q10 st found st1 :
  discoverEncounter h token patientID encID apptID st = (Returned found, st1) ->
  let cfg := handler_Config h in
  let st2 := snd (CreateFlag cfg token patientID found total q10 st1) in
  let st3 := snd (CreateCommunication cfg token patientID (AlertProviderFHIRID cfg)
                    total q10 st2) in
  escalate h token patientID encID apptID total q10 st = (Returned tt, st3).
Proof.
  intros Hd cfg st2 st3. subst cfg st2 st3. unfold escalate, bind at 1. rewrite Hd.
  destruct (CreateFlag_run (handler_Config h) token patientID found total q10 st1)
    as (r2 & st2 & H2 & _).
  unfold bind at 1. rewrite H2. cbn [snd].
  destruct (CreateCommunication_run (handler_Config h) token patientID
              (AlertProviderFHIRID (handler_Config h)) total q10 st2)
    as (r3 & st3 & H3 & _).
  unfold bind. rewrite H3. reflexivity.
Qed.

Lemma escalate_calls (P : RemoteCall -> Prop) h token patientID encID apptID total q10
    st out st' :
  (encID = EmptyString -> apptID <> EmptyString -> P EncounterByAppointment) ->
  (encID = EmptyString -> P EncounterBySubject) ->
  P FlagCreate -> P CommunicationCreate ->
  escalate h token patientID encID apptID total q10 st = (out, st') ->
  sends P st st'.
Proof.
  intros Happt Hsubj Hflag Hcomm.
  destruct (discoverEncounter h token patientID encID apptID st) as [o st1] eqn:Hd.
  pose proof (discoverEncounter_calls P _ _ _ _ _ _ _ _ Happt Hsubj Hd) as S1.
  destruct o as [found|msg].
  - rewrite (escalate_run _ _ _ _ _ _ _ _ _ _ Hd). intros [= <- <-].
    destruct (CreateFlag_run (handler_Config h) token patientID found total q10 st1)
      as (r2 & st2 & H2 & S2 & _).
    rewrite H2. cbn [snd].
    destruct (CreateCommunication_run (handler_Config h) token patientID
                (AlertProviderFHIRID (handler_Config h)) total q10 st2)
      as (r3 & st3 & H3 & S3 & _).
    rewrite H3. cbn [snd].
    apply sends_at_most_sends in S2, S3.
    eapply sends_trans; [exact S1|]. eapply sends_trans.
    + eapply sends_mono; [|exact S2]. intros c <-. exact Hflag.
    + eapply sends_mono; [|exact S3]. intros c <-. exact Hcomm.
  - unfold escalate, bind. rewrite Hd. intros [= <- <-]. exact S1.
Qed.

Lemma handleSubmitEPDS_invalid h form resp st :
  parseScores form = inl resp ->
  handleSubmitEPDS h (submission form) st = (Returned resp, st).
Proof.
  intros Hp. unfold handleSubmitEPDS, submission.
  cbn [Method ParseForm String.eqb Ascii.eqb Bool.eqb negb]. rewrite Hp. reflexivity.
Qed.

(** The run of the handler on a submission with acceptable answers, one
    step after the other. *)
Lemma handleSubmitEPDS_scored h form answers st :
  parseScores form = inr answers ->
  let cfg := handler_Config h in
  let patientID := TrimSpace (FormValue form "patientId") in
  let idSystem := TrimSpace (FormValue form "patientIdentifierSystem") in
  let idValue := TrimSpace (FormValue form "patientIdentifierValue") in
  let encID := TrimSpace (FormValue form "encounterId") in
  let apptID := TrimSpace (FormValue form "appointmentId") in
  let total := totalScore answers in
  let q10 := q10Score answers in
  handleSubmitEPDS h (submission form) st =
  match GetAuthToken st with
  | (Returned (Err _), st1) =>
      (Returned (sendJSONError "Internal server error - authentication failed"
                   StatusInternalServerError), st1)
  | (Returned (Ok token), st1) =>
      match resolvePatient h token patientID idSystem idValue st1 with
      | (Returned (inl resp), st2) => (Returned resp, st2)
      | (Returned (inr pid), st2) =>
          match CreateObservation cfg token pid total st2 with
          | (Returned (Err _), st3) =>
              (Returned (sendJSONError "Failed to create FHIR Observation"
                           StatusInternalServerError), st3)
          | (Returned (Ok observationId), st3) =>
              if isHighRisk total q10 then
                match escalate h token pid encID apptID total q10 st3 with
                | (Returned _, st4) => (Returned (sendSuccess observationId total), st4)
                | (Panicked msg, st4) => (Panicked msg, st4)
                end
              else (Returned (sendSuccess observationId total), st3)
          | (Panicked msg, st3) => (Panicked msg, st3)
          end
      | (Panicked msg, st2) => (Panicked msg, st2)
      end
  | (Panicked msg, st1) => (Panicked msg, st1)
  end.
Proof.
  intros Hp cfg patientID idSystem idValue encID apptID total q10.
  unfold handleSubmitEPDS, submission.
  cbn [Method ParseForm String.eqb Ascii.eqb Bool.eqb negb]. rewrite Hp.
  fold cfg patientID idSystem idValue encID apptID total q10.
  unfold bind at 1.
  destruct (GetAuthToken st) as [[[token|e]|msg] st1]; try reflexivity.
  unfold bind at 1.
  destruct (resolvePatient _ _ _ _ _ st1) as [[[resp|pid]|msg] st2]; try reflexivity.
  unfold bind at 1.
  destruct (CreateObservation _ _ _ _ st2) as [[[observationId|e]|msg] st3]; try reflexivity.
  unfold bind, ret.
  destruct (isHighRisk total q10); [|reflexivity].
  destruct (escalate _ _ _ _ _ _ _ st3) as [[u|msg] st4]; reflexivity.
Qed.

Lemma parseScores_loop_inl form idxs :
  forall acc resp,
    parseScores_loop form idxs acc = inl resp ->
    exists j g, j ∈ idxs /\ answerFault form j = Some g /\
                resp = sendJSONError (faultMessage j g) StatusBadRequest.
Proof.
  induction idxs as [|k idxs IH]; intros acc resp; [discriminate|].
  rewrite parseScores_loop_step.
  destruct (answerFault form k) as [g|] eqn:Hk.
  - intros [= <-]. exists k, g. split; [left|]; auto.
  - destruct (Atoi _) as [v|] eqn:Ha.
    + intros Hrun. destruct (IH _ _ Hrun) as (j & g & Hin & Hj & ->).
      exists j, g. split; [right; exact Hin|]. auto.
    + exfalso. unfold answerFault in Hk. rewrite Ha in Hk.
      destruct (String.eqb _ _); discriminate.
Qed.

Lemma parseScores_inl form resp :
  parseScores form = inl resp ->
  exists j g, 1 <= j <= 10 /\ answerFault form j = Some g /\
              resp = sendJSONError (faultMessage j g) StatusBadRequest.
Proof.
  intros Hp. apply parseScores_loop_inl in Hp as (j & g & Hin & Hj & ->).
  apply elem_of_seqZ in Hin. exists j, g. split; [lia|]. auto.
Qed.

Lemma valid_answers_parse form answers :
  valid_answers form answers -> parseScores form = inr answers.
Proof. intros [Hlen Hans]. apply parseScores_ok; assumption. Qed.

(** Which remote calls a submission can issue: the token exchange and the
    observation always; the patient search only without a direct id; the
    flag, the communication and the encounter searches only at high risk,
    the searches only without an explicit encounter id. *)
Lemma handleSubmitEPDS_calls (P : RemoteCall -> Prop) h form st out st' :
  let patientID := TrimSpace (FormValue form "patientId") in
  let encID := TrimSpace (FormValue form "encounterId") in
  let apptID := TrimSpace (FormValue form "appointmentId") in
  P TokenExchange -> P ObservationCreate ->
  (patientID = EmptyString -> P PatientSearch) ->
  (forall answers,
      parseScores form = inr answers ->
      isHighRisk (totalScore answers) (q10Score answers) = true ->
      P FlagCreate /\ P CommunicationCreate /\
      (encID = EmptyString -> P EncounterBySubject) /\
      (encID = EmptyString -> apptID <> EmptyString -> P EncounterByAppointment)) ->
  handleSubmitEPDS h (submission form) st = (out, st') ->
  sends P st st'.
Proof.
  intros patientID encID apptID Htok Hobs Hpat Hhigh.
  unfold handleSubmitEPDS, submission. cbn [Method ParseForm String.eqb Ascii.eqb Bool.eqb negb].
  fold patientID encID apptID.
  destruct (parseScores form) as [resp|answers] eqn:Hp.
  { intros [= <- <-]. apply sends_refl. }
  specialize (Hhigh answers eq_refl).
  destruct (GetAuthToken_calls st) as (tok & st1 & HG & S1 & _).
  apply sends_at_most_sends in S1.
  assert (S1' : sends P st st1).
  { eapply sends_mono; [|exact S1]. intros c <-. exact Htok. }
  unfold bind at 1. rewrite HG.
  destruct tok as [token|e]; [|intros [= <- <-]; exact S1'].
  unfold bind at 1.
  destruct (resolvePatient h token patientID _ _ st1) as [subject st2] eqn:HR.
  assert (S2 : sends P st1 st2).
  { apply resolvePatient_calls in HR as [[_ ->]|[Hnone S2]]; [apply sends_refl|].
    eapply sends_mono; [|exact S2]. intros c <-. exact (Hpat Hnone). }
  pose proof (sends_trans _ _ _ _ S1' S2) as S12.
  destruct subject as [[resp|pid]|msg]; try (intros [= <- <-]; exact S12).
  destruct (CreateObservation_run (handler_Config h) token pid (totalScore answers) st2)
    as (created & st3 & HC & S3 & _).
  apply sends_at_most_sends in S3.
  assert (S123 : sends P st st3).
  { eapply sends_trans; [exact S12|]. eapply sends_mono; [|exact S3].
    intros c <-. exact Hobs. }
  unfold bind at 1. rewrite HC.
  destruct created as [observationId|e]; [|intros [= <- <-]; exact S123].
  unfold bind at 1.
  destruct (isHighRisk (totalScore answers) (q10Score answers)) eqn:Hrisk.
  - destruct (Hhigh eq_refl) as (Hflag & Hcomm & Hsubj & Happt).
    destruct (escalate h token pid encID apptID _ _ st3) as [o st4] eqn:HE.
    apply (escalate_calls P) in HE; try assumption.
    destruct o; intros [= <- <-]; exact (sends_trans _ _ _ _ S123 HE).
  - intros [= <- <-]. exact S123.
Qed.

End HandlerSteps.

(** C4: with a cached token and [now < expiry - leadTime], [GetAuthToken]
    returns the cached token and sends nothing; otherwise it performs exactly
    one exchange with the identity service, and returns and stores the token
    granted, or returns the error of the exchange and leaves the cache as it
    was. (One call at a time; the lead time is an [int64] duration and the
    identity-service URL is one [http.NewRequest] accepts.) *)
Theorem GetAuthToken_cache_policy `{GoRuntime} (st : St) :
  clock_steady ->
  - int_max <= tokenBuffer (authenticator st) <= int_max ->
  NewRequest_err "POST" (OystehrAuthURL (config (authenticator st))) = None ->
  let a := authenticator st in
  let now := fst (time_Now (world st)) in
  let fresh := token a <> EmptyString /\ now < expiry a - tokenBuffer a in
  (fresh ->
     exists st',
       GetAuthToken st = (Returned (Ok (token a)), st') /\
       calls st' = calls st /\ authenticator st' = a)
  /\
  (~ fresh ->
     exists out st',
       GetAuthToken st = (Returned out, st') /\
       calls st' = calls st ++ [(TokenExchange, authRequest (config a))] /\
       let reply := httpClient_Do (authRequest (config a)) (world_at_fetch st) in
       match grantedToken (fst reply) with
       | Some authResp =>
           out = Ok (AccessToken authResp) /\
           token (authenticator st') = AccessToken authResp /\
           expiry (authenticator st')
           = Time_Add (fst (time_Now (snd reply))) (mul_int (ExpiresIn authResp) Second)
       | None => (exists e, out = Err e) /\ authenticator st' = a
       end).
Proof.
  intros Hclock Hbuf Hurl a now fresh.
  assert (Hw : wrap_int (- tokenBuffer a) = - tokenBuffer a).
  { apply wrap_int_small. unfold int_min, int_max in *. subst a. lia. }
  destruct (tokenValid_run st) as (b & st1 & Hv & Hc & Ha & Hempty & Hfull).
  split.
  - intros [Htok Hnow].
    destruct (Hfull Htok) as [_ Hb]. fold a in Hb. rewrite Hw in Hb.
    assert (b = true) as ->.
    { rewrite Hb. unfold Time_Before, Time_Add. apply Z.ltb_lt. subst now. lia. }
    exists st1. rewrite (GetAuthToken_cached _ _ Hv), Ha. auto.
  - intros Hstale.
    assert (b = false) as ->.
    { destruct (String.eqb_spec (token a) EmptyString) as [E|E].
      - apply (Hempty E).
      - destruct (Hfull E) as [_ Hb]. fold a in Hb. rewrite Hw in Hb. rewrite Hb.
        unfold Time_Before, Time_Add. apply Z.ltb_ge.
        destruct (Z_lt_ge_dec now (expiry a - tokenBuffer a)) as [Hlt|Hge].
        + exfalso. apply Hstale. split; assumption.
        + subst now. lia. }
    rewrite (GetAuthToken_stale _ _ Hv).
    destruct (tokenValid_run st1) as (b2 & st2 & Hv2 & Hc2 & Ha2 & Hempty2 & Hfull2).
    assert (b2 = false /\ world st2 = world_at_fetch st) as [-> Hworld].
    { unfold world_at_fetch. fold a.
      destruct (String.eqb_spec (token a) EmptyString) as [E|E].
      - destruct (Hempty E) as [_ ->].
        destruct Hempty2 as [-> ->]; [exact E|]. auto.
      - destruct (Hfull E) as [Hw1 Hb]. fold a in Hb. rewrite Hw in Hb.
        destruct Hfull2 as [Hw2 Hb2]; [rewrite Ha; exact E|].
        rewrite Ha in Hb2. fold a in Hb2. rewrite Hw in Hb2.
        assert (Hst1 : world st1 = snd (time_Now (world st))) by (rewrite Hw1; reflexivity).
        split.
        + rewrite Hb2. unfold Time_Before, Time_Add in *.
          symmetry in Hb. apply Z.ltb_ge in Hb. apply Z.ltb_ge.
          pose proof (Hclock (world st)) as Hm. rewrite <- Hst1 in Hm. lia.
        + rewrite <- Hst1, Hw2. reflexivity. }
    assert (Ha12 : authenticator st2 = a) by (rewrite Ha2, Ha; reflexivity).
    pose proof (fetchNewToken_run st1 st2 Hv2) as Hrun.
    rewrite Ha12 in Hrun. specialize (Hrun Hurl). cbv zeta in Hrun.
    rewrite Hworld, Hc2, Hc in Hrun. cbv zeta.
    destruct (grantedToken _) as [authResp|].
    + eexists _, _. split; [exact Hrun|]. cbn. auto.
    + destruct Hrun as [e Hrun]. eexists _, _. split; [exact Hrun|]. cbn. eauto.
Qed.


(** ** The orchestrator *)



(** C2 (as the code has it): with valid answers, no direct patient id and an
    incomplete identifier pair, the handler first acquires a credential,
    which sends at most the one token exchange with the identity service;
    once the credential is obtained it answers 400, if the credential cannot
    be obtained it answers 500; nothing is sent to the record store. *)
Theorem missing_patient_info_rejected `{GoRuntime} (h : ApiHandler) (form : Values)
    (answers : list Z) (st : St) :
  valid_answers form answers ->
  TrimSpace (FormValue form "patientId") = EmptyString ->
  TrimSpace (FormValue form "patientIdentifierSystem") = EmptyString \/
  TrimSpace (FormValue form "patientIdentifierValue") = EmptyString ->
  exists tok st',
    GetAuthToken st = (Returned tok, st') /\
    sends_at_most TokenExchange (authRequest (config (authenticator st))) st st' /\
    handleSubmitEPDS h (submission form) st =
    (Returned
       match tok with
       | Ok _ =>
           sendJSONError "provide patientId OR patientIdentifierSystem+patientIdentifierValue"
             StatusBadRequest
       | Err _ =>
           sendJSONError "Internal server error - authentication failed"
             StatusInternalServerError
       end, st').
Proof.
  intros Hvalid Hpid Hpair.
  destruct (GetAuthToken_calls st) as (tok & st' & HG & Hs & _).
  exists tok, st'. split; [exact HG|]. split; [exact Hs|].
  rewrite (handleSubmitEPDS_scored h form answers st (valid_answers_parse _ _ Hvalid)).
  cbv zeta. rewrite HG, Hpid.
  destruct tok as [token|e]; [|reflexivity].
  rewrite resolvePatient_incomplete by exact Hpair. reflexivity.
Qed.

(** The response of a submission, by the step that produced it. *)
Lemma handleSubmitEPDS_response `{GoRuntime} (h : ApiHandler) (form : Values) (st : St)
    (resp : Response) (st' : St) :
  handleSubmitEPDS h (submission form) st = (Returned resp, st') ->
  let cfg := handler_Config h in
  let patientID := TrimSpace (FormValue form "patientId") in
  let idSystem := TrimSpace (FormValue form "patientIdentifierSystem") in
  let idValue := TrimSpace (FormValue form "patientIdentifierValue") in
  (exists observationId answers,
      parseScores form = inr answers /\
      resp = sendSuccess observationId (totalScore answers)) \/
  (exists j g,
      1 <= j <= 10 /\ answerFault form j = Some g /\
      resp = sendJSONError (faultMessage j g) StatusBadRequest) \/
  (patientID = EmptyString /\ (idSystem = EmptyString \/ idValue = EmptyString) /\
   resp = sendJSONError "provide patientId OR patientIdentifierSystem+patientIdentifierValue"
            StatusBadRequest) \/
  (exists token st1 e,
      patientID = EmptyString /\
      GetAuthToken st = (Returned (Ok token), st1) /\
      FindPatientIDByIdentifier cfg token idSystem idValue st1 = (Returned (Err e), st') /\
      resp = sendJSONError "patient not found from identifier" StatusBadRequest) \/
  (exists e,
      GetAuthToken st = (Returned (Err e), st') /\
      resp = sendJSONError "Internal server error - authentication failed"
               StatusInternalServerError) \/
  (exists answers token pid st2 e,
      parseScores form = inr answers /\
      CreateObservation cfg token pid (totalScore answers) st2 = (Returned (Err e), st') /\
      resp = sendJSONError "Failed to create FHIR Observation" StatusInternalServerError).
Proof.
  intros Hrun cfg patientID idSystem idValue.
  destruct (parseScores form) as [bad|answers] eqn:Hp.
  { rewrite (handleSubmitEPDS_invalid _ _ _ _ Hp) in Hrun. injection Hrun as <- <-.
    right; left. apply parseScores_inl. exact Hp. }
  rewrite (handleSubmitEPDS_scored h form answers st Hp) in Hrun. cbv zeta in Hrun.
  fold cfg patientID idSystem idValue in Hrun.
  destruct (GetAuthToken st) as [[[token|e]|msg] st1] eqn:HG; [| |discriminate].
  2:{ injection Hrun as <- <-. do 4 right; left. eauto. }
  destruct (resolvePatient h token patientID idSystem idValue st1)
    as [[[bad|pid]|msg] st2] eqn:HR; [| |discriminate].
  { injection Hrun as <- <-.
    destruct (String.eqb_spec patientID EmptyString) as [Hnone|Hsome].
    2:{ rewrite resolvePatient_direct in HR by exact Hsome. discriminate. }
    rewrite Hnone in HR.
    destruct (String.eqb_spec idSystem EmptyString) as [Hs|Hs].
    { rewrite resolvePatient_incomplete in HR by (left; exact Hs).
      injection HR as <- <-. right; right; left. auto. }
    destruct (String.eqb_spec idValue EmptyString) as [Hv|Hv].
    { rewrite resolvePatient_incomplete in HR by (right; exact Hv).
      injection HR as <- <-. right; right; left. auto. }
    rewrite resolvePatient_lookup in HR by assumption. fold cfg in HR.
    destruct (FindPatientIDByIdentifier cfg token idSystem idValue st1)
      as [[[id|e]|msg] st2'] eqn:HF; try discriminate.
    injection HR as <- <-. do 3 right; left. exists token, st1, e. auto. }
  destruct (CreateObservation cfg token pid (totalScore answers) st2)
    as [[[observationId|e]|msg] st3] eqn:HC; [| |discriminate].
  2:{ injection Hrun as <- <-. do 5 right. exists answers, token, pid, st2, e. auto. }
  left. exists observationId, answers. split; [reflexivity|].
  destruct (isHighRisk _ _).
  - destruct (escalate _ _ _ _ _ _ _ st3) as [[u|msg] st4]; [|discriminate].
    injection Hrun as <- <-. reflexivity.
  - injection Hrun as <- <-. reflexivity.
Qed.

(** C3 (as the code has it): a submission that fails is answered by the JSON
    error object, with status 400 when an answer or the patient information
    is invalid and when the identifier search fails, whatever made it fail,
    and with status 500 when the credential cannot be obtained and when the
    observation cannot be created. *)
Theorem failure_status_by_class `{GoRuntime} (h : ApiHandler) (form : Values) (st : St)
    (resp : Response) (st' : St) :
  handleSubmitEPDS h (submission form) st = (Returned resp, st') ->
  resp_code resp <> StatusOK ->
  failure_classified h form st resp st'.
Proof.
  intros Hrun Hfail. unfold failure_classified.
  destruct (handleSubmitEPDS_response h form st resp st' Hrun)
    as [(id & a & _ & ->)
       |[(j & g & Hj & Hg & ->)
        |[(Hp & Hpair & ->)
         |[(token & st1 & e & Hp & HG & HF & ->)
          |[(e & HG & ->)
           |(a & token & pid & st2 & e & Hp & HC & ->)]]]]].
  - exfalso. apply Hfail. reflexivity.
  - split; [eexists; reflexivity|]. split; [reflexivity|].
    left. split; [reflexivity|]. left. exists j, g. auto.
  - split; [eexists; reflexivity|]. split; [reflexivity|].
    left. split; [reflexivity|]. right. auto.
  - split; [eexists; reflexivity|]. split; [reflexivity|].
    right; left. split; [reflexivity|]. exists token, st1, e. auto.
  - split; [eexists; reflexivity|]. split; [reflexivity|].
    right; right; left. split; [reflexivity|]. exists e. exact HG.
  - split; [eexists; reflexivity|]. split; [reflexivity|].
    right; right; right. split; [reflexivity|]. exists a, token, pid, st2, e. auto.
Qed.

(** C5: when the creation of the observation fails, the handler answers 500
    and stops there: the state it leaves is the one [CreateObservation]
    left, and neither a flag nor a communication call was issued. *)
Theorem observation_failure_is_fatal `{GoRuntime} (h : ApiHandler) (form : Values)
    (answers : list Z) (st : St) (token : string) (st1 : St) (pid : string) (st2 : St)
    (e : error) (st3 : St) :
  valid_answers form answers ->
  GetAuthToken st = (Returned (Ok token), st1) ->
  resolvePatient h token
    (TrimSpace (FormValue form "patientId"))
    (TrimSpace (FormValue form "patientIdentifierSystem"))
    (TrimSpace (FormValue form "patientIdentifierValue")) st1
  = (Returned (inr pid), st2) ->
  CreateObservation (handler_Config h) token pid (totalScore answers) st2
  = (Returned (Err e), st3) ->
  handleSubmitEPDS h (submission form) st
  = (Returned (sendJSONError "Failed to create FHIR Observation" StatusInternalServerError),
     st3) /\
  sends (fun c => c <> FlagCreate /\ c <> CommunicationCreate) st st3.
Proof.
  intros Hvalid HG HR HC. split.
  - rewrite (handleSubmitEPDS_scored h form answers st (valid_answers_parse _ _ Hvalid)).
    cbv zeta. rewrite HG, HR, HC. reflexivity.
  - destruct (GetAuthToken_calls st) as (tok & st1' & HG' & S1 & _).
    rewrite HG in HG'. injection HG' as <- <-.
    apply sends_at_most_sends in S1.
    assert (S2 : sends (eq PatientSearch) st1 st2).
    { apply resolvePatient_calls in HR as [[_ ->]|[_ S2]]; [apply sends_refl | exact S2]. }
    destruct (CreateObservation_run (handler_Config h) token pid (totalScore answers) st2)
      as (r & st3' & HC' & S3 & _).
    rewrite HC in HC'. injection HC' as <- <-.
    apply sends_at_most_sends in S3.
    eapply sends_trans; [|eapply sends_trans].
    + eapply sends_mono; [|exact S1]. intros c <-. split; discriminate.
    + eapply sends_mono; [|exact S2]. intros c <-. split; discriminate.
    + eapply sends_mono; [|exact S3]. intros c <-. split; discriminate.
Qed.

(** C6: a high-risk submission with a direct patient id and neither
    encounter id nor appointment id, whose encounter search by subject
    fails: the observation has been created, the flag is attempted with no
    encounter reference, the communication is attempted after it whatever
    the flag call returned, and the response is the success response
    whatever the two calls returned. *)
Theorem alert_without_encounter `{GoRuntime} (h : ApiHandler) (form : Values)
    (answers : list Z) (st : St) (token : string) (st1 : St) (observationId : string)
    (st2 : St) (e : error) (st3 : St) :
  let cfg := handler_Config h in
  let patientID := TrimSpace (FormValue form "patientId") in
  let total := totalScore answers in
  let q10 := q10Score answers in
  valid_answers form answers ->
  isHighRisk total q10 = true ->
  patientID <> EmptyString ->
  TrimSpace (FormValue form "encounterId") = EmptyString ->
  TrimSpace (FormValue form "appointmentId") = EmptyString ->
  GetAuthToken st = (Returned (Ok token), st1) ->
  CreateObservation cfg token patientID total st1 = (Returned (Ok observationId), st2) ->
  FindActiveEncounterID cfg token patientID st2 = (Returned (Err e), st3) ->
  let flag := flagPayload patientID EmptyString total q10 in
  let flagReq := createRequest cfg token (OystehrFHIRBaseURL cfg +:+ "/Flag") (FlagBody flag) in
  let st4 := snd (CreateFlag cfg token patientID EmptyString total q10 st3) in
  let comm := communicationPayload patientID (AlertProviderFHIRID cfg) total q10
                (fst (time_Now (world st4))) in
  let commReq := createRequest cfg token (OystehrFHIRBaseURL cfg +:+ "/Communication")
                   (CommunicationBody comm) in
  let st5 := snd (CreateCommunication cfg token patientID (AlertProviderFHIRID cfg)
                    total q10 st4) in
  handleSubmitEPDS h (submission form) st = (Returned (sendSuccess observationId total), st5) /\
  (exists obsReq, calls st2 = calls st1 ++ [(ObservationCreate, obsReq)]) /\
  flag_Encounter flag = None /\
  sends_at_most FlagCreate flagReq st3 st4 /\
  (NewRequest_err "POST" (OystehrFHIRBaseURL cfg +:+ "/Flag") = None ->
     calls st4 = calls st3 ++ [(FlagCreate, flagReq)]) /\
  sends_at_most CommunicationCreate commReq st4 st5 /\
  (NewRequest_err "POST" (OystehrFHIRBaseURL cfg +:+ "/Communication") = None ->
     calls st5 = calls st4 ++ [(CommunicationCreate, commReq)]).
Proof.
  intros cfg patientID total q10 Hvalid Hrisk Hpid Henc Happt HG HC HF
    flag flagReq st4 comm commReq st5.
  destruct (CreateFlag_run cfg token patientID EmptyString total q10 st3)
    as (r4 & st4' & H4 & S4 & U4).
  destruct (CreateCommunication_run cfg token patientID (AlertProviderFHIRID cfg)
              total q10 st4')
    as (r5 & st5' & H5 & S5 & U5).
  assert (E4 : st4 = st4') by (subst st4; rewrite H4; reflexivity).
  assert (E5 : st5 = st5') by (subst st5; rewrite E4, H5; reflexivity).
  subst comm commReq. rewrite E5. rewrite E4. clearbody st4 st5. subst st4 st5.
  split.
  { rewrite (handleSubmitEPDS_scored h form answers st (valid_answers_parse _ _ Hvalid)).
    cbv zeta. fold cfg patientID total q10. rewrite HG.
    rewrite resolvePatient_direct by exact Hpid. rewrite HC, Hrisk, Henc, Happt.
    assert (HD : discoverEncounter h token patientID EmptyString EmptyString st2
                 = (Returned EmptyString, st3)).
    { rewrite discoverEncounter_subject_only. fold cfg. rewrite HF. reflexivity. }
    rewrite (escalate_run _ _ _ _ _ _ _ _ _ _ HD). fold cfg.
    rewrite H4. cbn [snd]. rewrite H5. reflexivity. }
  split.
  { destruct (CreateObservation_run cfg token patientID total st1)
      as (r & st2' & HC' & _ & _ & Hsent).
    rewrite HC in HC'. injection HC' as <- <-. eexists. apply (Hsent _ eq_refl). }
  split; [reflexivity|].
  auto.
Qed.

(** C7: with an explicit encounter id the discovery returns at once, and the
    whole run of the handler issues neither the search by appointment nor
    the search by subject. *)
Theorem explicit_encounter_skips_discovery `{GoRuntime} (h : ApiHandler) (form : Values)
    (st : St) (out : Outcome Response) (st' : St) :
  let encID := TrimSpace (FormValue form "encounterId") in
  encID <> EmptyString ->
  handleSubmitEPDS h (submission form) st = (out, st') ->
  sends (fun c => c <> EncounterByAppointment /\ c <> EncounterBySubject) st st' /\
  forall token patientID apptID st0,
    discoverEncounter h token patientID encID apptID st0 = (Returned encID, st0).
Proof.
  intros encID Henc Hrun. split.
  - eapply handleSubmitEPDS_calls; [| | | |exact Hrun].
    + split; discriminate.
    + split; discriminate.
    + intros _. split; discriminate.
    + intros answers _ _. fold encID.
      repeat split; try discriminate; intros; contradiction.
  - intros. apply discoverEncounter_explicit. exact Henc.
Qed.

(** C8: a low-risk submission never issues a flag or a communication call;
    once the credential, the subject id and the observation are obtained,
    the observation request has been sent with the computed total, nothing
    follows it, and the response has status 200, is declared as JSON, and
    its body is the success object written out below, whose observationId
    field holds the id the record store assigned and whose calculatedScore
    field holds the total in decimal. *)
Theorem low_risk_writes_observation_only `{GoRuntime} (h : ApiHandler) (form : Values)
    (answers : list Z) (st : St) :
  let cfg := handler_Config h in
  let total := totalScore answers in
  valid_answers form answers ->
  isHighRisk total (q10Score answers) = false ->
  (forall out st',
      handleSubmitEPDS h (submission form) st = (out, st') ->
      sends (fun c => c <> FlagCreate /\ c <> CommunicationCreate) st st') /\
  (forall token st1 pid st2 observationId st3,
      GetAuthToken st = (Returned (Ok token), st1) ->
      resolvePatient h token
        (TrimSpace (FormValue form "patientId"))
        (TrimSpace (FormValue form "patientIdentifierSystem"))
        (TrimSpace (FormValue form "patientIdentifierValue")) st1
      = (Returned (inr pid), st2) ->
      CreateObservation cfg token pid total st2 = (Returned (Ok observationId), st3) ->
      handleSubmitEPDS h (submission form) st
      = (Returned
           {| resp_code := 200;
              resp_content_type := "application/json";
              resp_body :=
                RawBody
                  ("{" +:+ dquote +:+ "status" +:+ dquote +:+ ": " +:+ dquote +:+ "success" +:+ dquote
                   +:+ ", " +:+ dquote +:+ "observationId" +:+ dquote +:+ ": " +:+ dquote
                   +:+ observationId +:+ dquote
                   +:+ ", " +:+ dquote +:+ "calculatedScore" +:+ dquote +:+ ": "
                   +:+ itoa total +:+ "}") |},
         st3) /\
      calls st3
      = calls st2 ++
        [(ObservationCreate,
          createRequest cfg token (OystehrFHIRBaseURL cfg +:+ "/Observation")
            (ObservationBody (observationPayload pid total (fst (time_Now (world st2))))))]).
Proof.
  intros cfg total Hvalid Hlow.
  pose proof (valid_answers_parse _ _ Hvalid) as Hp.
  split.
  - intros out st' Hrun.
    eapply handleSubmitEPDS_calls; [| | | |exact Hrun].
    + split; discriminate.
    + split; discriminate.
    + intros _. split; discriminate.
    + intros answers' Hp' Hhigh. rewrite Hp in Hp'. injection Hp' as <-.
      fold total in Hhigh. congruence.
  - intros token st1 pid st2 observationId st3 HG HR HC. split.
    + rewrite (handleSubmitEPDS_scored h form answers st Hp).
      cbv zeta. fold cfg total. rewrite HG, HR, HC, Hlow. reflexivity.
    + destruct (CreateObservation_run cfg token pid total st2)
        as (r & st3' & HC' & _ & _ & Hsent).
      rewrite HC in HC'. injection HC' as <- <-. apply (Hsent _ eq_refl).
Qed.

Lemma qKey_not_identifier (i : Z) :
  qKey i <> "patientIdentifierSystem" /\ qKey i <> "patientIdentifierValue".
Proof. unfold qKey. cbn. split; discriminate. Qed.

Lemma parseScores_loop_ext (form form' : Values) (idxs : list Z) :
  (forall i, FormValue form' (qKey i) = FormValue form (qKey i)) ->
  forall acc, parseScores_loop form' idxs acc = parseScores_loop form idxs acc.
Proof.
  intros Hext. induction idxs as [|i idxs IH]; intros acc; [reflexivity|].
  cbn [parseScores_loop]. rewrite Hext.
  destruct (String.eqb _ _); [reflexivity|].
  destruct (Atoi _) as [v|]; [|reflexivity].
  destruct ((v <? 0) || (v >? 3)); [reflexivity|]. apply IH.
Qed.

(** C10: with a non-empty direct patient id (after trimming) the identifier
    pair plays no part: no patient search is issued, a submission with
    valid answers is never answered 400, and two submissions that differ
    only in the identifier fields, complete or not, run identically. *)
Theorem direct_patient_id_ignores_identifier `{GoRuntime} (h : ApiHandler) (form : Values)
    (answers : list Z) (st : St) :
  valid_answers form answers ->
  TrimSpace (FormValue form "patientId") <> EmptyString ->
  (forall out st',
      handleSubmitEPDS h (submission form) st = (out, st') ->
      sends (fun c => c <> PatientSearch) st st' /\
      forall resp, out = Returned resp -> resp_code resp <> StatusBadRequest) /\
  (forall form' : Values,
      (forall k : string,
          k <> "patientIdentifierSystem" -> k <> "patientIdentifierValue" ->
          form' !! k = form !! k) ->
      handleSubmitEPDS h (submission form') st = handleSubmitEPDS h (submission form) st).
Proof.
  intros Hvalid Hpid.
  pose proof (valid_answers_parse _ _ Hvalid) as Hp.
  split.
  - intros out st' Hrun. split.
    + eapply handleSubmitEPDS_calls; [| | | |exact Hrun]; try discriminate.
      * intros Hnone. contradiction.
      * intros _ _ _. repeat split; discriminate.
    + intros resp ->.
      destruct (handleSubmitEPDS_response h form st resp st' Hrun)
        as [(id & a & _ & ->)
           |[(j & g & Hj & Hg & ->)
            |[(Hnone & _)
             |[(token & st1 & e & Hnone & _)
              |[(e & _ & ->)
               |(a & token & pid & st2 & e & _ & _ & ->)]]]]];
        try discriminate; try contradiction.
      exfalso.
      assert (Hin : exists n : nat, j = Z.of_nat n + 1 /\ (n < 10)%nat).
      { exists (Z.to_nat (j - 1)). lia. }
      destruct Hin as (n & -> & Hn). destruct Hvalid as [Hlen Hans].
      destruct (lookup_lt_is_Some_2 answers n) as [v Hv]; [lia|].
      destruct (Hans n v Hv) as [Ha Hr].
      rewrite (answerFault_None form _ v Ha Hr) in Hg. discriminate.
  - intros form' Hsame.
    assert (HFV : forall k, k <> "patientIdentifierSystem" -> k <> "patientIdentifierValue" ->
                            FormValue form' k = FormValue form k).
    { intros k H1 H2. unfold FormValue. rewrite (Hsame k H1 H2). reflexivity. }
    assert (Hp' : parseScores form' = inr answers).
    { rewrite <- Hp. apply parseScores_loop_ext. intros i.
      destruct (qKey_not_identifier i). apply HFV; assumption. }
    rewrite (handleSubmitEPDS_scored h form' answers st Hp').
    rewrite (handleSubmitEPDS_scored h form answers st Hp). cbv zeta.
    rewrite !(HFV "patientId"), !(HFV "encounterId"), !(HFV "appointmentId") by discriminate.
    destruct (GetAuthToken st) as [[[token|e]|msg] st1]; try reflexivity.
    rewrite !resolvePatient_direct by exact Hpid. reflexivity.
Qed.

(** ** The properties on concrete runs *)

Section Runs.

Import Scripted.

Ltac solve_valid :=
  split; [reflexivity|];
  let i := fresh "i" in let v := fresh "v" in let Hv := fresh "Hv" in
  intros i v Hv;
  do 10 (destruct i as [|i];
         [inversion Hv; subst; vm_compute; split; [reflexivity|split; discriminate]|]);
  inversion Hv.

(** Splits a run [m st = (o, st')] into its outcome and its final state. *)
Ltac split_run Hrun Hout Hst :=
  pose proof (f_equal fst Hrun) as Hout;
  pose proof (f_equal snd Hrun) as Hst;
  cbn [fst snd] in Hout, Hst.


Lemma GetAuthToken_cache_policy_witness :
  exists st',
    GetAuthToken (fresh_start [grant_reply "tok" 86400]) = (Returned (Ok "tok"), st') /\
    calls st' = [(TokenExchange, authRequest cfg)] /\
    token (authenticator st') = "tok".
Proof.
  destruct (GetAuthToken_cache_policy (fresh_start [grant_reply "tok" 86400]))
    as [_ Hstale].
  - intros w. cbn. lia.
  - vm_compute. split; discriminate.
  - reflexivity.
  - destruct Hstale as (out & st' & HG & Hc & Hgrant).
    + intros [Hne _]. apply Hne. reflexivity.
    + vm_compute in Hgrant. destruct Hgrant as (-> & Htok & _).
      exists st'. split; [exact HG|]. split; [exact Hc | exact Htok].
Defined.

(** Test E of [test_epds.sh] against a running identity service. *)
Lemma missing_patient_info_rejected_witness :
  let run := handleSubmitEPDS h (submission (form_with [] high_answers))
               (fresh_start [grant_reply "tok" 86400]) in
  fst run
  = Returned (sendJSONError
                "provide patientId OR patientIdentifierSystem+patientIdentifierValue"
                StatusBadRequest) /\
  sent (snd run) = [TokenExchange].
Proof.
  intros run.
  destruct (missing_patient_info_rejected h (form_with [] high_answers) high_answers
              (fresh_start [grant_reply "tok" 86400]))
    as (tok & st' & HG & _ & Hrun).
  - solve_valid.
  - reflexivity.
  - left. reflexivity.
  - split_run HG Htok Hst. vm_compute in Htok. injection Htok as <-.
    subst run. rewrite Hrun. cbn [fst snd]. split; [reflexivity|].
    rewrite <- Hst. vm_compute. reflexivity.
Defined.

(** C2 as stated fails: the submission of test E, valid answers and no
    patient information at all, sent to a service that has no token
    cached and cannot reach the identity service, is answered 500, after
    one remote call. *)
Lemma missing_patient_info_counterexample :
  let form := form_with [] high_answers in
  let run := handleSubmitEPDS h (submission form) (fresh_start []) in
  parseScores form = inr high_answers /\
  TrimSpace (FormValue form "patientId") = EmptyString /\
  TrimSpace (FormValue form "patientIdentifierSystem") = EmptyString /\
  fst run = Returned (sendJSONError "Internal server error - authentication failed"
                        StatusInternalServerError) /\
  calls (snd run) = [(TokenExchange, authRequest cfg)].
Proof. cbv zeta. repeat split; vm_compute; reflexivity. Qed.

(** C3 as stated fails: with a token cached, a submission identified by
    the pair of test B, whose patient search the record store answers with
    status 500, is answered 400. *)
Lemma failure_status_counterexample :
  let form := form_with [("patientIdentifierSystem", "http://hospital.example/mrn");
                         ("patientIdentifierValue", "MRN-12345")] high_answers in
  let st := with_token "tok" [reply 500 "upstream unavailable"] in
  let st1 := snd (GetAuthToken st) in
  fst (GetAuthToken st) = Returned (Ok "tok") /\
  fst (FindPatientIDByIdentifier cfg "tok" "http://hospital.example/mrn" "MRN-12345" st1)
  = Returned (Err "patient search status 500") /\
  fst (handleSubmitEPDS h (submission form) st)
  = Returned (sendJSONError "patient not found from identifier" StatusBadRequest).
Proof. cbv zeta. repeat split; vm_compute; reflexivity. Qed.

Lemma failure_status_by_class_witness :
  let form := form_with [("patientIdentifierSystem", "http://hospital.example/mrn");
                         ("patientIdentifierValue", "MRN-12345")] high_answers in
  let st := with_token "tok" [reply 500 "upstream unavailable"] in
  let resp := sendJSONError "patient not found from identifier" StatusBadRequest in
  fst (handleSubmitEPDS h (submission form) st) = Returned resp /\
  failure_classified h form st resp (snd (handleSubmitEPDS h (submission form) st)).
Proof.
  intros form st resp.
  assert (Hout : fst (handleSubmitEPDS h (submission form) st) = Returned resp)
    by (vm_compute; reflexivity).
  split; [exact Hout|].
  apply failure_status_by_class.
  - apply run_eq. exact Hout.
  - discriminate.
Defined.

Lemma observation_failure_is_fatal_witness :
  let form := form_with [("patientId", "p-1")] low_answers in
  let st := with_token "tok" [reply 500 "store unavailable"] in
  let run := handleSubmitEPDS h (submission form) st in
  fst run = Returned (sendJSONError "Failed to create FHIR Observation"
                        StatusInternalServerError) /\
  sends (fun c => c <> FlagCreate /\ c <> CommunicationCreate) st (snd run) /\
  sent (snd run) = [ObservationCreate].
Proof.
  intros form st run.
  set (st1 := snd (GetAuthToken st)).
  set (st3 := snd (CreateObservation cfg "tok" "p-1" (totalScore low_answers) st1)).
  destruct (observation_failure_is_fatal h form low_answers st "tok" st1 "p-1" st1
              "FHIR API error creating Observation (status 500): store unavailable" st3)
    as [Hrun Hsends].
  - solve_valid.
  - apply run_eq. vm_compute. reflexivity.
  - apply resolvePatient_direct. vm_compute. discriminate.
  - apply run_eq. vm_compute. reflexivity.
  - subst run. rewrite Hrun. cbn [fst snd].
    split; [reflexivity|]. split; [exact Hsends|]. vm_compute. reflexivity.
Defined.

Lemma alert_without_encounter_witness :
  let form := form_with [("patientId", "p-1")] high_answers in
  let st := fresh_start [grant_reply "tok" 86400; id_reply 201 "obs-1";
                         empty_bundle_reply; reply 500 "flag refused";
                         id_reply 201 "comm-1"] in
  let run := handleSubmitEPDS h (submission form) st in
  fst run = Returned (sendSuccess "obs-1" 14) /\
  sent (snd run)
  = [TokenExchange; ObservationCreate; EncounterBySubject; FlagCreate; CommunicationCreate] /\
  flag_Encounter (flagPayload "p-1" EmptyString 14 1) = None.
Proof.
  intros form st run.
  set (st1 := snd (GetAuthToken st)).
  set (st2 := snd (CreateObservation cfg "tok" "p-1" 14 st1)).
  set (st3 := snd (FindActiveEncounterID cfg "tok" "p-1" st2)).
  destruct (alert_without_encounter h form high_answers st "tok" st1 "obs-1" st2
              "no active encounter found for patient p-1" st3)
    as (Hrun & _ & Hflag & _).
  - solve_valid.
  - reflexivity.
  - vm_compute. discriminate.
  - vm_compute. reflexivity.
  - vm_compute. reflexivity.
  - apply run_eq. vm_compute. reflexivity.
  - apply run_eq. vm_compute. reflexivity.
  - apply run_eq. vm_compute. reflexivity.
  - subst run. rewrite Hrun. cbn [fst snd].
    split; [reflexivity|]. split; [vm_compute; reflexivity | exact Hflag].
Defined.

Lemma explicit_encounter_skips_discovery_witness :
  let form := form_with [("patientId", "p-1"); ("encounterId", "enc-7")] high_answers in
  let st := fresh_start [grant_reply "tok" 86400; id_reply 201 "obs-1";
                         id_reply 201 "flag-1"; id_reply 201 "comm-1"] in
  let run := handleSubmitEPDS h (submission form) st in
  sends (fun c => c <> EncounterByAppointment /\ c <> EncounterBySubject) st (snd run) /\
  sent (snd run) = [TokenExchange; ObservationCreate; FlagCreate; CommunicationCreate].
Proof.
  intros form st run.
  destruct (explicit_encounter_skips_discovery h form st (fst run) (snd run))
    as [Hsends _].
  - vm_compute. discriminate.
  - apply surjective_pairing.
  - split; [exact Hsends | vm_compute; reflexivity].
Defined.

Lemma low_risk_writes_observation_only_witness :
  let form := form_with [("patientId", "p-1")] low_answers in
  let st := fresh_start [grant_reply "tok" 86400; id_reply 201 "obs-2"] in
  let run := handleSubmitEPDS h (submission form) st in
  fst run
  = Returned
      {| resp_code := 200;
         resp_content_type := "application/json";
         resp_body :=
           RawBody
             ("{" +:+ dquote +:+ "status" +:+ dquote +:+ ": " +:+ dquote +:+ "success" +:+ dquote
              +:+ ", " +:+ dquote +:+ "observationId" +:+ dquote +:+ ": " +:+ dquote
              +:+ "obs-2" +:+ dquote
              +:+ ", " +:+ dquote +:+ "calculatedScore" +:+ dquote +:+ ": "
              +:+ "2" +:+ "}") |} /\
  sends (fun c => c <> FlagCreate /\ c <> CommunicationCreate) st (snd run) /\
  sent (snd run) = [TokenExchange; ObservationCreate].
Proof.
  intros form st run.
  set (st1 := snd (GetAuthToken st)).
  set (st3 := snd (CreateObservation cfg "tok" "p-1" 2 st1)).
  destruct (low_risk_writes_observation_only h form low_answers st) as [Hnone Hdone].
  - solve_valid.
  - reflexivity.
  - destruct (Hdone "tok" st1 "p-1" st1 "obs-2" st3) as [Hrun _].
    + apply run_eq. vm_compute. reflexivity.
    + apply resolvePatient_direct. vm_compute. discriminate.
    + apply run_eq. vm_compute. reflexivity.
    + split; [|split].
      * subst run. rewrite Hrun. cbn [fst]. vm_compute. reflexivity.
      * apply (Hnone (fst run) (snd run)). apply surjective_pairing.
      * vm_compute. reflexivity.
Defined.

Lemma direct_patient_id_ignores_identifier_witness :
  let form := form_with [("patientId", "p-1")] high_answers in
  let form' := form_with [("patientIdentifierSystem", "http://hospital.example/mrn");
                          ("patientId", "p-1")] high_answers in
  let st := fresh_start [grant_reply "tok" 86400; id_reply 201 "obs-1";
                         bundle_reply "enc-1"; id_reply 201 "flag-1";
                         id_reply 201 "comm-1"] in
  handleSubmitEPDS h (submission form') st = handleSubmitEPDS h (submission form) st /\
  sends (fun c => c <> PatientSearch) st (snd (handleSubmitEPDS h (submission form) st)) /\
  fst (handleSubmitEPDS h (submission form') st) = Returned (sendSuccess "obs-1" 14).
Proof.
  intros form form' st.
  destruct (direct_patient_id_ignores_identifier h form high_answers st)
    as [Hrun Hsame].
  - solve_valid.
  - vm_compute. discriminate.
  - assert (Heq : handleSubmitEPDS h (submission form') st
                  = handleSubmitEPDS h (submission form) st).
    { apply Hsame. intros k Hk _.
      change form' with (<["patientIdentifierSystem" := ["http://hospital.example/mrn"]]> form).
      apply lookup_insert_ne. congruence. }
    split; [exact Heq|]. split.
    + apply (Hrun (fst (handleSubmitEPDS h (submission form) st))).
      apply surjective_pairing.
    + rewrite Heq. vm_compute. reflexivity.
Defined.

End Runs.

(** * Further properties of the code *)

(** ** Configuration loading *)

(** X1: [LoadConfig] succeeds exactly when the six required variables are
    set to non-empty values; the configuration then holds those values and
    a non-empty port, the one of the environment or 8080. *)
Theorem LoadConfig_succeeds_iff (env : Environ) :
  ((exists cfg, LoadConfig env = Ok cfg) <->
   Forall (fun name => Getenv env name <> EmptyString) required_variables) /\
  (forall cfg,
      LoadConfig env = Ok cfg ->
      OystehrFHIRBaseURL cfg = Getenv env "OYSTEHR_FHIR_BASE_URL" /\
      OystehrAuthURL cfg = Getenv env "OYSTEHR_AUTH_URL" /\
      OystehrProjectID cfg = Getenv env "OYSTEHR_PROJECT_ID" /\
      OystehrM2MClientID cfg = Getenv env "OYSTEHR_M2M_CLIENT_ID" /\
      OystehrM2MClientSecret cfg = Getenv env "OYSTEHR_M2M_CLIENT_SECRET" /\
      AlertProviderFHIRID cfg = Getenv env "ALERT_PROVIDER_FHIR_ID" /\
      Port cfg <> EmptyString /\
      Port cfg = (if String.eqb (Getenv env "PORT") EmptyString
                  then "8080" else Getenv env "PORT")).
Proof.
  unfold LoadConfig, required_variables. cbn [OystehrFHIRBaseURL OystehrAuthURL OystehrProjectID
    OystehrM2MClientID OystehrM2MClientSecret AlertProviderFHIRID Port].
  destruct (String.eqb_spec (Getenv env "OYSTEHR_FHIR_BASE_URL") EmptyString) as [E1|E1];
  [|destruct (String.eqb_spec (Getenv env "OYSTEHR_AUTH_URL") EmptyString) as [E2|E2];
  [|destruct (String.eqb_spec (Getenv env "OYSTEHR_PROJECT_ID") EmptyString) as [E3|E3];
  [|destruct (String.eqb_spec (Getenv env "OYSTEHR_M2M_CLIENT_ID") EmptyString) as [E4|E4];
  [|destruct (String.eqb_spec (Getenv env "OYSTEHR_M2M_CLIENT_SECRET") EmptyString) as [E5|E5];
  [|destruct (String.eqb_spec (Getenv env "ALERT_PROVIDER_FHIR_ID") EmptyString) as [E6|E6]]]]]].
  1-6: split; [split; [intros [cfg Hc]; discriminate
                      | intros Hall; exfalso;
                        repeat match goal with
                               | H : Forall _ (_ :: _) |- _ => inversion H; clear H; subst
                               end; congruence]
              | intros cfg Hc; discriminate].
  split.
  - split; [intros _; repeat constructor; assumption|].
    intros _. destruct (String.eqb _ _); eauto.
  - intros cfg Hc.
    destruct (String.eqb_spec (Getenv env "PORT") EmptyString) as [EP|EP];
      injection Hc as <-; cbn; repeat split; try reflexivity; try discriminate; assumption.
Qed.

(** X2: when a required variable is unset or empty, [LoadConfig] fails with
    the message that names the first such variable in the order of the
    checks, whatever the later ones hold. *)
Theorem LoadConfig_names_first_missing (env : Environ) (before after : list string)
    (name : string) :
  required_variables = before ++ name :: after ->
  Forall (fun n => Getenv env n <> EmptyString) before ->
  Getenv env name = EmptyString ->
  LoadConfig env = Err (missing_variable name).
Proof.
  intros Hsplit Hbefore Hname. unfold required_variables in Hsplit.
  unfold LoadConfig. cbn [OystehrFHIRBaseURL OystehrAuthURL OystehrProjectID
    OystehrM2MClientID OystehrM2MClientSecret AlertProviderFHIRID Port].
  do 6 (destruct before as [|b before];
        [ injection Hsplit as <- _;
          repeat match goal with
                 | H : Forall _ (_ :: _) |- _ => inversion H; clear H; subst
                 end;
          repeat match goal with
                 | H : Getenv env ?k <> EmptyString |- context [String.eqb (Getenv env ?k) _] =>
                     destruct (String.eqb_spec (Getenv env k) EmptyString); [contradiction|]
                 end;
          rewrite Hname; reflexivity
        | injection Hsplit as <- Hsplit ]).
  destruct before; discriminate.
Qed.

(** ** Validation and status codes *)

Lemma answerFault_None_inv (form : Values) (i : Z) :
  answerFault form i = None ->
  exists v, Atoi (FormValue form (qKey i)) = Some v /\ 0 <= v <= 3.
Proof.
  unfold answerFault.
  destruct (String.eqb _ _); [discriminate|].
  destruct (Atoi _) as [v|]; [|discriminate].
  destruct ((v <? 0) || (v >? 3)) eqn:Hr; [discriminate|]. intros _.
  exists v. split; [reflexivity|].
  rewrite Z.gtb_ltb in Hr. apply orb_false_iff in Hr as [H1 H2].
  apply Z.ltb_ge in H1, H2. lia.
Qed.

(** The slice the loop returns holds, at each index it visited, the parsed
    answer of that index, and is otherwise the slice it started from. *)
Lemma parseScores_loop_sound (form : Values) (answers : list Z) :
  forall (n a : nat) (acc : list Z),
    parseScores_loop form (seqZ (Z.of_nat a + 1) (Z.of_nat n)) acc = inr answers ->
    (a + n <= length acc)%nat ->
    length answers = length acc /\
    (forall i : nat, (a <= i < a + n)%nat ->
       exists v, answers !! i = Some v /\
                 Atoi (FormValue form (qKey (Z.of_nat i + 1))) = Some v /\ 0 <= v <= 3) /\
    (forall i : nat, (i < a)%nat -> answers !! i = acc !! i).
Proof.
  induction n as [|n IH]; intros a acc Hrun Hlen.
  - cbn in Hrun. injection Hrun as <-.
    split; [reflexivity|]. split; [intros i Hi; lia | reflexivity].
  - replace (Z.of_nat (S n)) with (Z.succ (Z.of_nat n)) in Hrun by lia.
    rewrite seqZ_cons in Hrun by lia. rewrite parseScores_loop_step in Hrun.
    destruct (answerFault form (Z.of_nat a + 1)) as [g|] eqn:Hf; [discriminate|].
    destruct (answerFault_None_inv _ _ Hf) as (v & Hv & Hr). rewrite Hv in Hrun.
    replace (Z.to_nat (Z.of_nat a + 1 - 1)) with a in Hrun by lia.
    replace (Z.succ (Z.of_nat a + 1)) with (Z.of_nat (S a) + 1) in Hrun by lia.
    replace (Z.pred (Z.succ (Z.of_nat n))) with (Z.of_nat n) in Hrun by lia.
    destruct (IH (S a) (<[a:=v]> acc) Hrun) as (Hl & Hvisited & Hkept).
    { rewrite length_insert. lia. }
    rewrite length_insert in Hl. split; [exact Hl|]. split.
    + intros i Hi. destruct (decide (i = a)) as [->|Hne].
      * exists v. split; [|auto].
        rewrite Hkept by lia. apply list_lookup_insert_eq. lia.
      * apply Hvisited. lia.
    + intros i Hi. rewrite Hkept by lia. apply list_lookup_insert_ne. lia.
Qed.

Lemma parseScores_valid (form : Values) (answers : list Z) :
  parseScores form = inr answers -> valid_answers form answers.
Proof.
  intros Hrun. unfold parseScores in Hrun.
  destruct (parseScores_loop_sound form answers 10 0 (replicate 10 0) Hrun)
    as (Hl & Hvisited & _).
  { rewrite length_replicate. lia. }
  rewrite length_replicate in Hl. split; [exact Hl|].
  intros i v Hv.
  assert (Hi : (i < 10)%nat) by (apply lookup_lt_Some in Hv; lia).
  destruct (Hvisited i) as (v' & Hv' & Ha & Hr); [lia|].
  rewrite Hv in Hv'. injection Hv' as <-. auto.
Qed.

(** X3: the validation loop accepts a form exactly when each of q1..q10
    parses with [strconv.Atoi] to an integer in [0,3], and the slice it
    returns is then the list of the ten parsed answers, in order. *)
Theorem parseScores_accepts_iff (form : Values) (answers : list Z) :
  parseScores form = inr answers <-> valid_answers form answers.
Proof.
  split.
  - apply parseScores_valid.
  - intros [Hlen Hans]. apply parseScores_ok; assumption.
Qed.

(** X4: whatever the request, a response the handler writes has status
    200, 400, 405 or 500; it is 405 exactly when the method is not POST,
    and then, as when the form cannot be parsed, the state is left as it
    was: nothing is sent and the credential cache is not touched. Every
    response to a POST is declared as JSON. *)
Theorem handler_status_codes `{GoRuntime} (h : ApiHandler) (r : Request) (st : St)
    (resp : Response) (st' : St) :
  handleSubmitEPDS h r st = (Returned resp, st') ->
  (resp_code resp = StatusOK \/ resp_code resp = StatusBadRequest \/
   resp_code resp = StatusMethodNotAllowed \/ resp_code resp = StatusInternalServerError) /\
  (resp_code resp = StatusMethodNotAllowed <-> Method r <> "POST") /\
  (Method r <> "POST" \/ ParseForm r = None -> st' = st) /\
  (Method r = "POST" -> resp_content_type resp = "application/json").
Proof.
  intros Hrun. destruct r as [method parsed]. cbn [Method ParseForm].
  destruct (String.eqb_spec method "POST") as [->|Hm].
  - destruct parsed as [form|].
    + change {| Method := "POST"; ParseForm := Some form |} with (submission form) in Hrun.
      assert (Hcases : (resp_code resp = StatusOK \/ resp_code resp = StatusBadRequest \/
                        resp_code resp = StatusInternalServerError) /\
                       resp_content_type resp = "application/json").
      { destruct (handleSubmitEPDS_response h form st resp st' Hrun)
          as [(id & a & _ & ->)
             |[(j & g & _ & _ & ->)
              |[(_ & _ & ->)
               |[(token & st1 & e & _ & _ & _ & ->)
                |[(e & _ & ->)
                 |(a & token & pid & st2 & e & _ & _ & ->)]]]]]; cbn; auto. }
      destruct Hcases as [Hcode Hjson].
      split; [tauto|]. split.
      * split; [|intros Hne; contradiction].
        intros H405. exfalso. unfold StatusOK, StatusBadRequest, StatusMethodNotAllowed,
          StatusInternalServerError in *. lia.
      * split; [|auto]. intros [Hne|Hnone]; [contradiction | discriminate].
    + cbn in Hrun. injection Hrun as <- <-. cbn.
      split; [auto|]. split; [|split; auto].
      split; [discriminate | intros Hne; contradiction].
  - unfold handleSubmitEPDS in Hrun. cbn [Method] in Hrun.
    destruct (String.eqb_spec method "POST") as [E|_]; [contradiction|].
    cbn in Hrun. injection Hrun as <- <-. cbn.
    split; [auto|]. split; [|split; [auto | intros E; contradiction]].
    split; [intros _; exact Hm | reflexivity].
Qed.

(** ** The credential cache *)

(** The credential step returns, and what it returns and what it caches
    agree. *)
Lemma GetAuthToken_integrity `{GoRuntime} (st : St) :
  match GetAuthToken st with
  | (Returned (Ok tok), st') =>
      tok <> EmptyString /\ token (authenticator st') = tok /\
      config (authenticator st') = config (authenticator st) /\
      tokenBuffer (authenticator st') = tokenBuffer (authenticator st)
  | (Returned (Err _), st') => authenticator st' = authenticator st
  | (Panicked _, _) => False
  end.
Proof.
  assert (Hfetch : forall s,
    match fetchNewToken s with
    | (Returned (Ok tok), s') =>
        tok <> EmptyString /\ token (authenticator s') = tok /\
        config (authenticator s') = config (authenticator s) /\
        tokenBuffer (authenticator s') = tokenBuffer (authenticator s)
    | (Returned (Err _), s') => authenticator s' = authenticator s
    | (Panicked _, _) => False
    end).
  { intros s.
    destruct (tokenValid_run s) as (b & s1 & Hv & Hc & Ha & Hempty & _).
    unfold fetchNewToken, bind, getAuthenticator, Do, Now, setAuthenticator, ret.
    rewrite Hv.
    destruct b.
    { rewrite Ha. split; [|auto].
      intros E. destruct (Hempty E). discriminate. }
    destruct (NewRequest_err _ _); [exact Ha|].
    destruct (httpClient_Do _ _) as [[resp|e] w']; [|exact Ha].
    destruct (BodyErr resp); [exact Ha|].
    destruct (negb (StatusCode resp =? StatusOK)).
    - destruct (Unmarshal_AuthErrorResponse _) as [errResp|e];
        [destruct (negb (String.eqb (auth_Error errResp) EmptyString))|]; exact Ha.
    - destruct (Unmarshal_AuthResponse _) as [authResp|e]; [|exact Ha].
      destruct (String.eqb_spec (AccessToken authResp) EmptyString) as [E|E]; [exact Ha|].
      cbn. destruct (time_Now w'). cbn. rewrite ?Ha. auto. }
  destruct (tokenValid_run st) as (b & st1 & Hv & Hc & Ha & Hempty & _).
  destruct b.
  - rewrite (GetAuthToken_cached _ _ Hv). rewrite Ha. repeat split; try reflexivity.
    intros E. destruct (Hempty E). discriminate.
  - rewrite (GetAuthToken_stale _ _ Hv). specialize (Hfetch st1).
    destruct (fetchNewToken st1) as [[[tok|e]|msg] st']; try rewrite <- Ha; exact Hfetch.
Qed.

(** X5: whatever the environment answers, [GetAuthToken] returns (it never
    panics) after at most one exchange, and keeps the configuration and the
    lead time of the cache; on success the token it returns is not empty and
    is the one the cache holds afterwards; on failure the cache is left
    exactly as it was, so a failed refresh does not evict the token already
    cached. *)
Theorem GetAuthToken_cache_integrity `{GoRuntime} (st : St) :
  let exchange := authRequest (config (authenticator st)) in
  match GetAuthToken st with
  | (Returned (Ok tok), st') =>
      tok <> EmptyString /\ token (authenticator st') = tok /\
      config (authenticator st') = config (authenticator st) /\
      tokenBuffer (authenticator st') = tokenBuffer (authenticator st) /\
      sends_at_most TokenExchange exchange st st'
  | (Returned (Err _), st') =>
      authenticator st' = authenticator st /\
      sends_at_most TokenExchange exchange st st'
  | (Panicked _, _) => False
  end.
Proof.
  intros exchange. pose proof (GetAuthToken_integrity st) as Hint.
  destruct (GetAuthToken_calls st) as (r & st' & HG & Hsent & _).
  rewrite HG in Hint |- *.
  destruct r as [tok|e].
  - destruct Hint as (H1 & H2 & H3 & H4). auto 6.
  - auto.
Qed.

(** X6: a grant of [expires_in] seconds obtained by a service with an empty
    cache expires that many seconds after the clock reading taken when it is
    stored, and the next [GetAuthToken] serves it from the cache exactly
    when its clock reading is less than [expires_in - 300] seconds after
    that reading; otherwise it performs a new exchange. A grant of at most
    300 seconds is therefore never served from the cache. *)
Theorem grant_reuse_window `{GoRuntime} (st : St) (authResp : AuthResponse) :
  let a := authenticator st in
  let req := authRequest (config a) in
  let reply := httpClient_Do req (world st) in
  let st1 := snd (GetAuthToken st) in
  let stored := fst (time_Now (snd reply)) in
  let now := fst (time_Now (world st1)) in
  let lifetime := ExpiresIn authResp in
  clock_steady ->
  tokenBuffer a = tokenBuffer (NewAuthenticator (config a)) ->
  NewRequest_err "POST" (OystehrAuthURL (config a)) = None ->
  token a = EmptyString ->
  grantedToken (fst reply) = Some authResp ->
  0 <= lifetime <= 9223372036 ->
  fst (GetAuthToken st) = Returned (Ok (AccessToken authResp)) /\
  expiry (authenticator st1) = stored + lifetime * Second /\
  (now < stored + (lifetime - 300) * Second ->
     fst (GetAuthToken st1) = Returned (Ok (AccessToken authResp)) /\
     calls (snd (GetAuthToken st1)) = calls st1) /\
  (~ now < stored + (lifetime - 300) * Second ->
     calls (snd (GetAuthToken st1)) = calls st1 ++ [(TokenExchange, req)]) /\
  (lifetime <= 300 -> ~ now < stored + (lifetime - 300) * Second).
Proof.
  intros a req reply st1 stored now lifetime Hclock Hbuf Hurl Hempty Hgrant Hlife.
  (* the first call *)
  destruct (tokenValid_run st) as (b & s1 & Hv & _ & _ & He & _).
  destruct (He Hempty) as [-> ->]. clear He.
  assert (Hfirst : GetAuthToken st = fetchNewToken st) by exact (GetAuthToken_stale _ _ Hv).
  destruct (tokenValid_run st) as (b2 & s2 & Hv2 & _ & _ & He2 & _).
  destruct (He2 Hempty) as [-> ->]. clear He2.
  pose proof (fetchNewToken_run st st Hv2 Hurl) as Hrun. cbv zeta in Hrun.
  fold a req in Hrun. fold reply in Hrun. rewrite Hgrant in Hrun.
  fold stored in Hrun.
  assert (Hmul : mul_int lifetime Second = lifetime * Second).
  { unfold mul_int. apply wrap_int_small. unfold int_min, int_max, Second. lia. }
  assert (Hst1 : st1 = {| world := snd (time_Now (snd reply));
                          authenticator :=
                            {| config := config a; token := AccessToken authResp;
                               expiry := Time_Add stored (mul_int (ExpiresIn authResp) Second);
                               tokenBuffer := tokenBuffer a |};
                          calls := calls st ++ [(TokenExchange, req)] |}).
  { subst st1. rewrite Hfirst, Hrun. reflexivity. }
  split; [rewrite Hfirst, Hrun; reflexivity|].
  assert (Hexp : expiry (authenticator st1) = stored + lifetime * Second).
  { rewrite Hst1. cbn. fold lifetime. rewrite Hmul. reflexivity. }
  split; [exact Hexp|].
  assert (Htok : token (authenticator st1) = AccessToken authResp) by (rewrite Hst1; reflexivity).
  assert (Hne : token (authenticator st1) <> EmptyString).
  { rewrite Htok. intros E. unfold grantedToken in Hgrant.
    destruct (fst reply) as [resp|e]; [|discriminate].
    destruct (BodyErr resp); [discriminate|].
    destruct (StatusCode resp =? StatusOK); [|discriminate].
    destruct (Unmarshal_AuthResponse (Body resp)) as [g|e]; [|discriminate].
    destruct (String.eqb_spec (AccessToken g) EmptyString) as [E'|E']; [discriminate|].
    injection Hgrant as ->. contradiction. }
  assert (Hbuf1 : wrap_int (- tokenBuffer (authenticator st1)) = - (300 * Second)).
  { rewrite Hst1. cbn [authenticator tokenBuffer]. rewrite Hbuf. reflexivity. }
  assert (Hcfg1 : config (authenticator st1) = config a) by (rewrite Hst1; reflexivity).
  (* the second call *)
  destruct (tokenValid_run st1) as (b & s1 & Hv1 & Hc1 & Ha1 & _ & Hfull).
  destruct (Hfull Hne) as [Hw1 Hb]. rewrite Hbuf1, Hexp in Hb.
  unfold Time_Before, Time_Add in Hb. fold now in Hb.
  split; [|split].
  - intros Hlt. assert (b = true) as -> by (rewrite Hb; apply Z.ltb_lt; lia).
    rewrite (GetAuthToken_cached _ _ Hv1). cbn [fst snd]. rewrite Ha1, Htok. auto.
  - intros Hge. assert (b = false) as -> by (rewrite Hb; apply Z.ltb_ge; lia).
    rewrite (GetAuthToken_stale _ _ Hv1).
    destruct (tokenValid_run s1) as (b' & s2 & Hv' & Hc' & Ha' & _ & Hfull').
    destruct Hfull' as [Hw2 Hb']; [rewrite Ha1; exact Hne|].
    rewrite Ha1, Hbuf1, Hexp in Hb'. unfold Time_Before, Time_Add in Hb'.
    assert (b' = false) as ->.
    { rewrite Hb'. apply Z.ltb_ge.
      pose proof (Hclock (world st1)) as Hm. fold now in Hm.
      assert (Hs1 : world s1 = snd (time_Now (world st1))) by (rewrite Hw1; reflexivity).
      rewrite <- Hs1 in Hm. lia. }
    pose proof (fetchNewToken_run s1 s2 Hv') as Hrun2. cbv zeta in Hrun2.
    rewrite !Ha', !Ha1, !Hcfg1 in Hrun2. specialize (Hrun2 Hurl).
    rewrite !Hc', !Hc1 in Hrun2. fold req in Hrun2.
    destruct (grantedToken (fst (httpClient_Do req (world s2)))).
    + rewrite Hrun2. reflexivity.
    + destruct Hrun2 as [e ->]. reflexivity.
  - intros Hshort Hlt.
    pose proof (Hclock (snd reply)) as Hm. fold stored in Hm.
    assert (Hw : world st1 = snd (time_Now (snd reply))) by (rewrite Hst1; reflexivity).
    rewrite <- Hw in Hm. fold now in Hm. unfold Second in *. lia.
Qed.

(** ** What the clients return *)

Section ClientResults.

Context `{GoRuntime}.

Lemma readCreated_Ok kind resp id :
  readCreated kind resp = Ok id <-> created_by (Ok resp) id.
Proof.
  unfold readCreated, created_by. split.
  - destruct (StatusCode resp =? StatusCreated) eqn:Hs; cbn [negb]; [|discriminate].
    apply Z.eqb_eq in Hs.
    destruct (Unmarshal_createdResource (Body resp)) as [created|e] eqn:Hu; [|discriminate].
    destruct (String.eqb_spec (created_ID created) EmptyString) as [E|E]; [discriminate|].
    intros [= <-]. exists resp, created. auto.
  - intros (resp' & created & [= <-] & Hs & Hu & <- & Hne).
    apply Z.eqb_eq in Hs. rewrite Hs, Hu. cbn [negb].
    destruct (String.eqb_spec (created_ID created) EmptyString); [contradiction | reflexivity].
Qed.

Lemma firstEntryID_Ok what missing resp id :
  firstEntryID what missing resp = Ok id <->
  exists b resource rest p,
    Decode_bundle (Body resp) (BodyErr resp) = Ok b /\ Entry b = resource :: rest /\
    Unmarshal_fhirID resource = Ok p /\ ID p = id /\ id <> EmptyString.
Proof.
  unfold firstEntryID. split.
  - destruct (Decode_bundle _ _) as [b|e]; [|discriminate].
    destruct (Entry b) as [|resource rest] eqn:He; [discriminate|].
    destruct (Unmarshal_fhirID resource) as [p|e] eqn:Hp; [|discriminate].
    destruct (String.eqb_spec (ID p) EmptyString) as [E|E]; [discriminate|].
    intros [= <-]. exists b, resource, rest, p. auto.
  - intros (b & resource & rest & p & -> & -> & -> & <- & Hne).
    destruct (String.eqb_spec (ID p) EmptyString); [contradiction | reflexivity].
Qed.

Lemma FindPatientIDByIdentifier_run cfg token system value st :
  let u := patientSearchURL cfg system value in
  let req := searchRequest cfg token u in
  match NewRequest_err "GET" u with
  | Some _ =>
      FindPatientIDByIdentifier cfg token system value st = (Panicked nil_dereference, st)
  | None =>
      exists r st',
        FindPatientIDByIdentifier cfg token system value st = (Returned r, st') /\
        calls st' = calls st ++ [(PatientSearch, req)] /\
        forall id, r = Ok id <-> found_by (fst (httpClient_Do req (world st))) id
  end.
Proof.
  intros u req. unfold FindPatientIDByIdentifier. fold (patientSearchURL cfg system value).
  fold u. fold req. destruct (NewRequest_err "GET" u); [reflexivity|].
  unfold bind, Do, ret. destruct (httpClient_Do req (world st)) as [[resp|e] w']; cbn [fst].
  - destruct (StatusCode resp =? StatusOK) eqn:Hs; cbn [negb].
    + eexists _, _. split; [reflexivity|]. split; [reflexivity|].
      intros id. rewrite firstEntryID_Ok. unfold found_by. apply Z.eqb_eq in Hs. split.
      * intros (b & resource & rest & p & H1 & H2 & H3 & H4 & H5).
        exists resp, b, resource, rest, p. auto 10.
      * intros (resp' & b & resource & rest & p & [= <-] & _ & H1 & H2 & H3 & H4 & H5).
        exists b, resource, rest, p. auto.
    + eexists _, _. split; [reflexivity|]. split; [reflexivity|].
      intros id. split; [discriminate|].
      intros (resp' & b & resource & rest & p & [= <-] & Hs' & _).
      apply Z.eqb_neq in Hs. contradiction.
  - eexists _, _. split; [reflexivity|]. split; [reflexivity|].
    intros id. split; [discriminate|].
    intros (resp' & b & resource & rest & p & Hr & _). discriminate.
Qed.

Lemma FindActiveEncounterID_run cfg token patientID st :
  let u := encounterSearchURL cfg patientID in
  let req := searchRequest cfg token u in
  match NewRequest_err "GET" u with
  | Some _ => FindActiveEncounterID cfg token patientID st = (Panicked nil_dereference, st)
  | None =>
      exists r st',
        FindActiveEncounterID cfg token patientID st = (Returned r, st') /\
        calls st' = calls st ++ [(EncounterBySubject, req)] /\
        forall id, r = Ok id <-> found_by (fst (httpClient_Do req (world st))) id
  end.
Proof.
  intros u req. unfold FindActiveEncounterID. fold (encounterSearchURL cfg patientID).
  fold u. fold req. destruct (NewRequest_err "GET" u); [reflexivity|].
  unfold bind, Do, ret. destruct (httpClient_Do req (world st)) as [[resp|e] w']; cbn [fst].
  - destruct (StatusCode resp =? StatusOK) eqn:Hs; cbn [negb].
    + eexists _, _. split; [reflexivity|]. split; [reflexivity|].
      intros id. rewrite firstEntryID_Ok. unfold found_by. apply Z.eqb_eq in Hs. split.
      * intros (b & resource & rest & p & H1 & H2 & H3 & H4 & H5).
        exists resp, b, resource, rest, p. auto 10.
      * intros (resp' & b & resource & rest & p & [= <-] & _ & H1 & H2 & H3 & H4 & H5).
        exists b, resource, rest, p. auto.
    + eexists _, _. split; [reflexivity|]. split; [reflexivity|].
      intros id. split; [discriminate|].
      intros (resp' & b & resource & rest & p & [= <-] & Hs' & _).
      apply Z.eqb_neq in Hs. contradiction.
  - eexists _, _. split; [reflexivity|]. split; [reflexivity|].
    intros id. split; [discriminate|].
    intros (resp' & b & resource & rest & p & Hr & _). discriminate.
Qed.

Lemma FindEncounterByAppointment_run cfg token appointmentID st :
  let u := appointmentSearchURL cfg appointmentID in
  let req := searchRequest cfg token u in
  match NewRequest_err "GET" u with
  | Some _ =>
      FindEncounterByAppointment cfg token appointmentID st = (Panicked nil_dereference, st)
  | None =>
      exists r st',
        FindEncounterByAppointment cfg token appointmentID st = (Returned r, st') /\
        calls st' = calls st ++ [(EncounterByAppointment, req)]
  end.
Proof.
  intros u req. unfold FindEncounterByAppointment.
  fold (appointmentSearchURL cfg appointmentID). fold u. fold req.
  destruct (NewRequest_err "GET" u); [reflexivity|].
  unfold bind, Do, ret. destruct (httpClient_Do req (world st)) as [[resp|e] w'].
  - destruct (negb _); eexists _, _; split; reflexivity.
  - eexists _, _. split; reflexivity.
Qed.

End ClientResults.

(** X7: each of the three [Create...] functions returns an id exactly when
    [http.NewRequest] accepts its URL and the record store answers with
    status 201 and a body that decodes to a non-empty id; any other status
    (200 included), an undecodable body or an empty id is an error. *)
Theorem create_succeeds_iff `{GoRuntime} (cfg : Config) (token patientID : string)
    (encounterID providerID : string) (total q10 : Z) (st : St) (id : string) :
  let base := OystehrFHIRBaseURL cfg in
  let now := fst (time_Now (world st)) in
  let later := snd (time_Now (world st)) in
  let obsReq := createRequest cfg token (base +:+ "/Observation")
                  (ObservationBody (observationPayload patientID total now)) in
  let flagReq := createRequest cfg token (base +:+ "/Flag")
                   (FlagBody (flagPayload patientID encounterID total q10)) in
  let commReq := createRequest cfg token (base +:+ "/Communication")
                   (CommunicationBody
                      (communicationPayload patientID providerID total q10 now)) in
  (fst (CreateObservation cfg token patientID total st) = Returned (Ok id) <->
   NewRequest_err "POST" (base +:+ "/Observation") = None /\
   created_by (fst (httpClient_Do obsReq later)) id) /\
  (fst (CreateFlag cfg token patientID encounterID total q10 st) = Returned (Ok id) <->
   NewRequest_err "POST" (base +:+ "/Flag") = None /\
   created_by (fst (httpClient_Do flagReq (world st))) id) /\
  (fst (CreateCommunication cfg token patientID providerID total q10 st) = Returned (Ok id) <->
   NewRequest_err "POST" (base +:+ "/Communication") = None /\
   created_by (fst (httpClient_Do commReq later)) id).
Proof.
  intros base now later obsReq flagReq commReq.
  assert (Hok : forall kind resp,
             Returned (readCreated kind resp) = Returned (Ok id) <->
             None = (None : option error) /\ created_by (Ok resp) id).
  { intros kind resp. rewrite <- readCreated_Ok.
    split; [intros [= ->]; auto | intros [_ ->]; reflexivity]. }
  assert (Herr : forall (e e' : error),
             Returned (Err e : result string) = Returned (Ok id) <->
             None = (None : option error) /\ created_by (Err e') id).
  { intros e e'. split; [discriminate|]. intros [_ (resp & c & Hr & _)]. discriminate. }
  assert (Hurl : forall (e e' : error) (P : Prop),
             Returned (Err e : result string) = Returned (Ok id) <-> Some e' = None /\ P).
  { intros e e' P. split; [discriminate | intros [? _]; discriminate]. }
  split; [|split].
  - unfold CreateObservation, bind, ret, Now, Do. subst obsReq now later base.
    destruct (time_Now (world st)) as [t w].
    cbv beta iota zeta delta [world authenticator calls fst snd].
    destruct (NewRequest_err _ _); [apply Hurl|].
    destruct (httpClient_Do _ w) as [[resp|e] w']; cbn [fst]; [apply Hok | apply Herr].
  - unfold CreateFlag, bind, ret, Do. subst flagReq base.
    destruct (NewRequest_err _ _); [apply Hurl|].
    destruct (httpClient_Do _ (world st)) as [[resp|e] w']; cbn [fst];
      [apply Hok | apply Herr].
  - unfold CreateCommunication, bind, ret, Now, Do. subst commReq now later base.
    destruct (time_Now (world st)) as [t w].
    cbv beta iota zeta delta [world authenticator calls fst snd].
    destruct (NewRequest_err _ _); [apply Hurl|].
    destruct (httpClient_Do _ w) as [[resp|e] w']; cbn [fst]; [apply Hok | apply Herr].
Qed.

(** X8: the patient search and the encounter search by subject return an id
    exactly when [http.NewRequest] accepts the URL and the record store
    answers with status 200 and a bundle whose first entry decodes to a
    non-empty id; only the first entry is looked at. *)
Theorem search_succeeds_iff `{GoRuntime} (cfg : Config) (token system value patientID : string)
    (st : St) (id : string) :
  let patientReq := searchRequest cfg token (patientSearchURL cfg system value) in
  let encounterReq := searchRequest cfg token (encounterSearchURL cfg patientID) in
  (fst (FindPatientIDByIdentifier cfg token system value st) = Returned (Ok id) <->
   NewRequest_err "GET" (patientSearchURL cfg system value) = None /\
   found_by (fst (httpClient_Do patientReq (world st))) id) /\
  (fst (FindActiveEncounterID cfg token patientID st) = Returned (Ok id) <->
   NewRequest_err "GET" (encounterSearchURL cfg patientID) = None /\
   found_by (fst (httpClient_Do encounterReq (world st))) id).
Proof.
  intros patientReq encounterReq. split.
  - pose proof (FindPatientIDByIdentifier_run cfg token system value st) as Hrun.
    cbv zeta in Hrun. fold patientReq in Hrun.
    destruct (NewRequest_err "GET" (patientSearchURL cfg system value)).
    + rewrite Hrun. cbn. split; [discriminate | intros [? _]; discriminate].
    + destruct Hrun as (r & st' & -> & _ & Hiff). cbn [fst]. rewrite <- Hiff.
      split; [intros [= ->]; auto | intros [_ ->]; reflexivity].
  - pose proof (FindActiveEncounterID_run cfg token patientID st) as Hrun.
    cbv zeta in Hrun. fold encounterReq in Hrun.
    destruct (NewRequest_err "GET" (encounterSearchURL cfg patientID)).
    + rewrite Hrun. cbn. split; [discriminate | intros [? _]; discriminate].
    + destruct Hrun as (r & st' & -> & _ & Hiff). cbn [fst]. rewrite <- Hiff.
      split; [intros [= ->]; auto | intros [_ ->]; reflexivity].
Qed.

(** ** Panics, and the order of the remote calls *)

Section Order.

Context `{GoRuntime}.

Lemma issues_refl ops st : issues ops st st.
Proof. exists []. split; [symmetry; apply app_nil_r | apply sublist_nil_l]. Qed.

Lemma issues_app ops1 ops2 st1 st2 st3 :
  issues ops1 st1 st2 -> issues ops2 st2 st3 -> issues (ops1 ++ ops2) st1 st3.
Proof.
  intros (l1 & E1 & S1) (l2 & E2 & S2). exists (l1 ++ l2). split.
  - rewrite E2, E1, app_assoc. reflexivity.
  - rewrite map_app. apply sublist_app; assumption.
Qed.

Lemma issues_weaken ops ops' st st' :
  sublist ops ops' -> issues ops st st' -> issues ops' st st'.
Proof. intros Hs (l & E & S). exists l. split; [exact E | etransitivity; eassumption]. Qed.

Lemma issues_one call req st st' :
  sends_at_most call req st st' -> issues [call] st st'.
Proof.
  intros [E|E].
  - exists []. rewrite app_nil_r. split; [exact E | apply sublist_nil_l].
  - exists [(call, req)]. split; [exact E | reflexivity].
Qed.

Lemma issues_sent call req st st' :
  calls st' = calls st ++ [(call, req)] -> issues [call] st st'.
Proof. intros E. apply (issues_one call req). right. exact E. Qed.

Lemma resolvePatient_issues h token patientID idSystem idValue st out st' :
  resolvePatient h token patientID idSystem idValue st = (out, st') ->
  issues [PatientSearch] st st'.
Proof.
  intros Hrun.
  destruct (String.eqb_spec patientID EmptyString) as [->|Hne].
  2:{ rewrite resolvePatient_direct in Hrun by exact Hne. injection Hrun as <- <-.
      apply issues_refl. }
  destruct (String.eqb_spec idSystem EmptyString) as [->|Hs].
  { rewrite resolvePatient_incomplete in Hrun by (left; reflexivity).
    injection Hrun as <- <-. apply issues_refl. }
  destruct (String.eqb_spec idValue EmptyString) as [->|Hv].
  { rewrite resolvePatient_incomplete in Hrun by (right; reflexivity).
    injection Hrun as <- <-. apply issues_refl. }
  rewrite resolvePatient_lookup in Hrun by assumption.
  pose proof (FindPatientIDByIdentifier_run (handler_Config h) token idSystem idValue st) as Hf.
  cbv zeta in Hf. destruct (NewRequest_err _ _).
  - rewrite Hf in Hrun. injection Hrun as <- <-. apply issues_refl.
  - destruct Hf as (r & st1 & Hf & Hc & _). rewrite Hf in Hrun.
    destruct r; injection Hrun as <- <-; exact (issues_sent _ _ _ _ Hc).
Qed.

Lemma FindActiveEncounterID_issues cfg token patientID st out st' :
  FindActiveEncounterID cfg token patientID st = (out, st') ->
  issues [EncounterBySubject] st st'.
Proof.
  intros Hrun. pose proof (FindActiveEncounterID_run cfg token patientID st) as Hf.
  cbv zeta in Hf. destruct (NewRequest_err _ _).
  - rewrite Hf in Hrun. injection Hrun as <- <-. apply issues_refl.
  - destruct Hf as (r & st1 & Hf & Hc & _). rewrite Hf in Hrun.
    injection Hrun as <- <-. exact (issues_sent _ _ _ _ Hc).
Qed.

Lemma FindEncounterByAppointment_issues cfg token appointmentID st out st' :
  FindEncounterByAppointment cfg token appointmentID st = (out, st') ->
  issues [EncounterByAppointment] st st'.
Proof.
  intros Hrun. pose proof (FindEncounterByAppointment_run cfg token appointmentID st) as Hf.
  cbv zeta in Hf. destruct (NewRequest_err _ _).
  - rewrite Hf in Hrun. injection Hrun as <- <-. apply issues_refl.
  - destruct Hf as (r & st1 & Hf & Hc). rewrite Hf in Hrun.
    injection Hrun as <- <-. exact (issues_sent _ _ _ _ Hc).
Qed.

Lemma discoverEncounter_issues h token patientID encID apptID st out st' :
  discoverEncounter h token patientID encID apptID st = (out, st') ->
  issues [EncounterByAppointment; EncounterBySubject] st st'.
Proof.
  destruct (String.eqb_spec encID EmptyString) as [->|Hne].
  2:{ rewrite discoverEncounter_explicit by exact Hne. intros [= <- <-]. apply issues_refl. }
  unfold discoverEncounter. cbn [String.eqb]. unfold bind, ret.
  destruct (String.eqb_spec apptID EmptyString) as [->|Ha]; cbn [negb String.eqb].
  - destruct (FindActiveEncounterID _ _ _ st) as [o st1] eqn:Hf.
    apply FindActiveEncounterID_issues in Hf.
    assert (Hf' : issues [EncounterByAppointment; EncounterBySubject] st st1).
    { apply (issues_weaken [EncounterBySubject]); [|exact Hf].
      apply sublist_cons. reflexivity. }
    destruct o as [[id|e]|msg]; intros [= <- <-]; exact Hf'.
  - destruct (FindEncounterByAppointment _ _ _ st) as [o st1] eqn:Hf.
    apply FindEncounterByAppointment_issues in Hf.
    assert (Hf' : issues [EncounterByAppointment; EncounterBySubject] st st1).
    { apply (issues_weaken [EncounterByAppointment]); [|exact Hf].
      apply sublist_skip, sublist_nil_l. }
    assert (Hboth : forall st2,
               issues [EncounterBySubject] st1 st2 ->
               issues [EncounterByAppointment; EncounterBySubject] st st2).
    { intros st2 Hg.
      exact (issues_app [EncounterByAppointment] [EncounterBySubject] _ _ _ Hf Hg). }
    destruct o as [[found|e]|msg].
    + destruct (String.eqb found EmptyString).
      * destruct (FindActiveEncounterID _ _ _ st1) as [o2 st2] eqn:Hg.
        apply FindActiveEncounterID_issues, Hboth in Hg.
        destruct o2 as [[id|e]|msg]; intros [= <- <-]; exact Hg.
      * intros [= <- <-]. exact Hf'.
    + cbn [String.eqb].
      destruct (FindActiveEncounterID _ _ _ st1) as [o2 st2] eqn:Hg.
      apply FindActiveEncounterID_issues, Hboth in Hg.
      destruct o2 as [[id|e']|msg]; intros [= <- <-]; exact Hg.
    + intros [= <- <-]. exact Hf'.
Qed.

Lemma escalate_issues h token patientID encID apptID total q10 st out st' :
  escalate h token patientID encID apptID total q10 st = (out, st') ->
  issues [EncounterByAppointment; EncounterBySubject; FlagCreate; CommunicationCreate] st st'.
Proof.
  destruct (discoverEncounter h token patientID encID apptID st) as [o st1] eqn:Hd.
  pose proof (discoverEncounter_issues _ _ _ _ _ _ _ _ Hd) as S1.
  destruct o as [found|msg].
  - rewrite (escalate_run _ _ _ _ _ _ _ _ _ _ Hd). intros [= <- <-].
    destruct (CreateFlag_run (handler_Config h) token patientID found total q10 st1)
      as (r2 & st2 & H2 & S2 & _).
    rewrite H2. cbn [snd].
    destruct (CreateCommunication_run (handler_Config h) token patientID
                (AlertProviderFHIRID (handler_Config h)) total q10 st2)
      as (r3 & st3 & H3 & S3 & _).
    rewrite H3. cbn [snd].
    apply issues_one in S2, S3.
    exact (issues_app [EncounterByAppointment; EncounterBySubject]
             [FlagCreate; CommunicationCreate] _ _ _ S1
             (issues_app [FlagCreate] [CommunicationCreate] _ _ _ S2 S3)).
  - unfold escalate, bind. rewrite Hd. intros [= <- <-].
    apply (issues_weaken [EncounterByAppointment; EncounterBySubject]); [|exact S1].
    do 2 apply sublist_skip. apply sublist_nil_l.
Qed.

End Order.

(** X9: a submission without a direct patient id, whose identifier pair is
    complete but yields a search URL that [http.NewRequest] rejects, gets no
    response: the dropped error leaves the request nil, the handler panics
    right after the credential step, and nothing is sent to the record
    store. *)
Theorem rejected_patient_url_panics `{GoRuntime} (h : ApiHandler) (form : Values)
    (answers : list Z) (st : St) (token : string) (st1 : St) (e : error) :
  let idSystem := TrimSpace (FormValue form "patientIdentifierSystem") in
  let idValue := TrimSpace (FormValue form "patientIdentifierValue") in
  valid_answers form answers ->
  TrimSpace (FormValue form "patientId") = EmptyString ->
  idSystem <> EmptyString -> idValue <> EmptyString ->
  NewRequest_err "GET" (patientSearchURL (handler_Config h) idSystem idValue) = Some e ->
  GetAuthToken st = (Returned (Ok token), st1) ->
  handleSubmitEPDS h (submission form) st = (Panicked nil_dereference, st1).
Proof.
  intros idSystem idValue Hvalid Hpid Hs Hv Hurl HG.
  rewrite (handleSubmitEPDS_scored h form answers st (valid_answers_parse _ _ Hvalid)).
  cbv zeta. fold idSystem idValue. rewrite HG, Hpid.
  rewrite resolvePatient_lookup by assumption.
  pose proof (FindPatientIDByIdentifier_run (handler_Config h) token idSystem idValue st1) as Hf.
  cbv zeta in Hf. rewrite Hurl in Hf. rewrite Hf. reflexivity.
Qed.

(** X10: a high-risk submission with a direct patient id and neither
    encounter id nor appointment id, whose encounter-search URL
    [http.NewRequest] rejects (the patient id goes into it as it is): the
    observation has been created, then the handler panics; the client gets
    no response and neither the flag nor the communication is attempted. *)
Theorem rejected_encounter_url_panics_after_write `{GoRuntime} (h : ApiHandler)
    (form : Values) (answers : list Z) (st : St) (token : string) (st1 : St)
    (observationId : string) (st2 : St) (e : error) :
  let cfg := handler_Config h in
  let patientID := TrimSpace (FormValue form "patientId") in
  let total := totalScore answers in
  valid_answers form answers ->
  isHighRisk total (q10Score answers) = true ->
  patientID <> EmptyString ->
  TrimSpace (FormValue form "encounterId") = EmptyString ->
  TrimSpace (FormValue form "appointmentId") = EmptyString ->
  NewRequest_err "GET" (encounterSearchURL cfg patientID) = Some e ->
  GetAuthToken st = (Returned (Ok token), st1) ->
  CreateObservation cfg token patientID total st1 = (Returned (Ok observationId), st2) ->
  handleSubmitEPDS h (submission form) st = (Panicked nil_dereference, st2) /\
  (exists obsReq, calls st2 = calls st1 ++ [(ObservationCreate, obsReq)]) /\
  issues [TokenExchange; ObservationCreate] st st2.
Proof.
  intros cfg patientID total Hvalid Hrisk Hpid Henc Happt Hurl HG HC.
  destruct (GetAuthToken_calls st) as (tok & st1' & HG' & S1 & _).
  rewrite HG in HG'. injection HG' as <- <-.
  destruct (CreateObservation_run cfg token patientID total st1)
    as (r & st2' & HC' & S2 & _ & Hsent).
  rewrite HC in HC'. injection HC' as <- <-.
  split; [|split].
  - rewrite (handleSubmitEPDS_scored h form answers st (valid_answers_parse _ _ Hvalid)).
    cbv zeta. fold cfg patientID total. rewrite HG.
    rewrite resolvePatient_direct by exact Hpid. rewrite HC, Hrisk, Henc, Happt.
    unfold escalate, bind at 1. rewrite discoverEncounter_subject_only. fold cfg.
    pose proof (FindActiveEncounterID_run cfg token patientID st2) as Hf.
    cbv zeta in Hf. rewrite Hurl in Hf. rewrite Hf. reflexivity.
  - eexists. apply (Hsent _ eq_refl).
  - exact (issues_app [TokenExchange] [ObservationCreate] _ _ _
             (issues_one _ _ _ _ S1) (issues_one _ _ _ _ S2)).
Qed.

(** X11: when [http.NewRequest] accepts every GET URL, the handler answers
    every request: it never panics. *)
Theorem handler_always_responds `{GoRuntime} (h : ApiHandler) (r : Request) (st : St) :
  (forall u, NewRequest_err "GET" u = None) ->
  exists resp st', handleSubmitEPDS h r st = (Returned resp, st').
Proof.
  intros Hurl.
  assert (HP : forall token s v s0, exists o s1,
             FindPatientIDByIdentifier (handler_Config h) token s v s0 = (Returned o, s1)).
  { intros token s v s0.
    pose proof (FindPatientIDByIdentifier_run (handler_Config h) token s v s0) as Hf.
    cbv zeta in Hf. rewrite Hurl in Hf. destruct Hf as (o & s1 & Hf & _). eauto. }
  assert (HS : forall token p s0, exists o s1,
             FindActiveEncounterID (handler_Config h) token p s0 = (Returned o, s1)).
  { intros token p s0.
    pose proof (FindActiveEncounterID_run (handler_Config h) token p s0) as Hf.
    cbv zeta in Hf. rewrite Hurl in Hf. destruct Hf as (o & s1 & Hf & _). eauto. }
  assert (HA : forall token a s0, exists o s1,
             FindEncounterByAppointment (handler_Config h) token a s0 = (Returned o, s1)).
  { intros token a s0.
    pose proof (FindEncounterByAppointment_run (handler_Config h) token a s0) as Hf.
    cbv zeta in Hf. rewrite Hurl in Hf. destruct Hf as (o & s1 & Hf & _). eauto. }
  assert (HD : forall token p enc appt s0, exists found s1,
             discoverEncounter h token p enc appt s0 = (Returned found, s1)).
  { intros token p enc appt s0. unfold discoverEncounter, bind, ret.
    destruct (String.eqb enc EmptyString) eqn:He; [|eauto].
    destruct (negb (String.eqb appt EmptyString)).
    - destruct (HA token appt s0) as (o & s1 & ->).
      destruct o as [found|e].
      + destruct (String.eqb found EmptyString); [|eauto].
        destruct (HS token p s1) as ([id|e] & s2 & ->); eauto.
      + rewrite He. destruct (HS token p s1) as ([id|e'] & s2 & ->); eauto.
    - rewrite He. destruct (HS token p s0) as ([id|e] & s1 & ->); eauto. }
  destruct r as [method parsed]. unfold handleSubmitEPDS. cbn [Method ParseForm].
  destruct (negb (String.eqb method "POST")); [unfold ret; eauto|].
  destruct parsed as [form|]; [|unfold ret; eauto].
  destruct (parseScores form) as [resp|answers]; [unfold ret; eauto|].
  unfold bind at 1.
  destruct (GetAuthToken_calls st) as ([token|e] & st1 & -> & _); [|unfold ret; eauto].
  unfold bind at 1.
  assert (HR : exists subject st2,
             resolvePatient h token (TrimSpace (FormValue form "patientId"))
               (TrimSpace (FormValue form "patientIdentifierSystem"))
               (TrimSpace (FormValue form "patientIdentifierValue")) st1
             = (Returned subject, st2)).
  { unfold resolvePatient, bind, ret.
    destruct (String.eqb _ EmptyString); [|eauto].
    destruct (_ || _); [eauto|].
    destruct (HP token (TrimSpace (FormValue form "patientIdentifierSystem"))
                (TrimSpace (FormValue form "patientIdentifierValue")) st1)
      as ([id|e] & st2 & ->); eauto. }
  destruct HR as ([resp|pid] & st2 & ->); [unfold ret; eauto|].
  unfold bind at 1.
  destruct (CreateObservation_run (handler_Config h) token pid (totalScore answers) st2)
    as ([observationId|e] & st3 & -> & _); [|unfold ret; eauto].
  unfold bind at 1.
  destruct (isHighRisk _ _); [|unfold ret; eauto].
  destruct (HD token pid (TrimSpace (FormValue form "encounterId"))
              (TrimSpace (FormValue form "appointmentId")) st3) as (found & st4 & Hd).
  rewrite (escalate_run _ _ _ _ _ _ _ _ _ _ Hd). unfold ret. eauto.
Qed.

(** X12: in every run of the handler each remote operation is issued at
    most once, and in the order token exchange, patient search, observation,
    encounter search by appointment, encounter search by subject, flag,
    communication: there is no retry and no reordering. *)
Theorem calls_at_most_once_in_order `{GoRuntime} (h : ApiHandler) (r : Request) (st : St) :
  issues call_order st (snd (handleSubmitEPDS h r st)).
Proof.
  destruct r as [method parsed]. unfold handleSubmitEPDS. cbn [Method ParseForm].
  destruct (negb (String.eqb method "POST")); [apply issues_refl|].
  destruct parsed as [form|]; [|apply issues_refl].
  destruct (parseScores form) as [resp|answers]; [apply issues_refl|].
  unfold bind at 1.
  destruct (GetAuthToken_calls st) as (tok & st1 & -> & S1 & _).
  apply issues_one in S1.
  assert (W1 : issues call_order st st1).
  { apply (issues_weaken [TokenExchange]); [|exact S1]. apply sublist_skip, sublist_nil_l. }
  destruct tok as [token|e]; [|exact W1].
  unfold bind at 1.
  destruct (resolvePatient h token _ _ _ st1) as [subject st2] eqn:HR.
  apply resolvePatient_issues in HR.
  pose proof (issues_app _ _ _ _ _ S1 HR) as S2. cbn [app] in S2.
  assert (W2 : issues call_order st st2).
  { apply (issues_weaken [TokenExchange; PatientSearch]); [|exact S2].
    do 2 apply sublist_skip. apply sublist_nil_l. }
  destruct subject as [[resp|pid]|msg]; try exact W2.
  unfold bind at 1.
  destruct (CreateObservation_run (handler_Config h) token pid (totalScore answers) st2)
    as (created & st3 & -> & HC & _).
  apply issues_one in HC.
  pose proof (issues_app _ _ _ _ _ S2 HC) as S3. cbn [app] in S3.
  assert (W3 : issues call_order st st3).
  { apply (issues_weaken [TokenExchange; PatientSearch; ObservationCreate]); [|exact S3].
    do 3 apply sublist_skip. apply sublist_nil_l. }
  destruct created as [observationId|e]; [|exact W3].
  unfold bind at 1.
  destruct (isHighRisk _ _); [|exact W3].
  destruct (escalate h token pid _ _ _ _ st3) as [o st4] eqn:HE.
  apply escalate_issues in HE.
  pose proof (issues_app _ _ _ _ _ S3 HE) as S4. cbn [app] in S4.
  destruct o; exact S4.
Qed.

(** ** The requests of a run *)

Section Requests.

Context `{GoRuntime}.

Lemma sends_requests_refl P st : sends_requests P st st.
Proof. exists []. split; [symmetry; apply app_nil_r | constructor]. Qed.

Lemma sends_requests_trans P st1 st2 st3 :
  sends_requests P st1 st2 -> sends_requests P st2 st3 -> sends_requests P st1 st3.
Proof.
  intros (l1 & E1 & F1) (l2 & E2 & F2). exists (l1 ++ l2). split.
  - rewrite E2, E1, app_assoc. reflexivity.
  - apply Forall_app. split; assumption.
Qed.

Lemma sends_requests_mono (P Q : RemoteCall -> HttpRequest -> Prop) st st' :
  (forall call req, P call req -> Q call req) ->
  sends_requests P st st' -> sends_requests Q st st'.
Proof.
  intros HPQ (l & E & F). exists l. split; [exact E|].
  eapply Forall_impl; [exact F|]. intros [call req]. apply HPQ.
Qed.

Lemma sends_requests_one (P : RemoteCall -> HttpRequest -> Prop) call req st st' :
  P call req -> sends_at_most call req st st' -> sends_requests P st st'.
Proof.
  intros HP [E|E].
  - exists []. rewrite app_nil_r. split; [exact E | constructor].
  - exists [(call, req)]. split; [exact E|]. repeat constructor. exact HP.
Qed.

(** The subject the patient step settles on is never empty. *)
Lemma resolvePatient_requests (P : RemoteCall -> HttpRequest -> Prop) h token
    patientID idSystem idValue st out st' :
  resolvePatient h token patientID idSystem idValue st = (out, st') ->
  (patientID = EmptyString -> idSystem <> EmptyString -> idValue <> EmptyString ->
   P PatientSearch
     (searchRequest (handler_Config h) token
        (patientSearchURL (handler_Config h) idSystem idValue))) ->
  sends_requests P st st' /\
  forall pid, out = Returned (inr pid) ->
    pid <> EmptyString /\ (patientID <> EmptyString -> pid = patientID).
Proof.
  intros Hrun HP.
  destruct (String.eqb_spec patientID EmptyString) as [->|Hne].
  2:{ rewrite resolvePatient_direct in Hrun by exact Hne. injection Hrun as <- <-.
      split; [apply sends_requests_refl|]. intros pid [= <-]. auto. }
  destruct (String.eqb_spec idSystem EmptyString) as [->|Hs].
  { rewrite resolvePatient_incomplete in Hrun by (left; reflexivity).
    injection Hrun as <- <-. split; [apply sends_requests_refl | discriminate]. }
  destruct (String.eqb_spec idValue EmptyString) as [->|Hv].
  { rewrite resolvePatient_incomplete in Hrun by (right; reflexivity).
    injection Hrun as <- <-. split; [apply sends_requests_refl | discriminate]. }
  rewrite resolvePatient_lookup in Hrun by assumption.
  pose proof (FindPatientIDByIdentifier_run (handler_Config h) token idSystem idValue st) as Hf.
  cbv zeta in Hf. destruct (NewRequest_err _ _).
  - rewrite Hf in Hrun. injection Hrun as <- <-.
    split; [apply sends_requests_refl | discriminate].
  - destruct Hf as (r & st1 & Hf & Hc & Hiff). rewrite Hf in Hrun.
    assert (S : sends_requests P st st1).
    { apply (sends_requests_one P PatientSearch
               (searchRequest (handler_Config h) token
                  (patientSearchURL (handler_Config h) idSystem idValue)));
        [apply HP; auto | right; exact Hc]. }
    destruct r as [id|e]; injection Hrun as <- <-; (split; [exact S|]).
    + intros pid [= <-]. split; [|intros Hc'; contradiction].
      destruct (proj1 (Hiff id) eq_refl) as (resp & b & res & rest & p & _ & _ & _ & _ & _ & _ & Hid).
      exact Hid.
    + discriminate.
Qed.

Lemma discoverEncounter_requests (P : RemoteCall -> HttpRequest -> Prop) h token
    patientID encID apptID st out st' :
  discoverEncounter h token patientID encID apptID st = (out, st') ->
  (encID = EmptyString -> apptID <> EmptyString ->
   P EncounterByAppointment
     (searchRequest (handler_Config h) token
        (appointmentSearchURL (handler_Config h) apptID))) ->
  (encID = EmptyString ->
   P EncounterBySubject
     (searchRequest (handler_Config h) token
        (encounterSearchURL (handler_Config h) patientID))) ->
  sends_requests P st st' /\
  forall found, out = Returned found -> encID <> EmptyString -> found = encID.
Proof.
  intros Hrun Happt Hsubj.
  destruct (String.eqb_spec encID EmptyString) as [->|Hne].
  2:{ rewrite discoverEncounter_explicit in Hrun by exact Hne. injection Hrun as <- <-.
      split; [apply sends_requests_refl|]. intros found [= <-] _. reflexivity. }
  split; [|intros found _ Hc; contradiction].
  specialize (Hsubj eq_refl). specialize (Happt eq_refl).
  assert (HS : forall s o s',
             FindActiveEncounterID (handler_Config h) token patientID s = (o, s') ->
             sends_requests P s s').
  { intros s o s' Hf.
    pose proof (FindActiveEncounterID_run (handler_Config h) token patientID s) as Hr.
    cbv zeta in Hr. destruct (NewRequest_err _ _).
    - rewrite Hr in Hf. injection Hf as <- <-. apply sends_requests_refl.
    - destruct Hr as (r & s1 & Hr & Hc & _). rewrite Hr in Hf. injection Hf as <- <-.
      eapply sends_requests_one; [exact Hsubj | right; exact Hc]. }
  revert Hrun. unfold discoverEncounter. cbn [String.eqb]. unfold bind, ret.
  destruct (String.eqb_spec apptID EmptyString) as [->|Ha]; cbn [negb String.eqb].
  - destruct (FindActiveEncounterID _ _ _ st) as [o st1] eqn:Hf.
    apply HS in Hf. destruct o as [[id|e]|msg]; intros [= <- <-]; exact Hf.
  - destruct (FindEncounterByAppointment _ _ _ st) as [o st1] eqn:Hf.
    assert (Hf' : sends_requests P st st1).
    { pose proof (FindEncounterByAppointment_run (handler_Config h) token apptID st) as Hr.
      cbv zeta in Hr. destruct (NewRequest_err _ _).
      - rewrite Hr in Hf. injection Hf as <- <-. apply sends_requests_refl.
      - destruct Hr as (r & s1 & Hr & Hc). rewrite Hr in Hf. injection Hf as <- <-.
        eapply sends_requests_one; [exact (Happt Ha) | right; exact Hc]. }
    destruct o as [[found|e]|msg].
    + destruct (String.eqb found EmptyString).
      * destruct (FindActiveEncounterID _ _ _ st1) as [o2 st2] eqn:Hg.
        apply HS in Hg.
        destruct o2 as [[id|e]|msg]; intros [= <- <-];
          exact (sends_requests_trans _ _ _ _ Hf' Hg).
      * intros [= <- <-]. exact Hf'.
    + cbn [String.eqb].
      destruct (FindActiveEncounterID _ _ _ st1) as [o2 st2] eqn:Hg.
      apply HS in Hg.
      destruct o2 as [[id|e']|msg]; intros [= <- <-];
        exact (sends_requests_trans _ _ _ _ Hf' Hg).
    + intros [= <- <-]. exact Hf'.
Qed.

(** Every request of a run is one the handler is expected to build from
    the form, the token of the credential step and the subject of the
    patient step. *)
Lemma handleSubmitEPDS_requests h form st :
  exists token pid answers,
    sends_requests (expected_request h form st token pid answers)
      st (snd (handleSubmitEPDS h (submission form) st)).
Proof.
  destruct (parseScores form) as [bad|answers] eqn:Hp.
  { exists EmptyString, EmptyString, [].
    rewrite (handleSubmitEPDS_invalid _ _ _ _ Hp). apply sends_requests_refl. }
  rewrite (handleSubmitEPDS_scored h form answers st Hp). cbv zeta.
  set (cfg := handler_Config h).
  set (patientID := TrimSpace (FormValue form "patientId")).
  set (idSystem := TrimSpace (FormValue form "patientIdentifierSystem")).
  set (idValue := TrimSpace (FormValue form "patientIdentifierValue")).
  set (encID := TrimSpace (FormValue form "encounterId")).
  set (apptID := TrimSpace (FormValue form "appointmentId")).
  destruct (GetAuthToken_calls st) as (tok & st1 & HG & S1 & _).
  pose proof (GetAuthToken_integrity st) as Hint. rewrite HG in Hint. rewrite HG.
  assert (T1 : forall token pid,
             sends_requests (expected_request h form st token pid answers) st st1).
  { intros token pid. eapply sends_requests_one; [|exact S1]. reflexivity. }
  destruct tok as [token|e]; [|exists EmptyString, EmptyString, answers; apply T1].
  destruct Hint as (Htok & _).
  assert (Hauth : fst (GetAuthToken st) = Returned (Ok token) /\ token <> EmptyString).
  { rewrite HG. auto. }
  destruct (resolvePatient h token patientID idSystem idValue st1) as [subject st2] eqn:HR.
  assert (T2 : forall pid,
             sends_requests (expected_request h form st token pid answers) st st2 /\
             forall p, subject = Returned (inr p) ->
                       p <> EmptyString /\ (patientID <> EmptyString -> p = patientID)).
  { intros pid.
    destruct (resolvePatient_requests (expected_request h form st token pid answers)
                _ _ _ _ _ _ _ _ HR) as [S2 Hpid].
    - intros Hnone Hs Hv. cbn. fold patientID idSystem idValue cfg. auto 10.
    - split; [exact (sends_requests_trans _ _ _ _ (T1 token pid) S2) | exact Hpid]. }
  destruct subject as [[resp|pid]|msg];
    try (exists token, EmptyString, answers; apply T2).
  destruct (T2 pid) as [S12 Hpid]. destruct (Hpid pid eq_refl) as [Hne Hdirect].
  clear T1 T2 Hpid.
  assert (Hsettled : pid <> EmptyString /\ (patientID <> EmptyString -> pid = patientID))
    by auto.
  exists token, pid, answers.
  destruct (CreateObservation_run cfg token pid (totalScore answers) st2)
    as (created & st3 & HC & S3 & _).
  rewrite HC.
  assert (S123 : sends_requests (expected_request h form st token pid answers) st st3).
  { eapply sends_requests_trans; [exact S12|].
    eapply sends_requests_one; [|exact S3].
    cbn. fold patientID cfg. repeat split; try tauto. eexists. reflexivity. }
  destruct created as [observationId|e]; [|exact S123].
  destruct (isHighRisk (totalScore answers) (q10Score answers)) eqn:Hrisk; [|exact S123].
  destruct (discoverEncounter h token pid encID apptID st3) as [o st4] eqn:HD.
  destruct (discoverEncounter_requests (expected_request h form st token pid answers)
              _ _ _ _ _ _ _ _ HD) as [S4 Hfound].
  { intros He Ha. cbn. fold patientID encID apptID cfg. repeat split; try tauto. }
  { intros He. cbn. fold patientID encID cfg. repeat split; try tauto. }
  pose proof (sends_requests_trans _ _ _ _ S123 S4) as S1234.
  destruct o as [found|msg].
  2:{ unfold escalate, bind. rewrite HD. exact S1234. }
  rewrite (escalate_run _ _ _ _ _ _ _ _ _ _ HD). fold cfg.
  destruct (CreateFlag_run cfg token pid found (totalScore answers) (q10Score answers) st4)
    as (r5 & st5 & H5 & S5 & _).
  rewrite H5. cbn [snd].
  destruct (CreateCommunication_run cfg token pid (AlertProviderFHIRID cfg)
              (totalScore answers) (q10Score answers) st5)
    as (r6 & st6 & H6 & S6 & _).
  rewrite H6. cbn [snd].
  eapply sends_requests_trans; [exact S1234|].
  eapply sends_requests_trans.
  - eapply sends_requests_one; [|exact S5].
    cbn. fold patientID encID cfg. repeat split; try tauto.
    exists found. split; [|reflexivity]. intros Hc. apply (Hfound found eq_refl Hc).
  - eapply sends_requests_one; [|exact S6].
    cbn. fold patientID cfg. repeat split; try tauto. eexists. reflexivity.
Qed.

Lemma calls_prefix h form st :
  exists l, calls (snd (handleSubmitEPDS h (submission form) st)) = calls st ++ l.
Proof.
  destruct (handleSubmitEPDS_requests h form st) as (token & pid & answers & l & Hl & _).
  eauto.
Qed.

Lemma CreateObservation_created cfg token patientID total st id st' :
  CreateObservation cfg token patientID total st = (Returned (Ok id), st') ->
  let req := createRequest cfg token (OystehrFHIRBaseURL cfg +:+ "/Observation")
               (ObservationBody
                  (observationPayload patientID total (fst (time_Now (world st))))) in
  calls st' = calls st ++ [(ObservationCreate, req)] /\
  created_by (fst (httpClient_Do req (snd (time_Now (world st))))) id.
Proof.
  intros Hrun req.
  destruct (CreateObservation_run cfg token patientID total st)
    as (r & s & Hr & _ & _ & Hsent).
  rewrite Hrun in Hr. injection Hr as <- <-. split; [exact (Hsent id eq_refl)|].
  revert Hrun. subst req. unfold CreateObservation, bind, ret, Now, Do.
  destruct (time_Now (world st)) as [t w].
  cbv beta iota zeta delta [world authenticator calls fst snd].
  destruct (NewRequest_err _ _); [discriminate|].
  destruct (httpClient_Do _ w) as [[resp|e] w']; [|discriminate].
  intros [= Hid _]. apply readCreated_Ok in Hid. exact Hid.
Qed.

(** The world a successful [CreateObservation] leaves is the one its
    request returned. *)
Lemma CreateObservation_world cfg token patientID total st id st' :
  CreateObservation cfg token patientID total st = (Returned (Ok id), st') ->
  let req := createRequest cfg token (OystehrFHIRBaseURL cfg +:+ "/Observation")
               (ObservationBody
                  (observationPayload patientID total (fst (time_Now (world st))))) in
  world st' = snd (httpClient_Do req (snd (time_Now (world st)))) /\
  authenticator st' = authenticator st.
Proof.
  intros Hrun req. revert Hrun. subst req. unfold CreateObservation, bind, ret, Now, Do.
  destruct (time_Now (world st)) as [t w].
  cbv beta iota zeta delta [world authenticator calls fst snd].
  destruct (NewRequest_err _ _); [discriminate|].
  destruct (httpClient_Do _ w) as [[resp|e] w']; [|discriminate].
  intros [= _ <-]. split; reflexivity.
Qed.

End Requests.

(** X13: the token exchange is the request of the credential cache and
    carries no Authorization header; every other request of a run, search
    or creation, carries the bearer token the credential step returned,
    which is not empty, and the project id of the configuration. *)
Theorem record_store_requests_authenticated `{GoRuntime} (h : ApiHandler) (form : Values)
    (st : St) :
  exists l,
    calls (snd (handleSubmitEPDS h (submission form) st)) = calls st ++ l /\
    forall call req, (call, req) ∈ l ->
      (call = TokenExchange ->
         req = authRequest (config (authenticator st)) /\
         forall v, ("Authorization", v) ∉ req_Header req) /\
      (call <> TokenExchange ->
         exists token,
           fst (GetAuthToken st) = Returned (Ok token) /\ token <> EmptyString /\
           ("Authorization", "Bearer " +:+ token) ∈ req_Header req /\
           ("x-zapehr-project-id", OystehrProjectID (handler_Config h)) ∈ req_Header req).
Proof.
  destruct (handleSubmitEPDS_requests h form st) as (token & pid & answers & l & Hl & Hall).
  exists l. split; [exact Hl|].
  intros call req Hin. rewrite Forall_forall in Hall. specialize (Hall _ Hin).
  cbn [fst snd] in Hall. unfold expected_request in Hall. cbv zeta in Hall.
  split.
  - intros ->. split; [exact Hall|]. rewrite Hall. intros v Hv. cbn in Hv.
    repeat (apply elem_of_cons in Hv as [Hv|Hv]; [discriminate|]). inversion Hv.
  - intros Hne. exists token.
    destruct call; try contradiction.
    all: repeat match goal with
           | H : _ /\ _ |- _ => destruct H
           | H : exists _, _ |- _ => destruct H
           end; subst req.
    all: split; [assumption|]; split; [assumption|]; cbn; split;
      [apply list_elem_of_here | apply list_elem_of_further, list_elem_of_here].
Qed.

(** X14: all the resources a run creates refer to one subject,
    ["Patient/" + pid] with [pid] not empty, the direct patient id when one
    is given; the encounter search by subject asks for the same [pid]. *)
Theorem one_subject_per_run `{GoRuntime} (h : ApiHandler) (form : Values) (st : St) :
  exists pid l,
    calls (snd (handleSubmitEPDS h (submission form) st)) = calls st ++ l /\
    forall call req, (call, req) ∈ l ->
      (forall s, subject_of (req_Body req) = Some s ->
         s = "Patient/" +:+ pid /\ pid <> EmptyString /\
         (TrimSpace (FormValue form "patientId") <> EmptyString ->
          pid = TrimSpace (FormValue form "patientId"))) /\
      (call = EncounterBySubject ->
         req_URL req = encounterSearchURL (handler_Config h) pid).
Proof.
  destruct (handleSubmitEPDS_requests h form st) as (token & pid & answers & l & Hl & Hall).
  exists pid, l. split; [exact Hl|].
  intros call req Hin. rewrite Forall_forall in Hall. specialize (Hall _ Hin).
  cbn [fst snd] in Hall. unfold expected_request in Hall. cbv zeta in Hall.
  destruct call;
    repeat match goal with
      | H : _ /\ _ |- _ => destruct H
      | H : exists _, _ |- _ => destruct H
      end; subst req; cbn; (split; [|try discriminate; try reflexivity]);
    intros s Hs; try discriminate; injection Hs as <-; auto.
Qed.

(** X15: the observation a run creates records the sum of the ten answers
    the form carries, each an integer in [0,3], so a value between 0 and
    30; no observation is written for a form that fails validation. *)
Theorem observation_records_valid_total `{GoRuntime} (h : ApiHandler) (form : Values)
    (st : St) :
  exists l,
    calls (snd (handleSubmitEPDS h (submission form) st)) = calls st ++ l /\
    forall call req obs, (call, req) ∈ l ->
      req_Body req = ObservationBody obs ->
      exists answers,
        valid_answers form answers /\
        obs_ValueInteger obs = Zsum answers /\
        0 <= obs_ValueInteger obs <= 30.
Proof.
  destruct (handleSubmitEPDS_requests h form st) as (token & pid & answers & l & Hl & Hall).
  exists l. split; [exact Hl|].
  intros call req obs Hin Hbody. rewrite Forall_forall in Hall. specialize (Hall _ Hin).
  cbn [fst snd] in Hall. unfold expected_request in Hall. cbv zeta in Hall.
  assert (Hgoal : parseScores form = inr answers -> obs_ValueInteger obs = totalScore answers ->
                  exists a, valid_answers form a /\ obs_ValueInteger obs = Zsum a /\
                            0 <= obs_ValueInteger obs <= 30).
  { intros Hp Hval. exists answers. pose proof (parseScores_valid _ _ Hp) as Hvalid.
    destruct Hvalid as [Hlen Hans].
    assert (Hrange : Forall in_range answers).
    { apply Forall_lookup. intros i v Hv. apply (Hans i v Hv). }
    pose proof (totalScore_sum answers Hrange Hlen) as Hsum.
    pose proof (Zsum_bounds answers Hrange) as Hb. rewrite Hlen in Hb.
    split; [split; assumption|]. rewrite Hval, Hsum. split; [reflexivity | lia]. }
  destruct call;
    repeat match goal with
      | H : _ /\ _ |- _ => destruct H
      | H : exists _, _ |- _ => destruct H
      end; subst req; cbn in Hbody; try discriminate.
  injection Hbody as <-. apply Hgoal; [assumption | reflexivity].
Qed.

(** X16: with an explicit encounter id (non-empty after trimming), every
    flag a run creates is linked to that encounter. *)
Theorem explicit_encounter_linked `{GoRuntime} (h : ApiHandler) (form : Values) (st : St) :
  let encID := TrimSpace (FormValue form "encounterId") in
  encID <> EmptyString ->
  exists l,
    calls (snd (handleSubmitEPDS h (submission form) st)) = calls st ++ l /\
    forall call req flag, (call, req) ∈ l ->
      req_Body req = FlagBody flag ->
      flag_Encounter flag = Some {| Reference := "Encounter/" +:+ encID |}.
Proof.
  intros encID Henc.
  destruct (handleSubmitEPDS_requests h form st) as (token & pid & answers & l & Hl & Hall).
  exists l. split; [exact Hl|].
  intros call req flag Hin Hbody. rewrite Forall_forall in Hall. specialize (Hall _ Hin).
  cbn [fst snd] in Hall. unfold expected_request in Hall. cbv zeta in Hall.
  fold encID in Hall.
  destruct call;
    repeat match goal with
      | H : _ /\ _ |- _ => destruct H
      | H : exists _, _ |- _ => destruct H
      end; subst req; cbn in Hbody; try discriminate.
  injection Hbody as <-.
  match goal with Hx : encID <> EmptyString -> ?enc = encID |- _ => rewrite (Hx Henc) end.
  cbn. destruct (String.eqb_spec encID EmptyString); [contradiction | reflexivity].
Qed.

(** X17: whenever the handler answers 200, the run went through the
    credential step, the subject step and [CreateObservation], in that
    order; the id in the body of the response is the non-empty id the
    record store returned with status 201 to the observation request of
    this run, in the world the run had reached when it sent it, and the
    score in the body is, in decimal, the value that request carries.  The
    response is written out: status, content type and body. *)
Theorem success_means_recorded `{GoRuntime} (h : ApiHandler) (form : Values) (st : St)
    (resp : Response) (st' : St) :
  handleSubmitEPDS h (submission form) st = (Returned resp, st') ->
  resp_code resp = StatusOK ->
  let cfg := handler_Config h in
  exists answers token st1 pid st2 observationId st3 before after,
    valid_answers form answers /\
    GetAuthToken st = (Returned (Ok token), st1) /\
    resolvePatient h token
      (TrimSpace (FormValue form "patientId"))
      (TrimSpace (FormValue form "patientIdentifierSystem"))
      (TrimSpace (FormValue form "patientIdentifierValue")) st1
    = (Returned (inr pid), st2) /\
    let total := totalScore answers in
    let obs := observationPayload pid total (fst (time_Now (world st2))) in
    let obsReq := createRequest cfg token (OystehrFHIRBaseURL cfg +:+ "/Observation")
                    (ObservationBody obs) in
    let answer := httpClient_Do obsReq (snd (time_Now (world st2))) in
    CreateObservation cfg token pid total st2 = (Returned (Ok observationId), st3) /\
    created_by (fst answer) observationId /\
    world st3 = snd answer /\
    calls st2 = calls st ++ before /\
    calls st3 = calls st2 ++ [(ObservationCreate, obsReq)] /\
    calls st' = calls st3 ++ after /\
    obs_ValueInteger obs = total /\
    resp
    = {| resp_code := 200;
         resp_content_type := "application/json";
         resp_body :=
           RawBody
             ("{" +:+ dquote +:+ "status" +:+ dquote +:+ ": " +:+ dquote +:+ "success" +:+ dquote
              +:+ ", " +:+ dquote +:+ "observationId" +:+ dquote +:+ ": " +:+ dquote
              +:+ observationId +:+ dquote
              +:+ ", " +:+ dquote +:+ "calculatedScore" +:+ dquote +:+ ": "
              +:+ itoa total +:+ "}") |}.
Proof.
  intros Hrun Hcode cfg.
  destruct (parseScores form) as [bad|answers] eqn:Hp.
  { rewrite (handleSubmitEPDS_invalid _ _ _ _ Hp) in Hrun. injection Hrun as <- <-.
    apply parseScores_inl in Hp as (j & g & _ & _ & ->). discriminate. }
  rewrite (handleSubmitEPDS_scored h form answers st Hp) in Hrun. cbv zeta in Hrun.
  fold cfg in Hrun.
  destruct (GetAuthToken st) as [[[token|e]|msg] st1] eqn:HG; [| |discriminate].
  2:{ injection Hrun as <- <-. discriminate. }
  destruct (resolvePatient h token _ _ _ st1) as [[[bad|pid]|msg] st2] eqn:HR;
    [| |discriminate].
  { injection Hrun as <- <-.
    unfold resolvePatient, bind, ret in HR.
    destruct (String.eqb _ EmptyString); [|discriminate].
    destruct (_ || _); [injection HR as <- <-; discriminate|].
    destruct (FindPatientIDByIdentifier _ _ _ _ st1) as [[[id|e]|msg] s]; try discriminate.
    injection HR as <- <-. discriminate. }
  destruct (CreateObservation cfg token pid (totalScore answers) st2)
    as [[[observationId|e]|msg] st3] eqn:HC; [| |discriminate].
  2:{ injection Hrun as <- <-. discriminate. }
  destruct (CreateObservation_created _ _ _ _ _ _ _ HC) as (Hsent & Hcreated).
  destruct (CreateObservation_world _ _ _ _ _ _ _ HC) as (Hworld & _).
  assert (P1 : exists before, calls st2 = calls st ++ before).
  { destruct (GetAuthToken_calls st) as (t & s1 & HG' & S1 & _).
    rewrite HG in HG'. injection HG' as <- <-.
    pose proof HR as HR'. apply resolvePatient_calls in HR'.
    destruct S1 as [E1|E1]; destruct HR' as [[_ ->]|[_ (l2 & E2 & _)]];
      rewrite ?E2, ?E1, <- ?app_assoc; eauto using app_nil_r. }
  assert (P3 : (exists after, calls st' = calls st3 ++ after) /\
               resp = sendSuccess observationId (totalScore answers)).
  { destruct (isHighRisk _ _).
    - destruct (escalate _ _ _ _ _ _ _ st3) as [[u|msg] st4] eqn:HE; [|discriminate].
      injection Hrun as <- <-. split; [|reflexivity].
      apply (escalate_calls (fun _ => True)) in HE as (l3 & E3 & _); eauto.
    - injection Hrun as <- <-. split; [|reflexivity].
      exists []. symmetry. apply app_nil_r. }
  destruct P1 as [before E1]. destruct P3 as [[after E3] Hresp].
  exists answers, token, st1, pid, st2, observationId, st3, before, after.
  split; [apply parseScores_valid; exact Hp|].
  split; [reflexivity|]. split; [exact HR|]. cbv zeta.
  split; [exact HC|]. split; [exact Hcreated|]. split; [exact Hworld|].
  split; [exact E1|]. split; [exact Hsent|]. split; [exact E3|].
  split; [reflexivity|]. exact Hresp.
Qed.

(** X18: without an explicit encounter id and with an appointment id, an
    encounter found by appointment is the one used and the search by
    subject is not attempted; when the search by appointment fails, the
    search by subject decides, and its failure leaves the id empty. *)
Theorem cascade_prefers_appointment `{GoRuntime} (h : ApiHandler)
    (token patientID apptID : string) (st : St) (byAppointment : result string) (st1 : St) :
  apptID <> EmptyString ->
  FindEncounterByAppointment (handler_Config h) token apptID st
  = (Returned byAppointment, st1) ->
  discoverEncounter h token patientID EmptyString apptID st =
  match byAppointment with
  | Ok found =>
      if String.eqb found EmptyString
      then match FindActiveEncounterID (handler_Config h) token patientID st1 with
           | (Returned (Ok bySubject), st2) => (Returned bySubject, st2)
           | (Returned (Err _), st2) => (Returned EmptyString, st2)
           | (Panicked msg, st2) => (Panicked msg, st2)
           end
      else (Returned found, st1)
  | Err _ =>
      match FindActiveEncounterID (handler_Config h) token patientID st1 with
      | (Returned (Ok bySubject), st2) => (Returned bySubject, st2)
      | (Returned (Err _), st2) => (Returned EmptyString, st2)
      | (Panicked msg, st2) => (Panicked msg, st2)
      end
  end.
Proof.
  intros Ha Hf. unfold discoverEncounter. cbn [String.eqb]. unfold bind, ret.
  destruct (String.eqb_spec apptID EmptyString); [contradiction|]. cbn [negb].
  rewrite Hf. destruct byAppointment as [found|e].
  - destruct (String.eqb_spec found EmptyString) as [->|Hne].
    + destruct (FindActiveEncounterID _ _ _ st1) as [[[id|e]|msg] st2]; reflexivity.
    + reflexivity.
  - cbn [String.eqb].
    destruct (FindActiveEncounterID _ _ _ st1) as [[[id|e']|msg] st2]; reflexivity.
Qed.

(** ** Further properties on concrete runs *)

Section FurtherRuns.

Import Scripted.

Ltac solve_valid' :=
  split; [reflexivity|];
  let i := fresh "i" in let v := fresh "v" in let Hv := fresh "Hv" in
  intros i v Hv;
  do 10 (destruct i as [|i];
         [inversion Hv; subst; vm_compute; split; [reflexivity|split; discriminate]|]);
  inversion Hv.

Lemma LoadConfig_names_first_missing_witness :
  LoadConfig (delete "OYSTEHR_PROJECT_ID" (delete "ALERT_PROVIDER_FHIR_ID" env_sh))
  = Err "required environment variable OYSTEHR_PROJECT_ID is not set".
Proof.
  apply (LoadConfig_names_first_missing _
           ["OYSTEHR_FHIR_BASE_URL"; "OYSTEHR_AUTH_URL"]
           ["OYSTEHR_M2M_CLIENT_ID"; "OYSTEHR_M2M_CLIENT_SECRET"; "ALERT_PROVIDER_FHIR_ID"]
           "OYSTEHR_PROJECT_ID").
  - reflexivity.
  - repeat constructor; vm_compute; discriminate.
  - vm_compute. reflexivity.
Defined.

Lemma handler_status_codes_witness :
  let r := {| Method := "GET";
              ParseForm := Some (form_with [("patientId", "p-1")] high_answers) |} in
  let st := fresh_start [grant_reply "tok" 86400] in
  fst (handleSubmitEPDS h r st)
  = Returned (http_Error "Method Not Allowed" StatusMethodNotAllowed) /\
  snd (handleSubmitEPDS h r st) = st.
Proof.
  intros r st.
  assert (Hrun : handleSubmitEPDS h r st
                 = (Returned (http_Error "Method Not Allowed" StatusMethodNotAllowed),
                    snd (handleSubmitEPDS h r st)))
    by (apply run_eq; reflexivity).
  split; [rewrite Hrun; reflexivity|].
  destruct (handler_status_codes h r st _ _ Hrun) as (_ & _ & Hsame & _).
  apply Hsame. left. discriminate.
Defined.

Lemma grant_reuse_window_witness :
  let st := fresh_start [grant_reply "short" 120; grant_reply "next" 86400] in
  let st1 := snd (GetAuthToken st) in
  fst (GetAuthToken st) = Returned (Ok "short") /\
  sent (snd (GetAuthToken st1)) = [TokenExchange; TokenExchange].
Proof.
  intros st st1.
  destruct (grant_reuse_window st
              {| AccessToken := "short"; TokenType := "Bearer"; ExpiresIn := 120 |})
    as (Hfirst & _ & _ & Hrefetch & Hshort).
  - intros w. cbn. lia.
  - reflexivity.
  - reflexivity.
  - reflexivity.
  - vm_compute. reflexivity.
  - cbn. lia.
  - split; [exact Hfirst|].
    unfold sent. fold st1 in Hrefetch. rewrite Hrefetch; [|apply Hshort; cbn; lia].
    rewrite map_app. subst st1. vm_compute. reflexivity.
Defined.

Lemma rejected_patient_url_panics_witness :
  let form := form_with [("patientIdentifierSystem", with_control_byte "sys" "tem");
                         ("patientIdentifierValue", "MRN-12345")] high_answers in
  let run := handleSubmitEPDS h (submission form) (with_token "tok" []) in
  fst run = Panicked nil_dereference /\ sent (snd run) = [].
Proof.
  intros form run.
  assert (Hrun : run = (Panicked nil_dereference, snd (GetAuthToken (with_token "tok" [])))).
  { apply (rejected_patient_url_panics h form high_answers (with_token "tok" []) "tok" _
             "net/url: invalid control character in URL").
    - solve_valid'.
    - vm_compute. reflexivity.
    - vm_compute. discriminate.
    - vm_compute. discriminate.
    - vm_compute. reflexivity.
    - apply run_eq. vm_compute. reflexivity. }
  rewrite Hrun. split; [reflexivity | vm_compute; reflexivity].
Defined.

Lemma rejected_encounter_url_panics_after_write_witness :
  let form := form_with [("patientId", with_control_byte "p" "1")] high_answers in
  let st := fresh_start [grant_reply "tok" 86400; id_reply 201 "obs-1"] in
  let run := handleSubmitEPDS h (submission form) st in
  fst run = Panicked nil_dereference /\ sent (snd run) = [TokenExchange; ObservationCreate].
Proof.
  intros form st run.
  set (st1 := snd (GetAuthToken st)).
  set (st2 := snd (CreateObservation cfg "tok" (with_control_byte "p" "1") 14 st1)).
  destruct (rejected_encounter_url_panics_after_write h form high_answers st "tok" st1
              "obs-1" st2 "net/url: invalid control character in URL")
    as (Hrun & _).
  - solve_valid'.
  - reflexivity.
  - vm_compute. discriminate.
  - vm_compute. reflexivity.
  - vm_compute. reflexivity.
  - vm_compute. reflexivity.
  - apply run_eq. vm_compute. reflexivity.
  - apply run_eq. vm_compute. reflexivity.
  - subst run. rewrite Hrun. split; [reflexivity | vm_compute; reflexivity].
Defined.

Lemma handler_always_responds_witness :
  let form := form_with [("patientIdentifierSystem", with_control_byte "sys" "tem");
                         ("patientIdentifierValue", "MRN-12345")] low_answers in
  exists resp st',
    @handleSubmitEPDS lenient h (submission form)
      (lenient_start [grant_reply "tok" 86400; bundle_reply "p-9"; id_reply 201 "obs-3"])
    = (Returned resp, st').
Proof.
  intros form. apply (@handler_always_responds lenient). intros u. reflexivity.
Defined.

Lemma explicit_encounter_linked_witness :
  let form := form_with [("patientId", "p-1"); ("encounterId", "enc-7")] high_answers in
  let st := fresh_start [grant_reply "tok" 86400; id_reply 201 "obs-1";
                         id_reply 201 "flag-1"; id_reply 201 "comm-1"] in
  exists l,
    calls (snd (handleSubmitEPDS h (submission form) st)) = calls st ++ l /\
    forall call req flag, (call, req) ∈ l ->
      req_Body req = FlagBody flag ->
      flag_Encounter flag = Some {| Reference := "Encounter/enc-7" |}.
Proof.
  intros form st.
  apply (explicit_encounter_linked h form st). vm_compute. discriminate.
Defined.

Lemma success_means_recorded_witness :
  let form := form_with [("patientId", "p-1")] low_answers in
  let st := fresh_start [grant_reply "tok" 86400; id_reply 201 "obs-2"] in
  let st' := snd (handleSubmitEPDS h (submission form) st) in
  exists answers token st1 pid st2 observationId st3 before after,
    valid_answers form answers /\
    GetAuthToken st = (Returned (Ok token), st1) /\
    resolvePatient h token
      (TrimSpace (FormValue form "patientId"))
      (TrimSpace (FormValue form "patientIdentifierSystem"))
      (TrimSpace (FormValue form "patientIdentifierValue")) st1
    = (Returned (inr pid), st2) /\
    let total := totalScore answers in
    let obs := observationPayload pid total (fst (time_Now (world st2))) in
    let obsReq := createRequest cfg token (OystehrFHIRBaseURL cfg +:+ "/Observation")
                    (ObservationBody obs) in
    let answer := httpClient_Do obsReq (snd (time_Now (world st2))) in
    CreateObservation cfg token pid total st2 = (Returned (Ok observationId), st3) /\
    created_by (fst answer) observationId /\
    world st3 = snd answer /\
    calls st2 = calls st ++ before /\
    calls st3 = calls st2 ++ [(ObservationCreate, obsReq)] /\
    calls st' = calls st3 ++ after /\
    obs_ValueInteger obs = total /\
    {| resp_code := 200;
      resp_content_type := "application/json";
      resp_body :=
        RawBody
          ("{" +:+ dquote +:+ "status" +:+ dquote +:+ ": " +:+ dquote +:+ "success" +:+ dquote
           +:+ ", " +:+ dquote +:+ "observationId" +:+ dquote +:+ ": " +:+ dquote
           +:+ "obs-2" +:+ dquote
           +:+ ", " +:+ dquote +:+ "calculatedScore" +:+ dquote +:+ ": "
           +:+ "2" +:+ "}") |}
    = {| resp_code := 200;
         resp_content_type := "application/json";
         resp_body :=
           RawBody
             ("{" +:+ dquote +:+ "status" +:+ dquote +:+ ": " +:+ dquote +:+ "success" +:+ dquote
              +:+ ", " +:+ dquote +:+ "observationId" +:+ dquote +:+ ": " +:+ dquote
              +:+ observationId +:+ dquote
              +:+ ", " +:+ dquote +:+ "calculatedScore" +:+ dquote +:+ ": "
              +:+ itoa total +:+ "}") |}.
Proof.
  intros form st st'.
  apply (success_means_recorded h form st).
  - apply run_eq. vm_compute. reflexivity.
  - reflexivity.
Defined.

Lemma cascade_prefers_appointment_witness :
  let st := with_token "tok" [bundle_reply "enc-1"] in
  fst (discoverEncounter h "tok" "p-1" EmptyString "a1" st) = Returned "enc-1" /\
  sent (snd (discoverEncounter h "tok" "p-1" EmptyString "a1" st)) = [EncounterByAppointment].
Proof.
  intros st.
  rewrite (cascade_prefers_appointment h "tok" "p-1" "a1" st (Ok "enc-1")
             (snd (FindEncounterByAppointment cfg "tok" "a1" st))).
  - split; [reflexivity | vm_compute; reflexivity].
  - discriminate.
  - apply run_eq. vm_compute. reflexivity.
Defined.

End FurtherRuns.
